(** * vall-e training engine, coordinator and sampler: a shallow embedding

    The development follows the Python sources

    - [vall_e/utils/distributed.py]  (module [Distributed]),
    - [vall_e/engines/base.py]       (modules [EngineM] and [Coordinator]),
    - [vall_e/models/base.py]        (module [Sampling]).

    Python integers are [Z]; dictionaries are [gmap]s, or association
    lists where the iteration order is observable; a Python call that may
    raise returns a [result]; objects mutated in place are threaded
    through explicitly, so that the state left behind by a call that
    raises is visible too. *)

From Stdlib Require Import ZArith Lia Bool.
From stdpp Require Import base gmap strings list fin_maps option.

Local Open Scope Z_scope.

(** ** Python values that cross module boundaries *)

Module Py.

(** The exception classes the modelled code raises or lets through. *)
Inductive exn : Type :=
| RuntimeError (msg : string)
| Exception (msg : string)
| TypeError (msg : string)
| AttributeError (msg : string)
| KeyError (key : string)
| IndexError
| StopIteration
| UnboundLocalError (name : string)
| ValueError (msg : string)
| OSError (msg : string)
| FileExistsError (path : list string)
| NotADirectoryError (path : list string)
| IsADirectoryError (path : list string).

Inductive result (A : Type) : Type :=
| Ok (a : A)
| Raise (e : exn).
Arguments Ok {A} a.
Arguments Raise {A} e.

Definition is_ok {A} (r : result A) : bool :=
  match r with Ok _ => true | Raise _ => false end.

(** [needle in s] on Python strings. *)
Fixpoint contains (needle s : string) : bool :=
  String.prefix needle s ||
  match s with
  | EmptyString => false
  | String _ rest => contains needle rest
  end.

(** [s.split(sep)[0]] for a one-character separator. *)
Fixpoint split_head (sep : Ascii.ascii) (s : string) : string :=
  match s with
  | EmptyString => EmptyString
  | String c rest =>
      if Ascii.eqb c sep then EmptyString else String c (split_head sep rest)
  end.

(** A dictionary with string keys, kept as its items in insertion
    order. *)
Definition dict (V : Type) : Type := list (string * V).

(** [d[k] = v]: an existing key keeps its place. *)
Fixpoint dict_set {V} (k : string) (v : V) (d : dict V) : dict V :=
  match d with
  | [] => [(k, v)]
  | (k', v') :: rest =>
      if String.eqb k' k then (k', v) :: rest else (k', v') :: dict_set k v rest
  end.

(** [d |= other] *)
Definition dict_update {V} (d other : dict V) : dict V :=
  foldl (fun acc kv => dict_set kv.1 kv.2 acc) d other.

(** [dict(k1=..., ..., kn=..., **d)] fails on the first key of [d] that
    is also one of the keywords [k1 ... kn]; this is that key. *)
Definition keyword_clash {V} (keywords : list string) (d : dict V) : option string :=
  fst <$> find (fun kv => bool_decide (kv.1 ∈ keywords)) d.

End Py.
Import Py.

(** ** [vall_e/utils/distributed.py] *)

Module Distributed.

(** Module-level state: the global [_distributed_initialized], the
    process environment [os.environ], and the memo table of the
    [@cache]-decorated [fix_unset_envs] (it takes no argument, so the
    table has at most one entry). *)
Record ModState : Type := {
  _distributed_initialized : bool;
  environ : gmap string string;
  fix_unset_envs_cached : bool;
}.

(** State right after the module is imported. *)
Definition module_init (env : gmap string string) : ModState :=
  {| _distributed_initialized := false;
     environ := env;
     fix_unset_envs_cached := false |}.

Definition with_environ (env : gmap string string) (s : ModState) : ModState :=
  {| _distributed_initialized := _distributed_initialized s;
     environ := env;
     fix_unset_envs_cached := fix_unset_envs_cached s |}.

(** The frame of one call of [init_distributed]: the names the body
    binds.  The body has no [global] statement, so its assignment
    creates the frame's own [_distributed_initialized]. *)
Record init_frame : Type := {
  local_distributed_initialized : option bool;
}.

(** The callback [fn] is the process-group constructor: it lives outside
    this module, reads and possibly writes the process environment, and
    may raise. *)
Definition callback : Type :=
  gmap string string -> gmap string string * result unit.

(** [[
    def init_distributed( fn, ... ):
        fn( ... )
        _distributed_initialized = True
    ]] *)
Definition init_distributed (fn : callback) (s : ModState)
  : ModState * init_frame * result unit :=
  let frame0 := {| local_distributed_initialized := None |} in
  let '(env', r) := fn (environ s) in
  let s' := with_environ env' s in
  match r with
  | Raise e => (s', frame0, Raise e)
  | Ok _ =>
      let frame1 := {| local_distributed_initialized := Some true |} in
      (s', frame1, Ok tt)
  end.

(** [[
    def distributed_initialized():
        return _distributed_initialized
    ]] *)
Definition distributed_initialized (s : ModState) : bool :=
  _distributed_initialized s.

Definition default_envs (free_port : string) : list (string * string) :=
  [ ("RANK", "0"); ("WORLD_SIZE", "1"); ("MASTER_ADDR", "localhost");
    ("MASTER_PORT", free_port); ("LOCAL_RANK", "0") ]%string.

(** The keys of [envs] in [fix_unset_envs]. *)
Definition rendezvous_variables : list string :=
  ["RANK"; "WORLD_SIZE"; "MASTER_ADDR"; "MASTER_PORT"; "LOCAL_RANK"]%string.

(** [fix_unset_envs]: memoised; returns without writing as soon as one
    of the five variables is set, otherwise writes all five.
    [free_port] is what [get_free_port()] returned. *)
Definition fix_unset_envs (free_port : string) (s : ModState) : ModState :=
  if fix_unset_envs_cached s then s
  else
    let envs := default_envs free_port in
    let env' :=
      if existsb (fun kv => bool_decide (is_Some (environ s !! kv.1))) envs
      then environ s
      else foldl (fun m kv => <[kv.1 := kv.2]> m) (environ s) envs in
    {| _distributed_initialized := _distributed_initialized s;
       environ := env';
       fix_unset_envs_cached := true |}.

Section Readers.
(** [int(...)] on the text of an environment variable. *)
Variable py_int : string -> option Z.

Definition getenv_int (key : string) (default : Z) (s : ModState) : result Z :=
  match environ s !! key with
  | None => Ok default
  | Some txt =>
      match py_int txt with
      | Some z => Ok z
      | None => Raise (ValueError txt)
      end
  end.

Definition local_rank := getenv_int "LOCAL_RANK" 0.
Definition global_rank := getenv_int "RANK" 0.
Definition world_size := getenv_int "WORLD_SIZE" 1.

Definition is_local_leader (s : ModState) : result bool :=
  match local_rank s with Ok r => Ok (r =? 0) | Raise e => Raise e end.
Definition is_global_leader (s : ModState) : result bool :=
  match global_rank s with Ok r => Ok (r =? 0) | Raise e => Raise e end.

(** [local_leader_only(fn, default=d)] and [global_leader_only]: the
    wrapped function runs on the leader only. *)
Definition local_leader_only {A} (fn : ModState -> ModState * result A)
    (default : A) (s : ModState) : ModState * result A :=
  match is_local_leader s with
  | Ok true => fn s
  | Ok false => (s, Ok default)
  | Raise e => (s, Raise e)
  end.
Definition global_leader_only {A} (fn : ModState -> ModState * result A)
    (default : A) (s : ModState) : ModState * result A :=
  match is_global_leader s with
  | Ok true => fn s
  | Ok false => (s, Ok default)
  | Raise e => (s, Raise e)
  end.
End Readers.

(** The operations a client can invoke on the module. *)
Inductive op : Type :=
| OpInitDistributed (fn : callback)
| OpDistributedInitialized
| OpFixUnsetEnvs (free_port : string)
| OpLocalRank | OpGlobalRank | OpWorldSize
| OpIsLocalLeader | OpIsGlobalLeader.

Definition run_op (o : op) (s : ModState) : ModState :=
  match o with
  | OpInitDistributed fn => (init_distributed fn s).1.1
  | OpFixUnsetEnvs port => fix_unset_envs port s
  | OpDistributedInitialized
  | OpLocalRank | OpGlobalRank | OpWorldSize
  | OpIsLocalLeader | OpIsGlobalLeader => s
  end.

(** A program state is reachable when some sequence of operations leads
    to it from the freshly imported module. *)
Definition run_ops (ops : list op) (s : ModState) : ModState :=
  foldl (fun st o => run_op o st) s ops.

End Distributed.

(** ** A state-and-exception monad for methods that mutate [self] *)

Module StateExn.

Definition M (S A : Type) : Type := S -> S * result A.

Definition ret {S A} (a : A) : M S A := fun s => (s, Ok a).
Definition raise {S A} (e : exn) : M S A := fun s => (s, Raise e).
Definition bind {S A B} (c : M S A) (k : A -> M S B) : M S B :=
  fun s =>
    match c s with
    | (s', Ok a) => k a s'
    | (s', Raise e) => (s', Raise e)
    end.
Definition get {S} : M S S := fun s => (s, Ok s).
Definition modify {S} (f : S -> S) : M S unit := fun s => (f s, Ok tt).
(** Lift a computation that cannot touch the state. *)
Definition lift {S A} (r : result A) : M S A := fun s => (s, r).

Declare Scope stexn_scope.
Delimit Scope stexn_scope with stexn.
Notation "'do' x <- c ;; k" := (bind c (fun x => k))
  (at level 10, x name, c at level 99, k at level 200) : stexn_scope.
Notation "'run' c ;; k" := (bind c (fun _ => k))
  (at level 10, c at level 99, k at level 200) : stexn_scope.

End StateExn.
Import StateExn.

(** ** The compute backend, as far as the engine touches it

    Tensors, optimizers and schedulers belong to the backend.  The engine
    only moves their states around, so they are taken as an interface. *)

Record Param (T : Type) : Type := mkParam {
  p_data : T;
  requires_grad : bool;
}.
Arguments mkParam {T} _ _.
Arguments p_data {T} _.
Arguments requires_grad {T} _.

Class Backend : Type := {
  (** contents of one parameter tensor *)
  tensor : Type;
  (** floating-point scalars: learning rates, losses, logged statistics *)
  scalar : Type;
  (** what [optimizer.state_dict()] holds besides the parameter groups *)
  optim_state : Type;
  (** what [lr_scheduler.state_dict()] holds *)
  sched_state : Type;
  (** [optimizer.step()]: reads the gradients, rewrites the parameters it
      owns and its own state *)
  optimizer_update :
    optim_state -> gmap string (Param tensor) ->
    optim_state * gmap string (Param tensor);
  (** [optimizer.zero_grad()] on the parameters *)
  optimizer_zero_grad : gmap string (Param tensor) -> gmap string (Param tensor);
  (** [optimizer.load_state_dict(sd, map_location=device)], given the
      current optimizer state and parameter groups; [sd] is the Python
      value stored in the checkpoint, [None] included *)
  optimizer_load_state_dict :
    optim_state * list (option scalar) ->
    option (optim_state * list (option scalar)) ->
    result (optim_state * list (option scalar));
  (** [lr_scheduler.load_state_dict(sd, map_location=device)] *)
  scheduler_load_state_dict :
    sched_state -> option sched_state -> result sched_state;
  (** [loss.backward()], after scaling by the accumulation factor *)
  autograd_backward :
    scalar -> Z -> gmap string (Param tensor) ->
    result (gmap string (Param tensor));
}.

(** ** [vall_e/engines/base.py]: class [Engine] *)

Module EngineM.
Section WithBackend.
Context `{BE : Backend}.

Abbreviation Module_ := (gmap string (Param tensor)).
Abbreviation StateDict := (gmap string tensor).

(** The per-model configuration object bound as [self._cfg]. *)
Record ModelCfg : Type := {
  training : bool;
  (** [None] when the object has no attribute [frozen_params] *)
  frozen_params : option (list string);
}.

(** [__init__] sets [self._cfg] only when the keyword is given. *)
Inductive CfgAttr : Type :=
| CfgUnset                     (* no attribute [_cfg] on the object *)
| CfgNone                      (* [_cfg=None] was passed *)
| CfgBound (c : ModelCfg).

Inductive opt_call : Type := CallStep | CallZeroGrad.

Record Optimizer : Type := {
  opt_state : optim_state;
  (** the ['lr'] entry of each parameter group, [None] for a group
      without one *)
  param_groups : list (option scalar);
  (** ghost: the [step()] and [zero_grad()] calls received, most recent
      first *)
  opt_calls : list opt_call;
}.

Record Engine : Type := {
  _cfg : CfgAttr;
  module : Module_;
  optimizer : option Optimizer;
  lr_scheduler : option sched_state;
  global_steps : Z;
  micro_steps : Z;
  global_samples : Z;
  tokens_processed : Z;
  (** names of the parameters held in the set [_frozen_params] *)
  _frozen_params : gset string;
  (** the instance attribute [mocro_step]: absent until something
      assigns it *)
  mocro_step : option Z;
}.

(** The training-wide configuration [cfg] read by the engine. *)
Record Config : Type := {
  batch_size : Z;                          (* cfg.hyperparameters.batch_size *)
  gradient_accumulation_steps : Z;         (* cfg.hyperparameters.gradient_accumulation_steps *)
  learning_rate : scalar;                  (* cfg.hyperparameters.learning_rate *)
  scheduler_type : string;                 (* cfg.hyperparameters.scheduler_type *)
  ckpt_dir : list string;                  (* cfg.ckpt_dir *)
  load_tag : option string;                (* cfg.trainer.load_tag *)
  strict_loading : bool;
  load_module_only : bool;
  load_states : bool;
  restart_step_count : bool;
  check_for_oom : bool;
  gc_mode : string;
  aggressive_optimizations : bool;
}.

(** Field setters (Python attribute assignment). *)
Definition set_module (m : Module_) (e : Engine) : Engine :=
  {| _cfg := _cfg e; module := m; optimizer := optimizer e;
     lr_scheduler := lr_scheduler e; global_steps := global_steps e;
     micro_steps := micro_steps e; global_samples := global_samples e;
     tokens_processed := tokens_processed e;
     _frozen_params := _frozen_params e; mocro_step := mocro_step e |}.
Definition set_optimizer (o : option Optimizer) (e : Engine) : Engine :=
  {| _cfg := _cfg e; module := module e; optimizer := o;
     lr_scheduler := lr_scheduler e; global_steps := global_steps e;
     micro_steps := micro_steps e; global_samples := global_samples e;
     tokens_processed := tokens_processed e;
     _frozen_params := _frozen_params e; mocro_step := mocro_step e |}.
Definition set_lr_scheduler (s : option sched_state) (e : Engine) : Engine :=
  {| _cfg := _cfg e; module := module e; optimizer := optimizer e;
     lr_scheduler := s; global_steps := global_steps e;
     micro_steps := micro_steps e; global_samples := global_samples e;
     tokens_processed := tokens_processed e;
     _frozen_params := _frozen_params e; mocro_step := mocro_step e |}.
Definition set_global_steps (z : Z) (e : Engine) : Engine :=
  {| _cfg := _cfg e; module := module e; optimizer := optimizer e;
     lr_scheduler := lr_scheduler e; global_steps := z;
     micro_steps := micro_steps e; global_samples := global_samples e;
     tokens_processed := tokens_processed e;
     _frozen_params := _frozen_params e; mocro_step := mocro_step e |}.
Definition set_micro_steps (z : Z) (e : Engine) : Engine :=
  {| _cfg := _cfg e; module := module e; optimizer := optimizer e;
     lr_scheduler := lr_scheduler e; global_steps := global_steps e;
     micro_steps := z; global_samples := global_samples e;
     tokens_processed := tokens_processed e;
     _frozen_params := _frozen_params e; mocro_step := mocro_step e |}.
Definition set_global_samples (z : Z) (e : Engine) : Engine :=
  {| _cfg := _cfg e; module := module e; optimizer := optimizer e;
     lr_scheduler := lr_scheduler e; global_steps := global_steps e;
     micro_steps := micro_steps e; global_samples := z;
     tokens_processed := tokens_processed e;
     _frozen_params := _frozen_params e; mocro_step := mocro_step e |}.
Definition set_tokens_processed (z : Z) (e : Engine) : Engine :=
  {| _cfg := _cfg e; module := module e; optimizer := optimizer e;
     lr_scheduler := lr_scheduler e; global_steps := global_steps e;
     micro_steps := micro_steps e; global_samples := global_samples e;
     tokens_processed := z;
     _frozen_params := _frozen_params e; mocro_step := mocro_step e |}.
Definition set_frozen_params (f : gset string) (e : Engine) : Engine :=
  {| _cfg := _cfg e; module := module e; optimizer := optimizer e;
     lr_scheduler := lr_scheduler e; global_steps := global_steps e;
     micro_steps := micro_steps e; global_samples := global_samples e;
     tokens_processed := tokens_processed e;
     _frozen_params := f; mocro_step := mocro_step e |}.
Definition set_mocro_step (z : Z) (e : Engine) : Engine :=
  {| _cfg := _cfg e; module := module e; optimizer := optimizer e;
     lr_scheduler := lr_scheduler e; global_steps := global_steps e;
     micro_steps := micro_steps e; global_samples := global_samples e;
     tokens_processed := tokens_processed e;
     _frozen_params := _frozen_params e; mocro_step := Some z |}.

(** [Engine(model=..., optimizer=..., lr_scheduler=..., _cfg=...)] with
    the counters at their defaults. *)
Definition new_engine (c : CfgAttr) (m : Module_) (o : option Optimizer)
    (s : option sched_state) : Engine :=
  {| _cfg := c; module := m; optimizer := o; lr_scheduler := s;
     global_steps := 0; micro_steps := 0; global_samples := 0;
     tokens_processed := 0; _frozen_params := ∅; mocro_step := None |}.

Variable cfg : Config.

Local Open Scope stexn_scope.

(** *** Freezing

    [[
    def freeze(self, freeze_all=True):
        if self._cfg is None or not hasattr(self._cfg, "frozen_params"):
            raise Exception("freeze_all=False yet self._cfg.frozen_params is None")
        for name, param in self.module.named_parameters():
            if (freeze_all and param.requires_grad) or (not freeze_all and name in self._cfg.frozen_params):
                param.requires_grad_(False)
                self._frozen_params.add(param)
    ]] *)
Definition freeze_selects (freeze_all : bool) (names : list string)
    (name : string) (p : Param tensor) : bool :=
  (freeze_all && requires_grad p) ||
  (negb freeze_all && bool_decide (name ∈ names)).

Definition freeze (freeze_all : bool) : M Engine unit := fun e =>
  match _cfg e with
  | CfgUnset =>
      (e, Raise (AttributeError "'Engine' object has no attribute '_cfg'"))
  | CfgNone =>
      (e, Raise (Exception "freeze_all=False yet self._cfg.frozen_params is None"))
  | CfgBound c =>
      match frozen_params c with
      | None =>
          (e, Raise (Exception "freeze_all=False yet self._cfg.frozen_params is None"))
      | Some names =>
          let sel := freeze_selects freeze_all names in
          let m' := map_imap (fun name p =>
                      Some (if sel name p then mkParam (p_data p) false else p))
                      (module e) in
          let hit := dom (filter (fun kv => sel kv.1 kv.2 = true) (module e)) in
          (set_frozen_params (_frozen_params e ∪ hit) (set_module m' e), Ok tt)
      end
  end.

(** [[
    def unfreeze(self):
        for p in self._frozen_params:
            p.requires_grad_(True)
        self._frozen_params.clear()
    ]] *)
Definition unfreeze : M Engine unit := fun e =>
  let m' := map_imap (fun name p =>
              Some (if bool_decide (name ∈ _frozen_params e)
                    then mkParam (p_data p) true else p))
              (module e) in
  (set_frozen_params ∅ (set_module m' e), Ok tt).

(** *** Properties *)

Definition _training (e : Engine) : result bool :=
  match _cfg e with
  | CfgUnset => Ok true
  | CfgNone => Raise (AttributeError "'NoneType' object has no attribute 'training'")
  | CfgBound c => Ok (training c)
  end.

Definition global_step (e : Engine) : Z := global_steps e.
Definition micro_step (e : Engine) : Z := micro_steps e.

(** [next(self.module.parameters()).device]: fails on a module without
    parameters.  The device itself plays no role below. *)
Definition device (e : Engine) : result unit :=
  if bool_decide (module e = ∅) then Raise StopIteration else Ok tt.

(** *** Checkpoints *)

Definition state_dict (m : Module_) : StateDict := p_data <$> m.

(** [module.load_state_dict(sd)] with the default [strict=True].  The
    module is updated in place: every parameter whose name [sd] has takes
    the stored contents, and only afterwards are missing and unexpected
    names reported, so the module that a failed call leaves behind has
    the matching parameters overwritten.  Gradient flags are not part of
    the state.  A [tensor] stands for the contents of a parameter of the
    shape its name has in the model, so stored and current tensors of one
    name always fit. *)
Definition load_state_dict (sd : StateDict) (m : Module_) : Module_ * result unit :=
  (map_imap (fun name p =>
     Some (mkParam (default (p_data p) (sd !! name)) (requires_grad p))) m,
   if bool_decide (dom sd = dom m) then Ok tt
   else Raise (RuntimeError "Error(s) in loading state_dict")).

Definition optimizer_state_dict (o : Optimizer)
  : optim_state * list (option scalar) :=
  (opt_state o, param_groups o).

(** The dictionary handed to [torch.save] and returned by [torch.load].
    A key that may be missing is an [option]; for ['optimizer'] and
    ['lr_scheduler'] the stored value may also be Python's [None]. *)
Record Checkpoint : Type := {
  ck_module : option StateDict;
  ck_optimizer : option (option (optim_state * list (option scalar)));
  ck_lr_scheduler : option (option sched_state);
  (** the ['stats'] block *)
  ck_stats : option (gmap string Z);
  (** counters stored at top level by older checkpoints *)
  ck_toplevel : gmap string Z;
}.

(** What a path leads to.  Paths are lists of components, as [pathlib]
    holds them; a path that is not in the map does not exist.  A text
    file is held as the text that reading it returns.  Permission and
    disk errors and symbolic links are outside the model. *)
Inductive file : Type :=
| TextFile (content : string)
| StateFile (state : Checkpoint)
| Directory.

Abbreviation filesystem := (gmap (list string) file).

(** [[
    def save_checkpoint(self, save_dir, tag ):
        save_path = save_dir / tag / "state.pth"
        save_path.parent.mkdir(parents=True, exist_ok=True)
        torch.save({ "module": ..., "optimizer": ..., "lr_scheduler": ...,
                     "stats": { "global_step": ..., "micro_step": ...,
                                "global_samples": ..., "tokens_processed": ... } },
                   save_path)
        open(save_dir / "latest", 'w').write( tag )
    ]] *)
Definition checkpoint_of (e : Engine) : Checkpoint :=
  {| ck_module := Some (state_dict (module e));
     ck_optimizer := Some (optimizer_state_dict <$> optimizer e);
     ck_lr_scheduler := Some (lr_scheduler e);
     ck_stats := Some (<["global_step" := global_step e]>
                      (<["micro_step" := micro_step e]>
                      (<["global_samples" := global_samples e]>
                      (<["tokens_processed" := tokens_processed e]> ∅))));
     ck_toplevel := ∅ |}.

(** A string that is one path component and survives a round trip
    through a text file: not empty, not [.] or [..], at most 255
    characters, all of them ASCII and none of them NUL, the slash or
    the carriage return.  [pathlib] splits a string at its slashes and
    drops empty and [.] components, and reading in text mode turns a
    carriage return into a line feed. *)
Definition plain_char (c : Ascii.ascii) : bool :=
  let n := Ascii.nat_of_ascii c in
  Nat.ltb 0 n && Nat.ltb n 128 && negb (Nat.eqb n 47) && negb (Nat.eqb n 13).

Definition plain_name (s : string) : bool :=
  negb (String.eqb s EmptyString) && negb (String.eqb s ".")
  && negb (String.eqb s "..") && Nat.leb (String.length s) 255
  && forallb plain_char (String.list_ascii_of_string s).

Definition is_dir (fs : filesystem) (p : list string) : bool :=
  match fs !! p with
  | Some Directory => true
  | _ => false
  end.

(** Something other than a directory is at [p]. *)
Definition is_file (fs : filesystem) (p : list string) : bool :=
  match fs !! p with
  | Some (TextFile _) | Some (StateFile _) => true
  | Some Directory | None => false
  end.

(** The path itself and the directories above it, outermost first. *)
Definition lineage (p : list string) : list (list string) :=
  (fun n => take n p) <$> seq 1 (length p).

(** [p.mkdir(parents=True, exist_ok=True)]: the missing directories of
    the lineage are created; a file at [p] or above it makes the call
    fail before anything is created. *)
Definition mkdir_parents (p : list string) (fs : filesystem)
  : filesystem * result unit :=
  match find (is_file fs) (lineage p) with
  | Some q =>
      (fs, Raise (if bool_decide (q = p) then FileExistsError p
                  else NotADirectoryError p))
  | None => (foldl (fun m q => <[q := Directory]> m) fs (lineage p), Ok tt)
  end.

(** [save_checkpoint] for a directory and a tag made of plain names;
    for other tags, which [pathlib] takes apart or which do not read
    back from the pointer as written, the model gives no answer.  The
    three file operations happen in the order of the source, and each
    can fail: what the earlier ones wrote stays. *)
Definition save_checkpoint (save_dir : list string) (tag : string)
    (e : Engine) (fs : filesystem) : option (filesystem * result unit) :=
  if negb (forallb plain_name (save_dir ++ [tag])) then None
  else
    let save_path := save_dir ++ [tag; "state.pth"%string] in
    let tag_path := save_dir ++ ["latest"%string] in
    Some
      match mkdir_parents (save_dir ++ [tag]) fs with
      | (fs1, Raise err) => (fs1, Raise err)
      | (fs1, Ok _) =>
          if is_dir fs1 save_path then (fs1, Raise (IsADirectoryError save_path))
          else
            let fs2 := <[save_path := StateFile (checkpoint_of e)]> fs1 in
            if is_dir fs2 tag_path then (fs2, Raise (IsADirectoryError tag_path))
            else (<[tag_path := TextFile tag]> fs2, Ok tt)
      end.


(** [state['stats'][key] if 'stats' in state else state[key]] *)
Definition read_counter (state : Checkpoint) (key : string) : result Z :=
  let table := match ck_stats state with
               | Some st => st
               | None => ck_toplevel state
               end in
  match table !! key with
  | Some z => Ok z
  | None => Raise (KeyError key)
  end.

(** Lines 141 to 155: everything after the checkpoint has been read. *)
Definition restore_from (state : Checkpoint)
    (load_optimizer_states load_lr_scheduler_states : bool) : M Engine unit :=
  do gs <- lift (read_counter state "global_step") ;;
  run modify (set_global_steps gs) ;;
  do ms <- lift (read_counter state "micro_step") ;;
  run modify (set_micro_steps ms) ;;
  do sm <- lift (read_counter state "global_samples") ;;
  run modify (set_global_samples sm) ;;
  do tp <- lift (read_counter state "tokens_processed") ;;
  run modify (set_tokens_processed tp) ;;
  do sd <- lift (match ck_module state with
                 | Some sd => Ok sd
                 | None => Raise (KeyError "module")
                 end) ;;
  do e <- get ;;
  let '(m', loaded) := load_state_dict sd (module e) in
  run modify (set_module m') ;;
  run lift loaded ;;
  do e <- get ;;
  let load_optimizer_states :=
    load_optimizer_states && bool_decide (is_Some (optimizer e))
    && bool_decide (is_Some (ck_optimizer state)) in
  let load_lr_scheduler_states :=
    load_lr_scheduler_states && bool_decide (is_Some (lr_scheduler e))
    && bool_decide (is_Some (ck_lr_scheduler state)) in
  run (match load_optimizer_states, optimizer e, ck_optimizer state with
       | true, Some o, Some stored =>
           do st <- lift (optimizer_load_state_dict (optimizer_state_dict o) stored) ;;
           modify (set_optimizer (Some {| opt_state := st.1;
                                          param_groups := st.2;
                                          opt_calls := opt_calls o |}))
       | _, _, _ => ret tt
       end) ;;
  match load_lr_scheduler_states, lr_scheduler e, ck_lr_scheduler state with
  | true, Some s, Some stored =>
      do s' <- lift (scheduler_load_state_dict s stored) ;;
      modify (set_lr_scheduler (Some s'))
  | _, _, _ => ret tt
  end.

(** The backend calls that loading [saved]'s snapshot into [loader] makes
    all succeed. *)
Definition accepts_saved (load_optimizer_states load_lr_scheduler_states : bool)
    (saved loader : Engine) : Prop :=
  (load_optimizer_states = true ->
   forall o, optimizer loader = Some o ->
     is_ok (optimizer_load_state_dict (optimizer_state_dict o)
              (optimizer_state_dict <$> optimizer saved)) = true) /\
  (load_lr_scheduler_states = true ->
   forall s, lr_scheduler loader = Some s ->
     is_ok (scheduler_load_state_dict s (lr_scheduler saved)) = true).

(** [[
    def load_checkpoint(self, load_dir, tag=None, load_module_strict=True,
                        load_optimizer_states=True, load_lr_scheduler_states=True,
                        load_module_only=False):
        if tag is None:
            tag_path = load_dir / "latest"
            if not tag_path.exists():
                return
            tag = open(tag_path).read()
        load_path = load_dir / tag / "state.pth"
        if not load_path.exists():
            return
        state = torch.load(load_path, ...)
        ...
    ]]
    [load_module_strict] and [load_module_only] are accepted and never
    read. *)
Definition load_checkpoint (fs : filesystem) (load_dir : list string)
    (tag : option string)
    (load_module_strict load_optimizer_states load_lr_scheduler_states
     load_module_only : bool) : M Engine unit :=
  let continue_with (tag : string) : M Engine unit :=
    let load_path := load_dir ++ [tag; "state.pth"%string] in
    match fs !! load_path with
    | None => ret tt
    | Some (TextFile _) => raise (Exception "invalid load key")
    | Some (StateFile state) =>
        restore_from state load_optimizer_states load_lr_scheduler_states
    | Some Directory => raise (IsADirectoryError load_path)
    end in
  match tag with
  | None =>
      match fs !! (load_dir ++ ["latest"%string]) with
      | None => ret tt
      | Some (TextFile t) => continue_with t
      | Some (StateFile _) => raise (ValueError "'utf-8' codec can't decode")
      | Some Directory => raise (IsADirectoryError (load_dir ++ ["latest"%string]))
      end
  | Some t => continue_with t
  end.

(** *** Stepping *)

(** [[
    def backward(self, loss):
        return (loss / self.gradient_accumulation_steps).backward()
    ]] *)
Definition backward (loss : scalar) : M Engine unit := fun e =>
  match autograd_backward loss (gradient_accumulation_steps cfg) (module e) with
  | Ok m' => (set_module m' e, Ok tt)
  | Raise err => (e, Raise err)
  end.

(** [[
    def step(self):
        with torch.set_grad_enabled(self.gradient_accumulation_steps > 1):
            self.micro_steps += 1
            self.global_samples += self.batch_size
            if (self.micro_steps + 1) % max(1, self.gradient_accumulation_steps) == 0:
                self.global_steps += 1
                self.optimizer.step()
                self.optimizer.zero_grad()
    ]]
    Python's [%] with a positive divisor is [Z.modulo]. *)
Definition step : M Engine unit :=
  run modify (fun e => set_micro_steps (micro_steps e + 1) e) ;;
  run modify (fun e => set_global_samples (global_samples e + batch_size cfg) e) ;;
  do e <- get ;;
  if (micro_steps e + 1) mod (Z.max 1 (gradient_accumulation_steps cfg)) =? 0
  then
    run modify (fun e => set_global_steps (global_steps e + 1) e) ;;
    do e <- get ;;
    match optimizer e with
    | None => raise (AttributeError "'NoneType' object has no attribute 'step'")
    | Some o =>
        let '(st', m') := optimizer_update (opt_state o) (module e) in
        let o1 := {| opt_state := st'; param_groups := param_groups o;
                     opt_calls := CallStep :: opt_calls o |} in
        let m'' := optimizer_zero_grad m' in
        let o2 := {| opt_state := st'; param_groups := param_groups o1;
                     opt_calls := CallZeroGrad :: opt_calls o1 |} in
        modify (fun e => set_optimizer (Some o2) (set_module m'' e))
    end
  else ret tt.

(** Whether the call of [step()] that finds [micro_steps = m] performs
    the optimizer update. *)
Definition at_boundary (m : Z) : bool :=
  (m + 1 + 1) mod (Z.max 1 (gradient_accumulation_steps cfg)) =? 0.

(** [n] consecutive calls of [step()], stopping at the first one that
    raises. *)
Fixpoint steps (n : nat) : M Engine unit :=
  match n with
  | O => ret tt
  | S n' => run step ;; steps n'
  end.

(** [[
    def get_lr(self):
        lrs = []
        for param_group in self.optimizer.param_groups:
            if 'lr' in param_group:
                lrs.append(param_group['lr'])
        return lrs
    ]] *)
Definition get_lr (e : Engine) : result (list scalar) :=
  match optimizer e with
  | None => Raise (AttributeError "'NoneType' object has no attribute 'param_groups'")
  | Some o => Ok (omap id (param_groups o))
  end.

Definition set_lr (lr : scalar) : M Engine unit := fun e =>
  match optimizer e with
  | None => (e, Raise (AttributeError "'NoneType' object has no attribute 'param_groups'"))
  | Some o =>
      let o' := {| opt_state := opt_state o;
                   param_groups := (fun g => match g with
                                             | Some _ => Some lr
                                             | None => None
                                             end) <$> param_groups o;
                   opt_calls := opt_calls o |} in
      (set_optimizer (Some o') e, Ok tt)
  end.

(** The fields [set_lr] and the aggregate update leave alone. *)
Definition same_counters (e e' : Engine) : Prop :=
  global_steps e' = global_steps e /\ micro_steps e' = micro_steps e /\
  global_samples e' = global_samples e /\
  tokens_processed e' = tokens_processed e /\ mocro_step e' = mocro_step e.

End WithBackend.
End EngineM.

(** ** [vall_e/engines/base.py]: class [Engines] *)

Module Coordinator.
Section WithBackend.
Context `{BE : Backend}.
Import EngineM.

Abbreviation filesystem := (gmap (list string) file).

Variable cfg : Config.

Local Open Scope stexn_scope.

(** [class Engines(dict[str, Engine])]: the dictionary in insertion
    order, and the four aggregate counters set by [setup]. *)
Record Engines : Type := {
  items : list (string * Engine);
  _global_step : Z;
  _micro_step : Z;
  _batch_size : Z;
  _global_samples : Z;
}.

Definition with_items (l : list (string * Engine)) (es : Engines) : Engines :=
  {| items := l; _global_step := _global_step es;
     _micro_step := _micro_step es; _batch_size := _batch_size es;
     _global_samples := _global_samples es |}.

(** [Engines({...})]: [__init__] calls [setup]. *)
Definition new_engines (l : list (string * Engine)) : Engines :=
  {| items := l; _global_step := 0; _micro_step := 0;
     _batch_size := 0; _global_samples := 0 |}.

(** [for name, engine in self.items(): body]: the engines already
    visited keep what the body did to them, also when a later body
    raises. *)
Fixpoint for_items (body : string -> M Engine unit)
    (l : list (string * Engine)) : list (string * Engine) * result unit :=
  match l with
  | [] => ([], Ok tt)
  | (name, e) :: rest =>
      match body name e with
      | (e', Ok _) =>
          let '(rest', r) := for_items body rest in ((name, e') :: rest', r)
      | (e', Raise err) => ((name, e') :: rest, Raise err)
      end
  end.

Definition for_engines (body : string -> M Engine unit) : M Engines unit :=
  fun es => let '(l, r) := for_items body (items es) in (with_items l es, r).

(** [[
    def _update(self):
        for engine in self.values():
            self._global_step = max(self._global_step, engine.global_step)
            self._micro_step = max(self._micro_step, engine.micro_step)
            self._batch_size = max(self._batch_size, engine.batch_size)
            self._global_samples = max(self._global_samples, engine.global_samples)
    ]] *)
Definition _update : M Engines unit := fun es =>
  (foldl (fun acc ne =>
            {| items := items acc;
               _global_step := Z.max (_global_step acc) (global_step ne.2);
               _micro_step := Z.max (_micro_step acc) (micro_step ne.2);
               _batch_size := Z.max (_batch_size acc) (batch_size cfg);
               _global_samples := Z.max (_global_samples acc) (global_samples ne.2) |})
         es (items es), Ok tt).

(** [[
    def set_lr(self, lr):
        for engine in self.values():
            if not engine._training:
                continue
            engine.set_lr(lr)
    ]] *)
Definition set_lr_all (lr : scalar) : M Engines unit :=
  for_engines (fun _ =>
    do e <- get ;;
    do tr <- lift (_training e) ;;
    if negb tr then ret tt else EngineM.set_lr lr).

(** [[
    def load_checkpoint(self, tag=None):
        if not tag:
            tag = cfg.trainer.load_tag
        for name, engine in self.items():
            load_dir = cfg.ckpt_dir / name
            engine.load_checkpoint(
                tag=tag, load_dir=load_dir,
                load_module_strict=cfg.trainer.strict_loading,
                load_optimizer_states=False if cfg.trainer.load_module_only else cfg.trainer.load_states,
                load_lr_scheduler_states=False if cfg.trainer.load_module_only else cfg.trainer.load_states,
                load_module_only=cfg.trainer.load_module_only,
            )
            if cfg.trainer.restart_step_count:
                engine.global_steps = 0
                engine.mocro_step = 0
                engine.global_samples = 0
                engine.tokens_processed = 0
        if cfg.hyperparameters.scheduler_type == '':
            self.set_lr(cfg.hyperparameters.learning_rate)
        self._update()
    ]] *)
Definition effective_tag (tag : option string) : option string :=
  match tag with
  | None | Some EmptyString => load_tag cfg
  | Some t => Some t
  end.

(** The engine's own load, with the arguments the coordinator passes. *)
Definition engine_load (fs : filesystem) (tag : option string)
    (name : string) : M Engine unit :=
  EngineM.load_checkpoint fs (ckpt_dir cfg ++ [name]) (effective_tag tag)
    (strict_loading cfg)
    (if load_module_only cfg then false else load_states cfg)
    (if load_module_only cfg then false else load_states cfg)
    (load_module_only cfg).

Definition restart_counters : M Engine unit :=
  run modify (set_global_steps 0) ;;
  run modify (set_mocro_step 0) ;;
  run modify (set_global_samples 0) ;;
  modify (set_tokens_processed 0).

Definition load_one (fs : filesystem) (tag : option string)
    (name : string) : M Engine unit :=
  run engine_load fs tag name ;;
  if restart_step_count cfg then restart_counters else ret tt.

Definition load_checkpoint (fs : filesystem) (tag : option string)
  : M Engines unit :=
  run for_engines (load_one fs tag) ;;
  run (if bool_decide (scheduler_type cfg = EmptyString)
       then set_lr_all (learning_rate cfg) else ret tt) ;;
  _update.

(** *** One training step across the collection *)

Section Step.
(** Elements of a batch field, and the feeder with its own state: a
    feeder is any callable, so what it does may depend on how often
    it has been called. *)
Context {Sample FeederState : Type}.

Abbreviation Batch := (gmap string (list Sample)).
Abbreviation Stats := (dict scalar).

(** [feeder(engine=engine, batch=batch)]: returns [None] or
    [(loss, stats)], or raises. *)
Variable feeder :
  FeederState -> Engine -> Batch ->
  FeederState * result (option (scalar * Stats)).
(** [utils.gather_attribute(module, "scalar")] *)
Variable gather_scalar : gmap string (Param tensor) -> Stats.
(** [world_size()] and the sum [all_reduce] leaves in [n_ooms], as a
    function of this process's own count. *)
Variable world_size : Z.
Variable all_reduce : Z -> Z.

Inductive event : Type :=
| EvGC                                  (* do_gc() *)
| EvFeeder (name : string) (b : Batch)  (* feeder called with this batch *)
| EvEmergencySave                       (* self.save_checkpoint() *)
| EvAllReduce (local : Z).

(** The keywords of the [dict( ... )] call that builds an engine's
    entry of the statistics. *)
Definition entry_keywords : list string :=
  ["loss"; "lr"; "grad_norm"; "elapsed_time"; "engine_step";
   "samples_processed"; "tokens_processed"]%string.

(** A dictionary that uses none of them as a key. *)
Definition free_of_keywords (d : Stats) : Prop :=
  Forall (fun kv => kv.1 ∉ entry_keywords) d.

(** [[
    def gather_attribute(self, *args, **kwargs):
        ret = {}
        for engine in self.values():
            ret |= engine.gather_attribute( *args, **kwargs )
        return ret
    ]] *)
Definition gather_attribute (l : list (string * Engine)) : Stats :=
  foldl (fun ret ne => dict_update ret (gather_scalar (module ne.2))) [] l.

(** One entry of the statistics mapping, before [flatten_dict]; the
    wall-clock [elapsed_time] is left out. *)
Record EngineStats : Type := {
  st_prefix : string;          (* name.split("-")[0] *)
  st_loss : scalar;
  st_lr : scalar;
  st_engine_step : Z;
  st_samples_processed : Z;
  st_tokens_processed : Z;
  st_extra : Stats;
}.

(** The local variables of [step] that outlive one loop iteration. *)
Record Locals : Type := {
  l_batch : Batch;
  (** [res]: unbound until the feeder has returned once *)
  l_res : option (option (scalar * Stats));
  l_stats : list EngineStats;
  l_feeder : FeederState;
  (** ghost: what happened, most recent first *)
  l_trace : list event;
}.

Definition log (ev : event) (l : Locals) : Locals :=
  {| l_batch := l_batch l; l_res := l_res l; l_stats := l_stats l;
     l_feeder := l_feeder l; l_trace := ev :: l_trace l |}.
Definition with_batch (b : Batch) (l : Locals) : Locals :=
  {| l_batch := b; l_res := l_res l; l_stats := l_stats l;
     l_feeder := l_feeder l; l_trace := l_trace l |}.
Definition with_res (r : option (scalar * Stats)) (l : Locals) : Locals :=
  {| l_batch := l_batch l; l_res := Some r; l_stats := l_stats l;
     l_feeder := l_feeder l; l_trace := l_trace l |}.
Definition with_feeder (f : FeederState) (l : Locals) : Locals :=
  {| l_batch := l_batch l; l_res := l_res l; l_stats := l_stats l;
     l_feeder := f; l_trace := l_trace l |}.
Definition push_stats (s : EngineStats) (l : Locals) : Locals :=
  {| l_batch := l_batch l; l_res := l_res l; l_stats := l_stats l ++ [s];
     l_feeder := l_feeder l; l_trace := l_trace l |}.

(** [v[:-1]] *)
Definition drop_last {A} (v : list A) : list A :=
  take (length v - 1)%nat v.

(** [[
    for k in batch:
        batch[k] = batch[k][:-1]
    ]] *)
Definition shrink (b : Batch) : Batch := drop_last <$> b.

Definition call_feeder (name : string) (e : Engine) (l : Locals)
  : Locals * result (option (scalar * Stats)) :=
  let '(f', out) := feeder (l_feeder l) e (l_batch l) in
  (with_feeder f' (log (EvFeeder name (l_batch l)) l), out).

(** How the [while tries >= 0] loop of the forward pass is left, or
    that it is still running. *)
Inductive loop_exit : Type :=
| Broke            (* [break] after the feeder returned *)
| CondFalse        (* the loop condition failed *)
| Raised (e : exn)
| StillRunning.    (* the iterations granted are used up *)

(** [[
    while tries >= 0:
        try:
            res = feeder( engine=engine, batch=batch )
            break
        except RuntimeError as e:
            print("Forward", str(e))
            if "out of memory" not in str(e):
                self.save_checkpoint()
                raise e
            # shrink batch size until it's happy
            for k in batch:
                batch[k] = batch[k][:-1]
            if tries <= 0:
                # trigger OOM
                n_ooms += 1
            else:
                # also do GC
                do_gc()
            continue
    ]]
    [fuel] bounds the number of iterations looked at; the result holds
    the locals and [n_ooms] at the point reached.  The body assigns
    neither [tries] nor anything it is computed from. *)
Fixpoint forward_loop (fuel : nat) (name : string) (e : Engine)
    (tries n_ooms : Z) (l : Locals) : Locals * Z * loop_exit :=
  match fuel with
  | O => (l, n_ooms, StillRunning)
  | S fuel' =>
      if negb (tries >=? 0) then (l, n_ooms, CondFalse)
      else
        match call_feeder name e l with
        | (l1, Ok res) => (with_res res l1, n_ooms, Broke)
        | (l1, Raise (RuntimeError msg)) =>
            if negb (contains "out of memory" msg)
            then (log EvEmergencySave l1, n_ooms, Raised (RuntimeError msg))
            else
              let l2 := with_batch (shrink (l_batch l1)) l1 in
              if tries <=? 0
              then forward_loop fuel' name e tries (n_ooms + 1) l2
              else forward_loop fuel' name e tries n_ooms (log EvGC l2)
        | (l1, Raise other) => (l1, n_ooms, Raised other)
        end
  end.

(** The batches the feeder has been called with, oldest first. *)
Definition feeder_calls (l : Locals) : list (string * Batch) :=
  rev (omap (fun ev => match ev with
                       | EvFeeder name b => Some (name, b)
                       | _ => None
                       end) (l_trace l)).

(** A feeder that runs out of memory whenever it is called. *)
Definition always_oom : Prop :=
  forall f e b, exists f' msg,
    feeder f e b = (f', Raise (RuntimeError msg)) /\
    contains "out of memory" msg = true.

(** What the events other than feeder calls leave alone. *)
Definition same_data (l l' : Locals) : Prop :=
  l_batch l' = l_batch l /\ l_res l' = l_res l /\ l_stats l' = l_stats l /\
  l_feeder l' = l_feeder l /\ feeder_calls l' = feeder_calls l.

(** [[
    if world_size() > 1:
        all_reduce(n_ooms)
    if n_ooms.item() > 0:
        self.save_checkpoint()
        raise RuntimeError(msg)
    ]] *)
Definition sync_ooms (n_ooms : Z) (msg : string) (l : Locals)
  : Locals * result unit :=
  let '(n, l1) := if world_size >? 1
                  then (all_reduce n_ooms, log (EvAllReduce n_ooms) l)
                  else (n_ooms, l) in
  if n >? 0 then (log EvEmergencySave l1, Raise (RuntimeError msg))
  else (l1, Ok tt).

(** Lines 381 to 416: the forward pass of one engine. *)
Definition forward_pass (fuel : nat) (name : string) (e : Engine) (l : Locals)
  : option (Locals * result unit) :=
  let tries := 4 in
  let n_ooms := 0 in
  if negb (check_for_oom cfg) then
    match call_feeder name e l with
    | (l1, Ok res) => Some (with_res res l1, Ok tt)
    | (l1, Raise err) => Some (l1, Raise err)
    end
  else
    match forward_loop fuel name e tries n_ooms l with
    | (_, _, StillRunning) => None
    | (l1, _, Raised err) => Some (l1, Raise err)
    | (l1, n, (Broke | CondFalse)) =>
        Some (sync_ooms n "Out of memory during forward pass!" l1)
    end.

(** Lines 424 to 447: the backward pass. *)
Definition backward_pass (loss : scalar) (e : Engine) (l : Locals)
  : Engine * Locals * result unit :=
  if negb (check_for_oom cfg) then
    let '(e', r) := EngineM.backward cfg loss e in (e', l, r)
  else
    match EngineM.backward cfg loss e with
    | (e', Ok _) =>
        let '(l', r) := sync_ooms 0 "Out of memory during backwards pass!" l in
        (e', l', r)
    | (e', Raise (RuntimeError msg)) =>
        if negb (contains "out of memory" msg)
        then (e', log EvEmergencySave l, Raise (RuntimeError msg))
        else
          let '(l', r) := sync_ooms (0 + 1) "Out of memory during backwards pass!" l in
          (e', l', r)
    | (e', Raise other) => (e', l, Raise other)
    end.

(** The result of one loop body: [None] when the forward loop is still
    running after [fuel] iterations. *)
Definition body_result : Type := option (Engine * Locals * result unit).

(** The body of [for name, engine in self.items()], lines 371 to 471;
    [before] and [after] are the other engines of the collection, which
    [self.gather_attribute] visits too. *)
Definition step_body (fuel : nat) (before after : list (string * Engine))
    (name : string) (e : Engine) (l : Locals) : body_result :=
  match _training e with
  | Raise err => Some (e, l, Raise err)
  | Ok false => Some (e, l, Ok tt)
  | Ok true =>
      match device e with
      | Raise err => Some (e, l, Raise err)
      | Ok _ =>
          let l := if bool_decide (gc_mode cfg = "substep"%string)
                   then log EvGC l else l in
          match forward_pass fuel name e l with
          | None => None
          | Some (l, Raise err) => Some (e, l, Raise err)
          | Some (l, Ok _) =>
              match l_res l with
              | None => Some (e, l, Raise (UnboundLocalError "res"))
              | Some None => Some (e, l, Ok tt)
              | Some (Some (loss, engine_stats)) =>
                  let engine_stats :=
                    dict_update engine_stats
                      (gather_attribute (before ++ (name, e) :: after)) in
                  match backward_pass loss e l with
                  | (e, l, Raise err) => Some (e, l, Raise err)
                  | (e, l, Ok _) =>
                      match EngineM.step cfg e with
                      | (e, Raise err) => Some (e, l, Raise err)
                      | (e, Ok _) =>
                          match get_lr e with
                          | Raise err => Some (e, l, Raise err)
                          | Ok [] => Some (e, l, Raise IndexError)
                          | Ok (lr :: _) =>
                              match keyword_clash entry_keywords engine_stats with
                              | Some k =>
                                  Some (e, l,
                                        Raise (TypeError
                                          ("dict() got multiple values for keyword argument '"
                                           +:+ k +:+ "'")))
                              | None =>
                                  Some (e,
                                        push_stats
                                          {| st_prefix := split_head (Ascii.ascii_of_nat 45) name;
                                             st_loss := loss;
                                             st_lr := lr;
                                             st_engine_step := global_step e;
                                             st_samples_processed := global_samples e;
                                             st_tokens_processed := tokens_processed e;
                                             st_extra := engine_stats |} l,
                                        Ok tt)
                              end
                          end
                      end
                  end
              end
          end
      end
  end.

(** The [for] loop of [step]; [done] holds the engines already
    visited, in order. *)
Fixpoint step_loop (fuel : nat) (done todo : list (string * Engine))
    (l : Locals) : option (list (string * Engine) * Locals * result unit) :=
  match todo with
  | [] => Some (done, l, Ok tt)
  | (name, e) :: rest =>
      match step_body fuel done rest name e l with
      | None => None
      | Some (e', l', Ok _) => step_loop fuel (done ++ [(name, e')]) rest l'
      | Some (e', l', Raise err) =>
          Some (done ++ (name, e') :: rest, l', Raise err)
      end
  end.

(** What [step] returns: the per-engine statistics, whether the total
    ["elapsed_time"] entry is present, and ["it"]. *)
Record StepStats : Type := {
  per_engine : list EngineStats;
  has_total_elapsed_time : bool;
  it : Z;
}.

(** [Engines.step(batch, feeder)].  The outcome carries the collection
    and the locals as the call leaves them. *)
Definition step (fuel : nat) (batch : Batch) (f0 : FeederState) (es : Engines)
  : option (Engines * Locals * result StepStats) :=
  let l0 := {| l_batch := batch; l_res := None; l_stats := [];
               l_feeder := f0; l_trace := [] |} in
  let l0 := if bool_decide (gc_mode cfg = "step"%string)
            then log EvGC l0 else l0 in
  match step_loop fuel [] (items es) l0 with
  | None => None
  | Some (its, l, Raise err) => Some (with_items its es, l, Raise err)
  | Some (its, l, Ok _) =>
      let es' := (_update (with_items its es)).1 in
      Some (es', l,
            Ok {| per_engine := l_stats l;
                  has_total_elapsed_time := bool_decide (1 < length its)%nat;
                  it := _global_step es' |})
  end.
(** No out-of-memory count can come back from the other processes:
    checking is off, or the process is alone, or the sum of zeros is
    zero. *)
Definition quiet_peers : Prop :=
  check_for_oom cfg = false \/ world_size <= 1 \/ all_reduce 0 = 0.

End Step.

End WithBackend.
End Coordinator.

(** ** [vall_e/models/base.py]: the time slice taken by [Base.sample] *)

Module Sampling.

(** What the subclasses of [Base] fix through their properties. *)
Record Model : Type := {
  causal : bool;
  recurrent_chunk_size : Z;
  n_tokens : Z;
}.

(** The Python values that reach the second argument of [zip] in
    [sample]: an [int], or the lengths produced by [map(len, ...)]. *)
Inductive pyval : Type :=
| PyInt (z : Z)
| PyInts (l : list Z).

(** [iter(v)] *)
Definition py_iter (v : pyval) : result (list Z) :=
  match v with
  | PyInt _ => Raise (TypeError "'int' object is not iterable")
  | PyInts l => Ok l
  end.

(** [zip(xs, v)], consumed by a list comprehension. *)
Definition py_zip {A} (xs : list A) (v : pyval) : result (list (A * Z)) :=
  match py_iter v with
  | Ok ys => Ok (zip xs ys)
  | Raise e => Raise e
  end.

(** [v[start:]] along the first dimension. *)
Definition slice_from {A} (start : Z) (v : list A) : list A :=
  let n := Z.of_nat (length v) in
  let i := if start <? 0 then Z.max (n + start) 0 else Z.min start n in
  drop (Z.to_nat i) v.

(** [len(x)] for every element, as [map(len, resps_list)] yields them. *)
Definition lengths {A} (xs : list (list A)) : list Z :=
  (fun x => Z.of_nat (length x)) <$> xs.

(** [[
    # (NAR) return the entire generated response
    if quant_levels is not None:
        logits = [ logit[-l:] for logit, l in zip(logits, map(len, resps_list)) ]
    # (AR chunkwise) return the last chunkwise piece
    elif self.causal and self.recurrent_chunk_size > 0:
        logits = [ logit[-l:] for logit, l in zip(logits, self.recurrent_chunk_size) ]
    # (AR) return just the last code
    else:
        logits = [ logit[-1:] for logit in logits ]
    ]]
    A logits tensor is the list of its rows, one per position. *)
Definition time_slice {Row Code QL : Type} (m : Model)
    (logits : list (list Row)) (resps_list : list (list Code))
    (quant_levels : option QL) : result (list (list Row)) :=
  match quant_levels with
  | Some _ =>
      match py_zip logits (PyInts (lengths resps_list)) with
      | Ok pairs => Ok ((fun p => slice_from (- p.2) p.1) <$> pairs)
      | Raise e => Raise e
      end
  | None =>
      if causal m && (recurrent_chunk_size m >? 0) then
        match py_zip logits (PyInt (recurrent_chunk_size m)) with
        | Ok pairs => Ok ((fun p => slice_from (- p.2) p.1) <$> pairs)
        | Raise e => Raise e
        end
      else Ok (slice_from (-1) <$> logits)
  end.

(** What the comment on the chunked branch describes: for every
    sequence, its last [recurrent_chunk_size] positions. *)
Definition newest_chunk {Row : Type} (m : Model) (logits : list (list Row))
  : list (list Row) :=
  slice_from (- recurrent_chunk_size m) <$> logits.

End Sampling.

(** ** [vall_e/models/base.py]: list and padding helpers

    A tensor is the list of its slices along the first dimension. *)

Module Tensors.

(** Run through a list of outcomes, stopping at the first exception. *)
Fixpoint collect {A : Type} (rs : list (result A)) : result (list A) :=
  match rs with
  | [] => Ok []
  | Raise e :: _ => Raise e
  | Ok a :: rest =>
      match collect rest with
      | Ok l => Ok (a :: l)
      | Raise e => Raise e
      end
  end.

(** [[
    def _create_mask(l, device):
        seq = torch.arange(max(l), device=device).unsqueeze(0)  # (1 t)
        stop = torch.tensor(l, device=device).unsqueeze(1)  # (b 1)
        return (seq < stop).float()  # (b t)
    ]]
    [l] holds lengths.  [.float()] turns [True] into 1.0 and [False]
    into 0.0; the mask is kept as booleans here. *)
Definition _create_mask (l : list nat) : result (list (list bool)) :=
  match l with
  | [] => Raise (ValueError "max() arg is an empty sequence")
  | _ =>
      let t := foldr Nat.max 0%nat l in
      Ok ((fun stop => (fun i => (i <? stop)%nat) <$> seq 0 t) <$> l)
  end.

(** [[
    def _join(x: tuple[Tensor], sep: Tensor):
        ret = x[0]
        for i in range(1, len(x)):
            ret = torch.cat((ret, sep[None], x[i]), dim=0)
        return ret
    ]] *)
Definition _join {Row : Type} (x : list (list Row)) (sep : Row) : result (list Row) :=
  match x with
  | [] => Raise IndexError
  | x0 :: rest => Ok (foldl (fun ret xi => ret ++ [sep] ++ xi) x0 rest)
  end.

(** [zip( *ls )] for at least one list: the tuples of the elements at
    the same position, as many as the shortest list has. *)
Fixpoint py_zip_star {A : Type} (ls : list (list A)) : list (list A) :=
  match ls with
  | [] => []
  | [l] => (fun a => [a]) <$> l
  | l :: rest => zip_with cons l (py_zip_star rest)
  end.

(** [[
    def _samplewise_merge_tensors( *l, sep: Tensor | None ):
        if sep is None:
            cat = torch.cat
        else:
            cat = partial(_join, sep=sep)
        l = [ x for x in l if x is not None ]
        return [ *map(cat, zip( *l )) ]
    ]] *)
Definition _samplewise_merge_tensors {Row : Type}
    (l : list (option (list (list Row)))) (sep : option Row)
  : result (list (list Row)) :=
  let cat : list (list Row) -> result (list Row) :=
    match sep with
    | None => fun t => Ok (concat t)
    | Some s => fun t => _join t s
    end in
  let l := omap id l in
  collect (cat <$> py_zip_star l).

(** [weight[token]] in [nn.Embedding.forward]: an index outside the
    table is an error. *)
Definition embedding_row {V : Type} (weight : list V) (token : Z) : result V :=
  if (0 <=? token) && (token <? Z.of_nat (length weight))
  then match weight !! Z.to_nat token with
       | Some v => Ok v
       | None => Raise IndexError
       end
  else Raise IndexError.

(** [t.split(sizes)] along the first dimension: the sizes must add up to
    the length. *)
Fixpoint split_sizes {A : Type} (sizes : list nat) (t : list A)
  : result (list (list A)) :=
  match sizes with
  | [] =>
      match t with
      | [] => Ok []
      | _ => Raise (RuntimeError "split_with_sizes expects split_sizes to sum exactly to the size")
      end
  | n :: rest =>
      if (length t <? n)%nat
      then Raise (RuntimeError "split_with_sizes expects split_sizes to sum exactly to the size")
      else match split_sizes rest (drop n t) with
           | Ok parts => Ok (take n t :: parts)
           | Raise e => Raise e
           end
  end.

(** [[
    class Embedding(nn.Embedding):
        def forward(self, x_list: list[Tensor]) -> list[Tensor]:
            if len(x_list) == 0:
                return []
            return super().forward(torch.cat(x_list)).split([*map(len, x_list)])
    ]] *)
Definition embedding_forward {V : Type} (weight : list V) (x_list : list (list Z))
  : result (list (list V)) :=
  match x_list with
  | [] => Ok []
  | _ =>
      match collect (embedding_row weight <$> concat x_list) with
      | Ok rows => split_sizes (length <$> x_list) rows
      | Raise e => Raise e
      end
  end.

(** [pad_sequence(x_list)] followed by the rearrangement to batch-first:
    every sequence is filled up with zero rows to the longest length.  An
    empty list is refused. *)
Definition pad_sequence {Row : Type} (zero : Row) (x_list : list (list Row))
  : result (list (list Row)) :=
  match x_list with
  | [] => Raise (RuntimeError "received an empty list of sequences")
  | _ =>
      let t := foldr Nat.max 0%nat (length <$> x_list) in
      Ok ((fun x => x ++ replicate (t - length x) zero) <$> x_list)
  end.

(** [[
    def list_to_tensor(x_list: list[Tensor], pattern="t b c -> b t c"):
        l = list(map(len, x_list))
        x = rearrange(pad_sequence(x_list), pattern)
        m = _create_mask(l, x_list[0].device)
        m = m.t().unsqueeze(-1)  # (t b 1)
        m = rearrange(m, pattern)
        m = m.to(x)
        return x, m
    ]]
    The mask comes back indexed by batch, then by position. *)
Definition list_to_tensor {Row : Type} (zero : Row) (x_list : list (list Row))
  : result (list (list Row) * list (list bool)) :=
  let l := length <$> x_list in
  match pad_sequence zero x_list with
  | Raise e => Raise e
  | Ok x =>
      match _create_mask l with
      | Raise e => Raise e
      | Ok m => Ok (x, m)
      end
  end.

(** Line 353 of [Base.forward]:
    [[ logits = [ hi[:li] for hi, li in zip(x, map(len, x_list)) ] ]] *)
Definition remove_padding {Row Row' : Type} (x : list (list Row))
    (x_list : list (list Row')) : list (list Row) :=
  (fun hl => take hl.2 hl.1) <$> zip x (length <$> x_list).

End Tensors.

(** ** [vall_e/utils/trainer.py]: scheduled commands in [train] *)

Module Trainer.

(** [s.split(sep)] for a one-character separator: the pieces between the
    separators, at least one. *)
Fixpoint split_char (sep : Ascii.ascii) (s : string) : list string :=
  match s with
  | EmptyString => [EmptyString]
  | String c rest =>
      if Ascii.eqb c sep then EmptyString :: split_char sep rest
      else match split_char sep rest with
           | piece :: pieces => String c piece :: pieces
           | [] => [String c EmptyString]
           end
  end.

(** [sep.join(pieces)] for a one-character separator. *)
Fixpoint join_char (sep : Ascii.ascii) (pieces : list string) : string :=
  match pieces with
  | [] => EmptyString
  | [piece] => piece
  | piece :: rest => String.append piece (String sep (join_char sep rest))
  end.

(** [s.count(sep)] *)
Fixpoint count_char (sep : Ascii.ascii) (s : string) : nat :=
  match s with
  | EmptyString => O
  | String c rest => ((if Ascii.eqb c sep then 1 else 0) + count_char sep rest)%nat
  end.

Definition at_sign : Ascii.ascii := Ascii.ascii_of_nat 64.

Section Events.
(** [int(...)] on a piece of the command. *)
Variable py_int : string -> option Z.

(** [[
    if "@" in command:
        what, when = command.split("@")
        try:
            events.append((what, int(when)))
            _logger.info(f"Event {command} registered.")
        except Exception as e:
            _logger.error(e)
        command = ""
    ]]
    The unpacking stands outside the [try]. *)
Definition register_event (command : string) (events : list (string * Z))
  : result (string * list (string * Z)) :=
  if contains (String at_sign EmptyString) command then
    match split_char at_sign command with
    | [what; when] =>
        Ok (EmptyString,
            match py_int when with
            | Some n => events ++ [(what, n)]
            | None => events
            end)
    | [_] => Raise (ValueError "not enough values to unpack (expected 2, got 1)")
    | _ => Raise (ValueError "too many values to unpack (expected 2)")
    end
  else Ok (command, events).

(** [[
    events = [e for e in events if e[1] >= engines.global_step]
    commands = [command] + [e[0] for e in events if e[1] == engines.global_step]
    ]] *)
Definition due_commands (command : string) (events : list (string * Z))
    (global_step : Z) : list (string * Z) * list string :=
  let events := filter (fun e => global_step <= e.2) events in
  (events, command :: (fst <$> filter (fun e => e.2 = global_step) events)).

(** One pass over lines 262 to 273. *)
Definition poll (command : string) (events : list (string * Z)) (global_step : Z)
  : result (list (string * Z) * list string) :=
  match register_event command events with
  | Raise e => Raise e
  | Ok (command, events) => Ok (due_commands command events global_step)
  end.

End Events.

End Trainer.

(** ** [Engines.save_checkpoint]: which checkpoints are deleted *)

Module Retention.

(** One entry of [save_dir.glob("*")], with what [is_dir()] and
    [stat().st_mtime] report for it. *)
Record entry : Type := {
  e_name : string;
  e_is_dir : bool;
  e_mtime : Z;
}.

Definition older_or_same (a b : entry) : Prop := e_mtime a <= e_mtime b.

(** [list.sort(key=...)] is stable: entries with equal keys keep their
    order.  Insertion from the right, before the first entry whose key
    is not smaller, gives that order. *)
Fixpoint insert_by_mtime (x : entry) (l : list entry) : list entry :=
  match l with
  | [] => [x]
  | y :: rest =>
      if e_mtime x <=? e_mtime y then x :: y :: rest
      else y :: insert_by_mtime x rest
  end.

Definition sort_by_mtime (l : list entry) : list entry :=
  foldr insert_by_mtime [] l.

(** [l[:-k]] for [k > 0]. *)
Definition all_but_last {A : Type} (k : Z) (l : list A) : list A :=
  take (length l - Z.to_nat k) l.

(** [[
    if cfg.trainer.keep_last_checkpoints > 0 and is_global_leader():
        checkpoints = [ d for d in list(save_dir.glob("*")) if d.is_dir() ]
        checkpoints.sort(key=lambda x: x.stat().st_mtime)
        checkpoints = checkpoints[:-cfg.trainer.keep_last_checkpoints]
        for d in checkpoints:
            ...remove d
    ]]
    The directories that are removed, in the order of removal. *)
Definition to_remove (keep_last_checkpoints : Z) (is_global_leader : bool)
    (listing : list entry) : list entry :=
  if (keep_last_checkpoints >? 0) && is_global_leader
  then all_but_last keep_last_checkpoints
         (sort_by_mtime (filter (fun d => e_is_dir d = true) listing))
  else [].

(** The directories that stay. *)
Definition kept (keep_last_checkpoints : Z) (is_global_leader : bool)
    (listing : list entry) : list entry :=
  if (keep_last_checkpoints >? 0) && is_global_leader
  then drop (length (filter (fun d => e_is_dir d = true) listing)
             - Z.to_nat keep_last_checkpoints)
         (sort_by_mtime (filter (fun d => e_is_dir d = true) listing))
  else filter (fun d => e_is_dir d = true) listing.

End Retention.

(** ** A small backend and collection for worked examples *)

Module Demo.
Import EngineM.

(** Tensors and scalars are integers; the optimizer state counts the
    updates it has applied; every backend call succeeds, except that an
    optimizer refuses to load Python's [None]. *)
Definition backend : Backend :=
  {| tensor := Z;
     scalar := Z;
     optim_state := nat;
     sched_state := nat;
     optimizer_update := fun st m => (S st, m);
     optimizer_zero_grad := fun m => m;
     optimizer_load_state_dict := fun _ sd =>
       match sd with
       | Some st => Ok st
       | None => Raise (TypeError "'NoneType' object is not subscriptable")
       end;
     scheduler_load_state_dict := fun _ sd =>
       match sd with
       | Some st => Ok st
       | None => Raise (TypeError "'NoneType' object is not subscriptable")
       end;
     autograd_backward := fun _ _ m => Ok m |}.

#[local] Existing Instance backend.

Definition config (n bs : Z) : Config :=
  {| batch_size := bs;
     gradient_accumulation_steps := n;
     learning_rate := 1;
     scheduler_type := EmptyString;
     ckpt_dir := ["ckpt"%string];
     load_tag := None;
     strict_loading := true;
     load_module_only := false;
     load_states := true;
     restart_step_count := true;
     check_for_oom := true;
     gc_mode := EmptyString;
     aggressive_optimizations := false |}.

Definition weights : gmap string (Param Z) :=
  <["w" := mkParam 7 true]> (<["b" := mkParam (-2) false]> ∅).

Definition adam : Optimizer :=
  {| opt_state := 0%nat; param_groups := [Some 3]; opt_calls := [] |}.

(** [Engine(model=..., optimizer=...)], as in [example_usage]. *)
Definition fresh : Engine :=
  new_engine CfgUnset weights (Some adam) None.

(** An engine whose configuration says it is not trained; the trainer
    gives such an engine no optimizer. *)
Definition frozen : Engine :=
  new_engine (CfgBound {| training := false; frozen_params := Some [] |})
    weights None None.

(** An engine built with [_cfg=None]. *)
Definition unconfigured : Engine :=
  new_engine CfgNone weights (Some adam) None.

(** The engine after three steps with an accumulation factor of 3 and a
    batch size of 4, and an engine with the same parameter names but
    other weights and counters. *)
Definition saved : Engine := (steps (config 3 4) 3 fresh).1.

Definition loader : Engine :=
  set_micro_steps 40
    (set_module (<["w" := mkParam 0 true]> (<["b" := mkParam 0 true]> ∅)) fresh).

(** The same engine without optimizer and scheduler, as an engine that
    is built for inference has none. *)
Definition bare : Engine := set_optimizer None saved.

(** A checkpoint directory holding [saved] under the tag ["3"]. *)
Definition disk : gmap (list string) file :=
  match save_checkpoint ["ckpt"; "ar"]%string "3" saved ∅ with
  | Some (fs, _) => fs
  | None => ∅
  end.

(** The directory after [bare] has saved under the same tag. *)
Definition bare_disk : gmap (list string) file :=
  match save_checkpoint ["ckpt"; "ar"]%string "3" bare ∅ with
  | Some (fs, _) => fs
  | None => ∅
  end.

(** A batch of two samples per field. *)
Definition batch : gmap string (list Z) :=
  <["text" := [1; 2]]> (<["resps" := [3; 4]]> ∅).

(** A feeder that counts its calls and runs out of memory on every one. *)
Definition oom_feeder (calls : nat) (e : Engine) (b : gmap string (list Z))
  : nat * result (option (Z * list (string * Z))) :=
  (S calls, Raise (RuntimeError "CUDA out of memory. Tried to allocate 2.00 GiB")).


Definition no_scalars (m : gmap string (Param Z)) : list (string * Z) := [].

(** The same configuration with out-of-memory checking off, and one that
    loads weights only. *)
Definition config_unchecked (n bs : Z) : Config :=
  {| batch_size := bs;
     gradient_accumulation_steps := n;
     learning_rate := 1;
     scheduler_type := EmptyString;
     ckpt_dir := ["ckpt"%string];
     load_tag := None;
     strict_loading := true;
     load_module_only := false;
     load_states := true;
     restart_step_count := false;
     check_for_oom := false;
     gc_mode := "step";
     aggressive_optimizations := false |}.

Definition config_module_only : Config :=
  {| batch_size := 4;
     gradient_accumulation_steps := 1;
     learning_rate := 1;
     scheduler_type := "cosine";
     ckpt_dir := ["ckpt"%string];
     load_tag := None;
     strict_loading := true;
     load_module_only := true;
     load_states := true;
     restart_step_count := false;
     check_for_oom := false;
     gc_mode := EmptyString;
     aggressive_optimizations := false |}.

(** A checkpoint in the older layout: counters at top level, no
    ['stats'], ['optimizer'] or ['lr_scheduler'] entry. *)
Definition legacy_checkpoint : Checkpoint :=
  {| ck_module := Some (<["w" := 1]> (<["b" := 2]> ∅));
     ck_optimizer := None;
     ck_lr_scheduler := None;
     ck_stats := None;
     ck_toplevel := <["global_step" := 5]> (<["micro_step" := 10]>
                    (<["global_samples" := 40]> (<["tokens_processed" := 0]> ∅))) |}.

(** A checkpoint of a module with other parameter names. *)
Definition alien_checkpoint : Checkpoint :=
  {| ck_module := Some (<["embedding" := 1]> ∅);
     ck_optimizer := Some None;
     ck_lr_scheduler := Some None;
     ck_stats := Some (<["global_step" := 5]> (<["micro_step" := 10]>
                      (<["global_samples" := 40]> (<["tokens_processed" := 0]> ∅))));
     ck_toplevel := ∅ |}.

(** A checkpoint that has one of the module's two parameters and one
    that the module does not have. *)
Definition partial_checkpoint : Checkpoint :=
  {| ck_module := Some (<["w" := 1]> (<["embedding" := 1]> ∅));
     ck_optimizer := Some None;
     ck_lr_scheduler := Some None;
     ck_stats := Some (<["global_step" := 5]> (<["micro_step" := 10]>
                      (<["global_samples" := 40]> (<["tokens_processed" := 0]> ∅))));
     ck_toplevel := ∅ |}.

Definition old_disk : gmap (list string) file :=
  <[["ckpt"; "ar"; "old"; "state.pth"]%string := StateFile legacy_checkpoint]>
  (<[["ckpt"; "ar"; "alien"; "state.pth"]%string := StateFile alien_checkpoint]>
  (<[["ckpt"; "ar"; "partial"; "state.pth"]%string := StateFile partial_checkpoint]>
  (<[["ckpt"; "ar"; "latest"]%string := TextFile "gone"]> ∅))).

(** Feeders that return a loss, return [None], and fail with an error
    that is not memory exhaustion. *)
Definition good_feeder (calls : nat) (e : Engine) (b : gmap string (list Z))
  : nat * result (option (Z * list (string * Z))) :=
  (S calls, Ok (Some (5, [("loss.nll"%string, 5)]))).

Definition skipping_feeder (calls : nat) (e : Engine) (b : gmap string (list Z))
  : nat * result (option (Z * list (string * Z))) :=
  (S calls, Ok None).

(** A feeder whose statistics use the name ["loss"]. *)
Definition clashing_feeder (calls : nat) (e : Engine) (b : gmap string (list Z))
  : nat * result (option (Z * list (string * Z))) :=
  (S calls, Ok (Some (5, [("nll"%string, 5); ("loss"%string, 5)]))).

Definition broken_feeder (calls : nat) (e : Engine) (b : gmap string (list Z))
  : nat * result (option (Z * list (string * Z))) :=
  (S calls, Raise (RuntimeError "size mismatch for tensor a and tensor b")).

End Demo.

(** The example backend with a backward pass that runs out of memory. *)
Module DemoOom.
Import EngineM.

Definition backend : Backend :=
  {| tensor := Z;
     scalar := Z;
     optim_state := nat;
     sched_state := nat;
     optimizer_update := fun st m => (S st, m);
     optimizer_zero_grad := fun m => m;
     optimizer_load_state_dict := fun _ sd =>
       match sd with
       | Some st => Ok st
       | None => Raise (TypeError "'NoneType' object is not subscriptable")
       end;
     scheduler_load_state_dict := fun _ sd =>
       match sd with
       | Some st => Ok st
       | None => Raise (TypeError "'NoneType' object is not subscriptable")
       end;
     autograd_backward := fun _ _ _ =>
       Raise (RuntimeError "CUDA out of memory. Tried to allocate 2.00 GiB") |}.

#[local] Existing Instance backend.

Definition config : Config :=
  {| batch_size := 4;
     gradient_accumulation_steps := 1;
     learning_rate := 1;
     scheduler_type := EmptyString;
     ckpt_dir := ["ckpt"%string];
     load_tag := None;
     strict_loading := true;
     load_module_only := false;
     load_states := true;
     restart_step_count := false;
     check_for_oom := true;
     gc_mode := EmptyString;
     aggressive_optimizations := false |}.

Definition fresh : Engine :=
  new_engine CfgUnset (<["w" := mkParam 7 true]> ∅)
    (Some {| opt_state := 0%nat; param_groups := [Some 3]; opt_calls := [] |}) None.

Definition good_feeder (calls : nat) (e : Engine) (b : gmap string (list Z))
  : nat * result (option (Z * list (string * Z))) :=
  (S calls, Ok (Some (5, []))).

End DemoOom.

(** * Properties *)

(** ** The distributed context *)

Section DistributedFacts.
Import Distributed.

Lemma init_distributed_keeps_flag fn s :
  _distributed_initialized (init_distributed fn s).1.1 = _distributed_initialized s.
Proof.
  unfold init_distributed. destruct (fn (environ s)) as [env' [[]|err]]; reflexivity.
Qed.

(** When the callback returns, the assignment has happened, in the
    frame of the call. *)
Lemma init_distributed_binds_local fn s env' :
  fn (environ s) = (env', Ok tt) ->
  init_distributed fn s
  = (with_environ env' s, {| local_distributed_initialized := Some true |}, Ok tt).
Proof. intros Hfn. unfold init_distributed. rewrite Hfn. reflexivity. Qed.

Lemma fix_unset_envs_keeps_flag port s :
  _distributed_initialized (fix_unset_envs port s) = _distributed_initialized s.
Proof. unfold fix_unset_envs. destruct (fix_unset_envs_cached s); reflexivity. Qed.

Lemma run_op_keeps_flag o s :
  _distributed_initialized (run_op o s) = _distributed_initialized s.
Proof.
  destruct o; simpl; auto using init_distributed_keeps_flag, fix_unset_envs_keeps_flag.
Qed.

Lemma run_ops_keeps_flag ops : forall s,
  _distributed_initialized (run_ops ops s) = _distributed_initialized s.
Proof.
  induction ops as [|o ops IH]; intros s; [reflexivity|].
  unfold run_ops in *. simpl. rewrite IH. apply run_op_keeps_flag.
Qed.

(** C9. Whatever operations of the module have run since it was
    imported, calls of [init_distributed] included, a call of
    [distributed_initialized()] returns [False]. *)
Theorem distributed_initialized_is_never_true env ops :
  distributed_initialized (run_ops ops (module_init env)) = false.
Proof. unfold distributed_initialized. now rewrite run_ops_keeps_flag. Qed.

End DistributedFacts.

(** ** The time slice of [sample] *)

Section SamplingFacts.
Import Sampling.

Lemma py_zip_int {A} (xs : list A) z :
  py_zip xs (PyInt z) = Raise (TypeError "'int' object is not iterable").
Proof. reflexivity. Qed.

(** C8. In chunked autoregressive mode (a causal model with a positive
    [recurrent_chunk_size], no quantisation levels) the first stage of
    [sample] raises [TypeError] for every list of logits; in particular
    it does not return the newest chunk of each sequence. *)
Theorem time_slice_chunked_raises {Row Code : Type} (chunk : positive) ntok
    (logits : list (list Row)) (resps_list : list (list Code)) :
  let m := {| causal := true; recurrent_chunk_size := Z.pos chunk;
              n_tokens := ntok |} in
  time_slice (QL := unit) m logits resps_list None
  = Raise (TypeError "'int' object is not iterable")
  /\ time_slice (QL := unit) m logits resps_list None <> Ok (newest_chunk m logits).
Proof.
  intros m. assert (H : time_slice (QL := unit) m logits resps_list None
                        = Raise (TypeError "'int' object is not iterable")).
  { unfold time_slice. cbn [causal recurrent_chunk_size m andb].
    change (Z.pos chunk >? 0) with true. cbv iota. now rewrite py_zip_int. }
  split; [exact H|]. rewrite H. discriminate.
Qed.

(** The plain autoregressive branch and the non-autoregressive branch
    do return. *)
Lemma time_slice_last_token {Row Code : Type} m
    (logits : list (list Row)) (resps_list : list (list Code)) :
  causal m && (recurrent_chunk_size m >? 0) = false ->
  time_slice (QL := unit) m logits resps_list None = Ok (slice_from (-1) <$> logits).
Proof. intros H. unfold time_slice. now rewrite H. Qed.

Example time_slice_chunked_example :
  time_slice (QL := unit) (Code := Z)
    {| causal := true; recurrent_chunk_size := 2; n_tokens := 1024 |}
    [[10; 11; 12]] [[1; 2; 3]] None
  = Raise (TypeError "'int' object is not iterable")
  /\ newest_chunk {| causal := true; recurrent_chunk_size := 2; n_tokens := 1024 |}
       [[10; 11; 12]] = [[11; 12]].
Proof. split; reflexivity. Qed.

End SamplingFacts.

(** ** Gradient accumulation in [Engine.step] *)

Section StepFacts.
Context `{BE : Backend}.
Import EngineM.
Variable cfg : Config.

(** One call on an engine that has an optimizer. *)
Lemma step_with_optimizer e o :
  optimizer e = Some o ->
  exists e' o',
    step cfg e = (e', Ok tt) /\
    optimizer e' = Some o' /\
    micro_steps e' = micro_steps e + 1 /\
    global_samples e' = global_samples e + batch_size cfg /\
    tokens_processed e' = tokens_processed e /\
    global_steps e' = global_steps e + (if at_boundary cfg (micro_steps e) then 1 else 0) /\
    opt_calls o' = (if at_boundary cfg (micro_steps e)
                    then [CallZeroGrad; CallStep] else []) ++ opt_calls o /\
    param_groups o' = param_groups o /\
    _cfg e' = _cfg e /\
    _frozen_params e' = _frozen_params e.
Proof.
  intros Ho. unfold step, at_boundary, bind, modify, get, ret; simpl.
  destruct (_ =? 0) eqn:Hb; simpl.
  - rewrite Ho. destruct (optimizer_update _ _) as [st' m'] eqn:Hu. simpl.
    eexists _, _. split; [reflexivity|]. simpl. repeat split; lia.
  - eexists _, _. split; [reflexivity|]. simpl. rewrite Ho. repeat split; lia.
Qed.

(** A call without an optimizer still counts the micro-step and the
    samples, and fails only on a boundary. *)
Lemma step_without_optimizer e :
  optimizer e = None ->
  at_boundary cfg (micro_steps e) = true ->
  exists e', step cfg e = (e', Raise (AttributeError "'NoneType' object has no attribute 'step'")).
Proof.
  intros Ho Hb. unfold step, at_boundary, bind, modify, get, ret, raise in *; simpl.
  rewrite Hb. simpl. rewrite Ho. eexists. reflexivity.
Qed.

(** Floor division counts the boundaries crossed. *)
Lemma boundary_div (n x : Z) :
  1 <= n ->
  (x + 1) / n = x / n + (if (x + 1) mod n =? 0 then 1 else 0).
Proof.
  intros Hn.
  pose proof (Z.div_mod x n ltac:(lia)) as Hx.
  pose proof (Z.mod_pos_bound x n ltac:(lia)) as Bx.
  pose proof (Z.div_mod (x + 1) n ltac:(lia)) as Hy.
  pose proof (Z.mod_pos_bound (x + 1) n ltac:(lia)) as By.
  destruct ((x + 1) mod n =? 0) eqn:E.
  - apply Z.eqb_eq in E. nia.
  - apply Z.eqb_neq in E. nia.
Qed.

(** [k] calls in a row: all succeed, and the number of updates is the
    number of multiples of the accumulation factor passed by
    [micro_steps + 1]. *)
Lemma steps_with_optimizer (k : nat) : forall e o,
  1 <= gradient_accumulation_steps cfg ->
  optimizer e = Some o ->
  exists e' o',
    steps cfg k e = (e', Ok tt) /\
    optimizer e' = Some o' /\
    micro_steps e' = micro_steps e + Z.of_nat k /\
    global_samples e' = global_samples e + Z.of_nat k * batch_size cfg /\
    tokens_processed e' = tokens_processed e /\
    global_steps e' = global_steps e
      + ((micro_steps e + 1 + Z.of_nat k) / gradient_accumulation_steps cfg
         - (micro_steps e + 1) / gradient_accumulation_steps cfg).
Proof.
  induction k as [|k IH]; intros e o HN Ho.
  - exists e, o. simpl. unfold ret. repeat split; try lia; try assumption.
    change (Z.of_nat 0) with 0. rewrite Z.add_0_r. lia.
  - destruct (step_with_optimizer e o Ho)
      as (e1 & o1 & Hs & Ho1 & Hm & Hsm & Htp & Hg & _).
    destruct (IH e1 o1 HN Ho1) as (e2 & o2 & Hs2 & Ho2 & Hm2 & Hsm2 & Htp2 & Hg2).
    exists e2, o2. cbn [steps]. unfold bind. rewrite Hs, Hs2.
    repeat split; try lia; try congruence.
    rewrite Hg2, Hg, Hm. unfold at_boundary.
    rewrite Z.max_r by lia.
    pose proof (boundary_div (gradient_accumulation_steps cfg)
                  (micro_steps e + 1) HN) as Hd.
    replace (micro_steps e + 1 + 1 + Z.of_nat k)
      with (micro_steps e + 1 + Z.of_nat (S k)) by lia.
    lia.
Qed.

(** C1. With an accumulation factor [N >= 1] and an optimizer, [N]
    consecutive calls of [step()] all return, and together they raise
    [global_steps] by exactly 1 and [global_samples] by [N] times the
    batch size, whatever the counters were before. *)
Theorem steps_over_one_window (e : Engine) :
  1 <= gradient_accumulation_steps cfg ->
  is_Some (optimizer e) ->
  exists e',
    steps cfg (Z.to_nat (gradient_accumulation_steps cfg)) e = (e', Ok tt) /\
    global_steps e' = global_steps e + 1 /\
    global_samples e' = global_samples e
                        + gradient_accumulation_steps cfg * batch_size cfg.
Proof.
  intros HN [o Ho].
  destruct (steps_with_optimizer (Z.to_nat (gradient_accumulation_steps cfg)) e o HN Ho)
    as (e' & o' & Hs & _ & _ & Hsm & _ & Hg).
  exists e'. split; [exact Hs|]. rewrite Z2Nat.id in * by lia. split; [|exact Hsm].
  rewrite Hg.
  replace (micro_steps e + 1 + gradient_accumulation_steps cfg)
    with (micro_steps e + 1 + 1 * gradient_accumulation_steps cfg) by lia.
  rewrite Z.div_add by lia. lia.
Qed.

(** Counted from a fresh engine, call number [k] (from 1) performs the
    update exactly when [k + 1] is a multiple of the factor. *)
Lemma update_positions (k : nat) e o :
  1 <= gradient_accumulation_steps cfg ->
  optimizer e = Some o -> micro_steps e = 0 ->
  exists e1 o1 e2 o2,
    steps cfg k e = (e1, Ok tt) /\ optimizer e1 = Some o1 /\
    step cfg e1 = (e2, Ok tt) /\ optimizer e2 = Some o2 /\
    global_steps e2 - global_steps e1
    = (if (Z.of_nat (S k) + 1) mod gradient_accumulation_steps cfg =? 0 then 1 else 0) /\
    opt_calls o2
    = (if (Z.of_nat (S k) + 1) mod gradient_accumulation_steps cfg =? 0
       then [CallZeroGrad; CallStep] else []) ++ opt_calls o1.
Proof.
  intros HN Ho Hm0.
  destruct (steps_with_optimizer k e o HN Ho) as (e1 & o1 & Hs & Ho1 & Hm & _).
  destruct (step_with_optimizer e1 o1 Ho1) as (e2 & o2 & Hs2 & Ho2 & _ & _ & _ & Hg & Hc & _).
  exists e1, o1, e2, o2. repeat split; try assumption.
  - rewrite Hg. unfold at_boundary. rewrite Z.max_r by lia.
    replace (micro_steps e1 + 1 + 1) with (Z.of_nat (S k) + 1) by lia. lia.
  - rewrite Hc. unfold at_boundary. rewrite Z.max_r by lia.
    replace (micro_steps e1 + 1 + 1) with (Z.of_nat (S k) + 1) by lia. reflexivity.
Qed.

End StepFacts.

(** C1, at a factor of 3 and a batch size of 4. *)
Lemma steps_over_one_window_witness :
  exists e',
    EngineM.steps (Demo.config 3 4) 3 Demo.fresh = (e', Ok tt) /\
    EngineM.global_steps e' = 0 + 1 /\
    EngineM.global_samples e' = 0 + 3 * 4.
Proof.
  apply (steps_over_one_window (BE := Demo.backend) (Demo.config 3 4) Demo.fresh).
  - simpl. lia.
  - simpl. eexists. reflexivity.
Defined.

(** C2. With a factor of 2 and a fresh engine, the first call of
    [step()] already performs the optimizer update, zeroes the gradients
    and raises [global_steps] to 1; the second call, number [N], does
    none of these. *)
Theorem update_on_first_call_of_two :
  let cfg := Demo.config 2 4 in
  let call1 := EngineM.step cfg Demo.fresh in
  let call2 := EngineM.step cfg call1.1 in
  call1.2 = Ok tt /\
  EngineM.global_steps call1.1 = 1 /\
  EngineM.global_samples call1.1 = 4 /\
  EngineM.opt_calls <$> EngineM.optimizer call1.1
    = Some [EngineM.CallZeroGrad; EngineM.CallStep] /\
  call2.2 = Ok tt /\
  EngineM.global_steps call2.1 = 1 /\
  EngineM.global_samples call2.1 = 8 /\
  EngineM.opt_calls <$> EngineM.optimizer call2.1
    = EngineM.opt_calls <$> EngineM.optimizer call1.1.
Proof. vm_compute. repeat split. Qed.

(** ** Freezing *)

Section FreezeFacts.
Context `{BE : Backend}.
Import EngineM.

(** C7. On an engine built without a configuration, [freeze] raises also
    when called with [freeze_all=True], and changes nothing: with
    [_cfg=None] it raises the exception whose text speaks of
    [freeze_all=False], and without the keyword the attribute lookup
    fails. *)
Theorem freeze_all_without_cfg_raises (m : gmap string (Param tensor))
    (o : option Optimizer) (s : option sched_state) :
  freeze true (new_engine CfgNone m o s)
  = (new_engine CfgNone m o s,
     Raise (Exception "freeze_all=False yet self._cfg.frozen_params is None"))
  /\
  freeze true (new_engine CfgUnset m o s)
  = (new_engine CfgUnset m o s,
     Raise (AttributeError "'Engine' object has no attribute '_cfg'")).
Proof. split; reflexivity. Qed.

(** With a configuration that lists frozen parameters, [freeze] with
    [freeze_all=True] does what its name says. *)
Lemma freeze_all_with_cfg e c names :
  _cfg e = CfgBound c -> frozen_params c = Some names ->
  exists e',
    freeze true e = (e', Ok tt) /\
    (forall name p, module e' !! name = Some p -> requires_grad p = false) /\
    (forall name p, module e !! name = Some p -> requires_grad p = true ->
                    name ∈ _frozen_params e').
Proof.
  intros Hc Hn. unfold freeze. rewrite Hc, Hn. eexists. split; [reflexivity|].
  simpl. split.
  - intros name p. rewrite map_lookup_imap.
    destruct (module e !! name) as [q|] eqn:Hq; simpl; [|discriminate].
    unfold freeze_selects. simpl. rewrite orb_false_r.
    destruct (requires_grad q) eqn:Hr; intros [= <-]; simpl; auto.
  - intros name p Hp Hr. apply elem_of_union_r, elem_of_dom.
    exists p. apply map_lookup_filter_Some. split; [exact Hp|].
    simpl. unfold freeze_selects. now rewrite Hr.
Qed.

End FreezeFacts.

(** ** Checkpoints of one engine *)

Section CheckpointFacts.
Context `{BE : Backend}.
Import EngineM.

Lemma state_dict_load_state_dict sd m :
  dom sd = dom m ->
  exists m', load_state_dict sd m = (m', Ok tt) /\ state_dict m' = sd /\
             forall name, requires_grad <$> (m' !! name) = requires_grad <$> (m !! name).
Proof.
  intros Hd. unfold load_state_dict. rewrite bool_decide_eq_true_2 by exact Hd.
  eexists. split; [reflexivity|]. split.
  - apply map_eq. intros k. unfold state_dict.
    rewrite lookup_fmap, map_lookup_imap.
    destruct (m !! k) as [p|] eqn:Hp; simpl.
    + assert (Hk : k ∈ dom sd) by (rewrite Hd; apply elem_of_dom; eauto).
      apply elem_of_dom in Hk as [d Hk]. now rewrite Hk.
    + symmetry. apply not_elem_of_dom. rewrite Hd. now apply not_elem_of_dom.
  - intros k. rewrite map_lookup_imap. destruct (m !! k); reflexivity.
Qed.

Lemma load_path_ne_latest (dir : list string) (tag : string) :
  dir ++ [tag; "state.pth"%string] <> dir ++ ["latest"%string].
Proof.
  intros H. apply (f_equal length) in H. rewrite !length_app in H. simpl in H. lia.
Qed.

(** The paths of a lineage are the non-empty prefixes. *)
Lemma elem_of_lineage (p q : list string) :
  q ∈ lineage p <-> exists n : nat, (1 <= n <= length p)%nat /\ q = take n p.
Proof.
  unfold lineage. rewrite list_elem_of_fmap. split.
  - intros (n & -> & Hn). apply elem_of_seq in Hn. exists n. split; [lia|reflexivity].
  - intros (n & Hn & ->). exists n. split; [reflexivity|]. apply elem_of_seq. lia.
Qed.




Lemma mkdirs_lookup (qs : list (list string)) : forall (fs : gmap (list string) file)
    (p : list string),
  foldl (fun m q => <[q := Directory]> m) fs qs !! p
  = if bool_decide (p ∈ qs) then Some Directory else fs !! p.
Proof.
  induction qs as [|q qs IH]; intros fs p; simpl.
  - reflexivity.
  - rewrite IH. destruct (decide (p ∈ qs)) as [Hin|Hin].
    + rewrite !bool_decide_eq_true_2; [reflexivity| |exact Hin].
      apply elem_of_cons. now right.
    + rewrite (bool_decide_eq_false_2 (p ∈ qs)) by exact Hin.
      destruct (decide (p = q)) as [->|Hpq].
      * rewrite lookup_insert_eq, bool_decide_eq_true_2; [reflexivity|].
        apply elem_of_cons. now left.
      * rewrite lookup_insert_ne by congruence.
        rewrite bool_decide_eq_false_2; [reflexivity|].
        rewrite elem_of_cons. tauto.
Qed.


(** What a save that returns normally has written. *)
Lemma save_checkpoint_files (dir : list string) (tag : string) (e : Engine)
    (fs fs' : gmap (list string) file) :
  save_checkpoint dir tag e fs = Some (fs', Ok tt) ->
  fs' !! (dir ++ [tag; "state.pth"%string]) = Some (StateFile (checkpoint_of e)) /\
  fs' !! (dir ++ ["latest"%string]) = Some (TextFile tag).
Proof.
  unfold save_checkpoint.
  destruct (negb (forallb plain_name (dir ++ [tag]))); [discriminate|].
  destruct (mkdir_parents (dir ++ [tag]) fs) as [fs1 [[]|err]]; [|discriminate].
  destruct (is_dir fs1 _); [discriminate|].
  destruct (is_dir _ _); [discriminate|].
  intros [= <-]. split.
  - rewrite lookup_insert_ne by (apply not_eq_sym, load_path_ne_latest).
    apply lookup_insert_eq.
  - apply lookup_insert_eq.
Qed.


(** The tag [latest] collides with the pointer file: such a save never
    returns normally. *)
Lemma save_checkpoint_tag_latest (dir : list string) (e : Engine)
    (fs fs' : gmap (list string) file) (r : result unit) :
  save_checkpoint dir "latest" e fs = Some (fs', r) -> r <> Ok tt.
Proof.
  unfold save_checkpoint, mkdir_parents.
  destruct (negb _); [discriminate|].
  destruct (find _ _); [intros [= _ <-]; discriminate|].
  set (fs1 := foldl _ fs _).
  destruct (is_dir fs1 _); [intros [= _ <-]; discriminate|].
  assert (H : is_dir (<[dir ++ ["latest"; "state.pth"]%string
                        := StateFile (checkpoint_of e)]> fs1)
                (dir ++ ["latest"%string]) = true).
  { unfold is_dir. rewrite lookup_insert_ne by apply load_path_ne_latest.
    unfold fs1. rewrite mkdirs_lookup, bool_decide_eq_true_2; [reflexivity|].
    apply elem_of_lineage. exists (length (dir ++ ["latest"%string])).
    rewrite take_ge by lia. rewrite length_app. simpl. split; [lia|reflexivity]. }
  rewrite H. intros [= _ <-]. discriminate.
Qed.

Lemma read_counter_checkpoint_of e :
  read_counter (checkpoint_of e) "global_step" = Ok (global_steps e) /\
  read_counter (checkpoint_of e) "micro_step" = Ok (micro_steps e) /\
  read_counter (checkpoint_of e) "global_samples" = Ok (global_samples e) /\
  read_counter (checkpoint_of e) "tokens_processed" = Ok (tokens_processed e).
Proof. repeat split. Qed.

(** Restoring from an engine's own snapshot: counters and weights are
    set before the optimizer and the scheduler are touched, so they are
    restored whether or not those loads succeed. *)
Lemma restore_from_checkpoint_of lo ls (saved loader : Engine) :
  dom (module loader) = dom (module saved) ->
  exists e' r,
    restore_from (checkpoint_of saved) lo ls loader = (e', r) /\
    global_steps e' = global_steps saved /\
    micro_steps e' = micro_steps saved /\
    global_samples e' = global_samples saved /\
    tokens_processed e' = tokens_processed saved /\
    state_dict (module e') = state_dict (module saved) /\
    (accepts_saved lo ls saved loader -> r = Ok tt).
Proof.
  intros Hd.
  destruct (state_dict_load_state_dict (state_dict (module saved)) (module loader))
    as (m' & Hm' & Hsd & _).
  { unfold state_dict. rewrite dom_fmap_L. congruence. }
  destruct (read_counter_checkpoint_of saved) as (R1 & R2 & R3 & R4).
  unfold restore_from, bind, lift, modify, get, ret. cbv beta.
  rewrite R1, R2, R3, R4. cbn [ck_module checkpoint_of module set_module
    set_global_steps set_micro_steps set_global_samples set_tokens_processed].
  rewrite Hm'. simpl.
  destruct lo, (optimizer loader) as [o|] eqn:Ho; simpl;
    try (destruct (optimizer_load_state_dict _ _) as [st|err] eqn:Hl; simpl);
    destruct ls, (lr_scheduler loader) as [s|] eqn:Hs; simpl;
    try (destruct (scheduler_load_state_dict _ _) as [st'|err'] eqn:Hl'; simpl);
    eexists _, _; (split; [reflexivity|]); simpl;
    repeat (split; [first [reflexivity | exact Hsd]|]);
    try (intros _; reflexivity);
    intros [Ha Hb];
    try (specialize (Ha eq_refl o Ho); rewrite Hl in Ha; discriminate);
    try (specialize (Hb eq_refl s Hs); rewrite Hl' in Hb; discriminate).
Qed.

(** An engine saves a checkpoint under [tag]; later an engine with the
    same parameter names but any counters, weights, optimizer and
    scheduler state loads [tag] from the same directory.  The four
    counters and the module weights are then the saved ones, and the
    load returns normally whenever the backend accepts what was saved
    for the optimizer and the scheduler. *)
Lemma save_then_load_restores (dir : list string) (tag : string)
    (strict lo ls mo : bool) (saved loader : Engine)
    (fs fs' : gmap (list string) file) :
  save_checkpoint dir tag saved fs = Some (fs', Ok tt) ->
  dom (module loader) = dom (module saved) ->
  exists e' r,
    load_checkpoint fs' dir (Some tag) strict lo ls mo loader = (e', r) /\
    global_steps e' = global_steps saved /\
    micro_steps e' = micro_steps saved /\
    global_samples e' = global_samples saved /\
    tokens_processed e' = tokens_processed saved /\
    state_dict (module e') = state_dict (module saved) /\
    (accepts_saved lo ls saved loader -> r = Ok tt).
Proof.
  intros Hsave Hd.
  destruct (restore_from_checkpoint_of lo ls saved loader Hd)
    as (e' & r & Hr & H1 & H2 & H3 & H4 & H5 & Hok).
  exists e', r. unfold load_checkpoint.
  destruct (save_checkpoint_files dir tag saved fs fs' Hsave) as [Hstate _].
  rewrite Hstate, Hr. auto 10.
Qed.

(** C5. An engine without optimizer saves: the checkpoint holds the key
    ['optimizer'] with the value [None].  An engine with an optimizer then
    loads that checkpoint with optimizer loading on, as it is by
    default.  The test ['optimizer' in state] succeeds, so
    [optimizer.load_state_dict] is handed [None]; when it refuses, the
    load raises that error.  The counters and the weights are the saved
    ones by then; the optimizer is untouched and the scheduler has not
    been reached. *)
Theorem load_after_save_without_optimizer (dir : list string) (tag : string)
    (strict ls mo : bool) (saved loader : Engine) (o : Optimizer)
    (fs fs' : gmap (list string) file) (err : exn) :
  save_checkpoint dir tag saved fs = Some (fs', Ok tt) ->
  optimizer saved = None ->
  optimizer loader = Some o ->
  dom (module loader) = dom (module saved) ->
  optimizer_load_state_dict (optimizer_state_dict o) None = Raise err ->
  exists e',
    load_checkpoint fs' dir (Some tag) strict true ls mo loader = (e', Raise err) /\
    global_steps e' = global_steps saved /\
    micro_steps e' = micro_steps saved /\
    global_samples e' = global_samples saved /\
    tokens_processed e' = tokens_processed saved /\
    state_dict (module e') = state_dict (module saved) /\
    optimizer e' = Some o /\
    lr_scheduler e' = lr_scheduler loader.
Proof.
  intros Hsave Hnone Ho Hd Herr.
  destruct (state_dict_load_state_dict (state_dict (module saved)) (module loader))
    as (m' & Hm' & Hsd & _).
  { unfold state_dict. rewrite dom_fmap_L. congruence. }
  destruct (read_counter_checkpoint_of saved) as (R1 & R2 & R3 & R4).
  destruct (save_checkpoint_files dir tag saved fs fs' Hsave) as [Hstate _].
  unfold load_checkpoint. rewrite Hstate.
  unfold restore_from, bind, lift, modify, get, ret. cbv beta.
  rewrite R1, R2, R3, R4. cbn [ck_module checkpoint_of module set_module
    set_global_steps set_micro_steps set_global_samples set_tokens_processed].
  rewrite Hm'. simpl. rewrite Ho, Hnone. simpl.
  rewrite Herr.
  eexists. split; [reflexivity|]. simpl. auto 10.
Qed.

(** After a save that has returned, loading without a tag reads the tag
    from the [latest] pointer and is the same as loading with the tag
    that was saved. *)
Theorem save_then_load_latest (dir : list string) (tag : string)
    (strict lo ls mo : bool) (saved loader : Engine)
    (fs fs' : gmap (list string) file) :
  save_checkpoint dir tag saved fs = Some (fs', Ok tt) ->
  load_checkpoint fs' dir None strict lo ls mo loader
  = load_checkpoint fs' dir (Some tag) strict lo ls mo loader.
Proof.
  intros Hsave. unfold load_checkpoint.
  destruct (save_checkpoint_files dir tag saved fs fs' Hsave) as [_ Hlatest].
  now rewrite Hlatest.
Qed.

(** Without optimizer and scheduler on the loading side nothing is asked
    of the backend. *)
Lemma accepts_saved_bare lo ls (saved loader : Engine) :
  optimizer loader = None -> lr_scheduler loader = None ->
  accepts_saved lo ls saved loader.
Proof. intros Ho Hs. split; intros _ x Hx; congruence. Qed.

(** A backend that never refuses a genuine state accepts the snapshot of
    an engine that had whatever the loading engine has. *)
Lemma accepts_saved_same_shape lo ls (saved loader : Engine) :
  (forall cur sd, is_ok (optimizer_load_state_dict cur (Some sd)) = true) ->
  (forall cur sd, is_ok (scheduler_load_state_dict cur (Some sd)) = true) ->
  (is_Some (optimizer loader) -> is_Some (optimizer saved)) ->
  (is_Some (lr_scheduler loader) -> is_Some (lr_scheduler saved)) ->
  accepts_saved lo ls saved loader.
Proof.
  intros Hopt Hsch Ho Hs. split; intros _ x Hx.
  - destruct Ho as [o' Ho']; [eauto|]. rewrite Ho'. apply Hopt.
  - destruct Hs as [s' Hs']; [eauto|]. rewrite Hs'. apply Hsch.
Qed.


(** Also when the pointer names a tag that has no state file. *)
Lemma load_checkpoint_dangling_pointer (fs : gmap (list string) file)
    (dir : list string) (t : string)
    (strict lo ls mo : bool) (e : Engine) :
  fs !! (dir ++ ["latest"%string]) = Some (TextFile t) ->
  fs !! (dir ++ [t; "state.pth"%string]) = None ->
  load_checkpoint fs dir None strict lo ls mo e = (e, Ok tt).
Proof. intros Hl Hs. unfold load_checkpoint. now rewrite Hl, Hs. Qed.

End CheckpointFacts.

(** C5, on the example backend: [bare] saves under the tag ["3"] on an
    empty file system and [loader], which has an optimizer, loads. *)
Lemma load_after_save_without_optimizer_witness :
  exists e',
    EngineM.load_checkpoint Demo.bare_disk ["ckpt"; "ar"]%string (Some "3"%string)
      true true true false Demo.loader
    = (e', Raise (TypeError "'NoneType' object is not subscriptable")) /\
    EngineM.global_steps e' = EngineM.global_steps Demo.bare /\
    EngineM.micro_steps e' = EngineM.micro_steps Demo.bare /\
    EngineM.global_samples e' = EngineM.global_samples Demo.bare /\
    EngineM.tokens_processed e' = EngineM.tokens_processed Demo.bare /\
    EngineM.state_dict (EngineM.module e')
    = EngineM.state_dict (EngineM.module Demo.bare) /\
    EngineM.optimizer e' = Some Demo.adam /\
    EngineM.lr_scheduler e' = EngineM.lr_scheduler Demo.loader.
Proof.
  apply (load_after_save_without_optimizer (BE := Demo.backend)
           ["ckpt"; "ar"]%string "3" true true false Demo.bare Demo.loader Demo.adam ∅).
  - vm_compute. reflexivity.
  - reflexivity.
  - reflexivity.
  - vm_compute. reflexivity.
  - reflexivity.
Defined.

(** When both engines have an optimizer the example backend accepts the
    stored state: the load returns, and the counters are [saved]'s. *)
Example save_then_load_example :
  let r := EngineM.load_checkpoint Demo.disk ["ckpt"; "ar"]%string
             (Some "3"%string) true true true false Demo.loader in
  r.2 = Ok tt /\
  (EngineM.global_steps r.1, EngineM.micro_steps r.1,
   EngineM.global_samples r.1, EngineM.tokens_processed r.1) = (1, 3, 12, 0) /\
  EngineM.state_dict (EngineM.module r.1) !! "w"%string = Some 7.
Proof. vm_compute. repeat split. Qed.

(** Loading through the pointer, on the example directory. *)
Lemma save_then_load_latest_witness :
  EngineM.load_checkpoint Demo.disk ["ckpt"; "ar"]%string None
    true true true false Demo.loader
  = EngineM.load_checkpoint Demo.disk ["ckpt"; "ar"]%string (Some "3"%string)
      true true true false Demo.loader.
Proof.
  apply (save_then_load_latest (BE := Demo.backend) ["ckpt"; "ar"]%string "3"
           true true true false Demo.saved Demo.loader ∅ Demo.disk).
  vm_compute. reflexivity.
Defined.


(** ** Loading a collection with [restart_step_count] *)

Section RestartFacts.
Context `{BE : Backend}.
Import EngineM Coordinator.
Variable cfg : Config.

(** When the loop returns, every body has returned, in order. *)
Lemma for_items_ok (body : string -> M Engine unit) (l : list (string * Engine)) :
  forall l',
  for_items body l = (l', Ok tt) ->
  Forall2 (fun ne ne' => ne'.1 = ne.1 /\ body ne.1 ne.2 = (ne'.2, Ok tt)) l l'.
Proof.
  induction l as [|[name e] l IH]; intros l' H; simpl in H.
  - injection H as <-. constructor.
  - destruct (body name e) as [e1 [[]|err]] eqn:Hb; [|discriminate].
    destruct (for_items body l) as [rest r] eqn:Hr.
    injection H as <- ->. constructor; [split; [reflexivity|exact Hb]|].
    apply IH. reflexivity.
Qed.

(** Whatever the outcome, each engine is either untouched or left as its
    body left it. *)
Lemma for_items_any (body : string -> M Engine unit) (l : list (string * Engine)) :
  forall l' r,
  for_items body l = (l', r) ->
  Forall2 (fun ne ne' => ne'.1 = ne.1 /\
             (ne'.2 = ne.2 \/ exists r', body ne.1 ne.2 = (ne'.2, r'))) l l'.
Proof.
  induction l as [|[name e] l IH]; intros l' r H; simpl in H.
  - injection H as <- _. constructor.
  - destruct (body name e) as [e1 [[]|err]] eqn:Hb.
    + destruct (for_items body l) as [rest r0] eqn:Hr.
      injection H as <- _. constructor; [split; [reflexivity|right; eauto]|].
      eapply IH. reflexivity.
    + injection H as <- _. constructor; [split; [reflexivity|right; eauto]|].
      apply Forall_Forall2_diag, Forall_forall. intros ne _. auto.
Qed.

Lemma set_lr_same_counters lr e e' r :
  EngineM.set_lr lr e = (e', r) -> same_counters e e'.
Proof.
  unfold EngineM.set_lr. destruct (optimizer e); intros [= <- _]; repeat split.
Qed.

Lemma set_lr_all_same_counters lr es es' r :
  set_lr_all lr es = (es', r) ->
  Forall2 (fun ne ne' => ne'.1 = ne.1 /\ same_counters ne.2 ne'.2) (items es) (items es').
Proof.
  unfold set_lr_all, for_engines. intros H.
  destruct (for_items _ (items es)) as [l r0] eqn:Hl. injection H as <- _. simpl.
  pose proof (for_items_any _ _ _ _ Hl) as Hany.
  revert Hany. apply Forall2_impl. clear Hl.
  intros [n e] [n' e'] [Hn [He | [r' Hb]]]; simpl in *; split; auto.
  - subst. repeat split.
  - unfold bind, get, lift, ret in Hb.
    destruct (_training e) as [[]|err]; simpl in Hb.
    + eapply set_lr_same_counters; exact Hb.
    + injection Hb as <- _. repeat split.
    + injection Hb as <- _. repeat split.
Qed.

Lemma update_items es : items (_update cfg es).1 = items es.
Proof.
  unfold _update. simpl.
  assert (H : forall (l : list (string * Engine)) acc,
            items (foldl (fun acc ne =>
              {| items := items acc;
                 _global_step := Z.max (_global_step acc) (global_step ne.2);
                 _micro_step := Z.max (_micro_step acc) (micro_step ne.2);
                 _batch_size := Z.max (_batch_size acc) (batch_size cfg);
                 _global_samples := Z.max (_global_samples acc) (global_samples ne.2) |})
              acc l) = items acc).
  { induction l as [|ne l IH]; intros acc; simpl; [reflexivity|]. now rewrite IH. }
  apply H.
Qed.

(** One engine: its own load, then the four assignments. *)
Lemma load_one_restart fs tag name e e' :
  restart_step_count cfg = true ->
  load_one cfg fs tag name e = (e', Ok tt) ->
  exists e1,
    engine_load cfg fs tag name e = (e1, Ok tt) /\
    global_steps e' = 0 /\ global_samples e' = 0 /\ tokens_processed e' = 0 /\
    mocro_step e' = Some 0 /\
    micro_steps e' = micro_steps e1 /\
    module e' = module e1 /\ optimizer e' = optimizer e1 /\
    lr_scheduler e' = lr_scheduler e1.
Proof.
  intros Hr. unfold load_one, bind. rewrite Hr.
  destruct (engine_load cfg fs tag name e) as [e1 [[]|err]]; [|discriminate].
  unfold restart_counters, bind, modify. intros [= <-].
  exists e1. repeat split.
Qed.

(** C10. With [restart_step_count] set, when [Engines.load_checkpoint]
    returns, every engine of the collection has [global_steps],
    [global_samples] and [tokens_processed] at 0 and a new attribute
    [mocro_step] at 0, while its [micro_steps] is what the engine's own
    [load_checkpoint] left: the value stored in the checkpoint, or the one
    it had before when there was nothing to load. *)
Theorem restart_keeps_micro_steps fs tag es es' :
  restart_step_count cfg = true ->
  Coordinator.load_checkpoint cfg fs tag es = (es', Ok tt) ->
  Forall2 (fun ne ne' =>
             ne'.1 = ne.1 /\
             exists e1,
               engine_load cfg fs tag ne.1 ne.2 = (e1, Ok tt) /\
               global_steps ne'.2 = 0 /\
               global_samples ne'.2 = 0 /\
               tokens_processed ne'.2 = 0 /\
               mocro_step ne'.2 = Some 0 /\
               micro_steps ne'.2 = micro_steps e1)
          (items es) (items es').
Proof.
  intros Hr. unfold Coordinator.load_checkpoint, bind.
  destruct (for_engines (load_one cfg fs tag) es) as [es1 [[]|err]] eqn:H1;
    [|discriminate].
  destruct ((if bool_decide (scheduler_type cfg = EmptyString)
             then set_lr_all (learning_rate cfg) else ret tt) es1)
    as [es2 [[]|err]] eqn:H2; [|discriminate].
  intros H3.
  assert (Hes' : items es' = items es2).
  { pose proof (update_items es2) as Hu.
    destruct (_update cfg es2) as [es3 r3]. injection H3 as <- _. exact Hu. }
  rewrite Hes'. clear H3 Hes'.
  assert (Hloaded :
    Forall2 (fun ne ne' => ne'.1 = ne.1 /\
               load_one cfg fs tag ne.1 ne.2 = (ne'.2, Ok tt))
            (items es) (items es1)).
  { unfold for_engines in H1.
    destruct (for_items _ (items es)) as [l r] eqn:Hl. injection H1 as <- ->.
    simpl. apply for_items_ok. exact Hl. }
  assert (Hlr :
    Forall2 (fun ne ne' => ne'.1 = ne.1 /\ same_counters ne.2 ne'.2)
            (items es1) (items es2)).
  { destruct (bool_decide _).
    - eapply set_lr_all_same_counters; exact H2.
    - injection H2 as <-. apply Forall_Forall2_diag, Forall_forall.
      intros; repeat split. }
  eapply Forall2_trans; [|exact Hloaded|exact Hlr].
  intros [n e] [n1 e1'] [n2 e2] [Hn Hl] [Hn' (Hg & Hm & Hs & Ht & Hmo)]; simpl in *.
  split; [congruence|].
  destruct (load_one_restart _ _ _ _ _ Hr Hl)
    as (e1 & He1 & G & S & T & MO & MI & _).
  exists e1. split; [exact He1|]. repeat split; congruence.
Qed.

End RestartFacts.

(** ** Dictionaries kept as item lists *)

Section DictFacts.
Context {V : Type}.

Lemma dict_set_keys (P : string -> Prop) (k : string) (v : V) (d : dict V) :
  P k -> Forall (fun kv => P kv.1) d -> Forall (fun kv => P kv.1) (dict_set k v d).
Proof.
  intros Hk. induction 1 as [|[k' v'] d Hkv Hd IH]; simpl.
  - repeat constructor. exact Hk.
  - destruct (String.eqb k' k); constructor; auto.
Qed.

Lemma dict_update_keys (P : string -> Prop) (other : dict V) :
  Forall (fun kv => P kv.1) other ->
  forall d : dict V,
    Forall (fun kv => P kv.1) d -> Forall (fun kv => P kv.1) (dict_update d other).
Proof.
  unfold dict_update.
  induction 1 as [|[k v] other Hk _ IH]; intros d Hd; simpl; [exact Hd|].
  apply IH. apply dict_set_keys; assumption.
Qed.

Lemma keyword_clash_none (keywords : list string) (d : dict V) :
  Forall (fun kv => kv.1 ∉ keywords) d -> keyword_clash keywords d = None.
Proof.
  unfold keyword_clash.
  induction 1 as [|kv d Hkv _ IH]; cbn [find]; [reflexivity|].
  rewrite bool_decide_eq_false_2 by exact Hkv. exact IH.
Qed.

Lemma keyword_clash_some (keywords : list string) (d : dict V) (k : string) (v : V) :
  (k, v) ∈ d -> k ∈ keywords ->
  exists k', keyword_clash keywords d = Some k' /\ k' ∈ keywords.
Proof.
  unfold keyword_clash. intros Hin Hk.
  induction d as [|[k0 v0] d IH]; [inversion Hin|]. cbn [find fst].
  destruct (decide (k0 ∈ keywords)) as [H0|H0].
  - rewrite bool_decide_eq_true_2 by exact H0. exists k0. split; [reflexivity|exact H0].
  - rewrite bool_decide_eq_false_2 by exact H0.
    apply IH. apply elem_of_cons in Hin as [[= -> ->]|Hin]; [contradiction|exact Hin].
Qed.

(** A key of [d] stays a key when [d] is updated. *)
Lemma dict_set_has_key (k k0 : string) (v v0 : V) (d : dict V) :
  (k0, v0) ∈ d -> exists v', (k0, v') ∈ dict_set k v d.
Proof.
  induction d as [|[k' v'] d IH]; [inversion 1|]. simpl.
  intros [[= <- <-]|Hin]%elem_of_cons.
  - destruct (String.eqb k0 k); eexists; apply elem_of_cons; left; reflexivity.
  - destruct (String.eqb k' k).
    + exists v0. apply elem_of_cons. now right.
    + destruct (IH Hin) as [w Hw]. exists w. apply elem_of_cons. now right.
Qed.

Lemma dict_update_has_key (k0 : string) (other : dict V) : forall (d : dict V) (v0 : V),
  (k0, v0) ∈ d -> exists v', (k0, v') ∈ dict_update d other.
Proof.
  unfold dict_update.
  induction other as [|[k v] other IH]; intros d v0 Hin; simpl; [eauto|].
  destruct (dict_set_has_key k k0 v v0 d Hin) as [w Hw]. eapply IH. exact Hw.
Qed.

End DictFacts.

(** ** The forward retry loop of [Engines.step] *)

Section RetryFacts.
Context `{BE : Backend}.
Import EngineM Coordinator.
Variable cfg : Config.
Context {Sample FeederState : Type}.
Variable feeder :
  FeederState -> Engine -> gmap string (list Sample) ->
  FeederState * result (option (scalar * list (string * scalar))).
Variable gather_scalar : gmap string (Param tensor) -> list (string * scalar).
Variable world_size : Z.
Variable all_reduce : Z -> Z.

Abbreviation Locals' := (@Locals BE Sample FeederState).

Lemma feeder_calls_log_feeder name b (l : Locals') :
  feeder_calls (log (EvFeeder name b) l) = feeder_calls l ++ [(name, b)].
Proof. reflexivity. Qed.

Lemma call_feeder_spec name e (l : Locals') f' out :
  feeder (l_feeder l) e (l_batch l) = (f', out) ->
  call_feeder feeder name e l
  = (with_feeder f' (log (EvFeeder name (l_batch l)) l), out).
Proof. intros H. unfold call_feeder. now rewrite H. Qed.

(** Under such a feeder the loop entered with a positive [tries] is
    still running after any number of iterations: [tries] and [n_ooms]
    are what they were, the feeder has been called once per iteration and
    the batch has been shrunk as often. *)
Lemma forward_loop_oom_forever :
  always_oom feeder ->
  forall fuel name e tries n (l : Locals'),
    0 < tries ->
    exists l',
      forward_loop feeder fuel name e tries n l = (l', n, StillRunning) /\
      length (feeder_calls l') = (length (feeder_calls l) + fuel)%nat /\
      l_batch l' = Nat.iter fuel shrink (l_batch l).
Proof.
  intros Hoom. induction fuel as [|fuel IH]; intros name e tries n l Ht.
  - exists l. simpl. repeat split. lia.
  - cbn [forward_loop].
    replace (tries >=? 0) with true by (symmetry; apply Z.geb_le; lia).
    replace (tries <=? 0) with false by (symmetry; apply Z.leb_gt; lia).
    destruct (Hoom (l_feeder l) e (l_batch l)) as (f' & msg & Hf & Hmsg).
    rewrite (call_feeder_spec _ _ _ _ _ Hf). cbn [negb]. rewrite Hmsg. cbn [negb].
    set (l2 := log EvGC _).
    assert (Hc2 : feeder_calls l2 = feeder_calls l ++ [(name, l_batch l)])
      by reflexivity.
    assert (Hb2 : l_batch l2 = shrink (l_batch l)) by reflexivity.
    destruct (IH name e tries n l2 Ht) as (l' & Hl' & Hcalls & Hb).
    exists l'. split; [exact Hl'|]. split.
    + rewrite Hcalls, Hc2, length_app. simpl. lia.
    + rewrite Hb, Hb2. now rewrite Nat.iter_succ_r.
Qed.

(** The loop can only be left by a feeder that returns or that raises
    something other than memory exhaustion: the budget [tries] plays no
    part. *)
Lemma forward_loop_exit fuel : forall name e n (l l' : Locals') n' ex,
  forward_loop feeder fuel name e 4 n l = (l', n', ex) ->
  n' = n /\ ex <> CondFalse.
Proof.
  induction fuel as [|fuel IH]; intros name e n l l' n' ex; cbn [forward_loop].
  - intros [= <- <- <-]. split; [reflexivity|discriminate].
  - change (negb (4 >=? 0)) with false. change (4 <=? 0) with false. cbv iota.
    destruct (call_feeder feeder name e l) as [l1 [res|err]].
    + intros [= <- <- <-]. split; [reflexivity|discriminate].
    + destruct err; try (intros [= <- <- <-]; split; [reflexivity|discriminate]).
      destruct (negb (contains "out of memory" msg)).
      * intros [= <- <- <-]. split; [reflexivity|discriminate].
      * apply IH.
Qed.

Lemma sync_ooms_zero msg (l : Locals') :
  world_size <= 1 \/ all_reduce 0 = 0 ->
  exists l', sync_ooms world_size all_reduce 0 msg l = (l', Ok tt) /\ same_data l l'.
Proof.
  intros Hpeers. unfold sync_ooms.
  destruct (world_size >? 1) eqn:Hw.
  - destruct Hpeers as [Hle | ->]; [apply Z.gtb_lt in Hw; lia|].
    eexists. split; [reflexivity|]. repeat split.
  - eexists. split; [reflexivity|]. repeat split.
Qed.

(** Engines that are not being trained are passed over: no feeder call,
    no change. *)
Lemma step_body_skips fuel before after name e (l : Locals') :
  _training e = Ok false ->
  step_body cfg feeder gather_scalar world_size all_reduce fuel before after name e l
  = Some (e, l, Ok tt).
Proof. intros H. unfold step_body. now rewrite H. Qed.

Lemma step_loop_skips_prefix fuel (pre rest : list (string * Engine)) :
  Forall (fun ne => _training ne.2 = Ok false) pre ->
  forall done (l : Locals'),
    step_loop cfg feeder gather_scalar world_size all_reduce fuel done (pre ++ rest) l
    = step_loop cfg feeder gather_scalar world_size all_reduce fuel (done ++ pre) rest l.
Proof.
  induction 1 as [|[n e] pre Hne _ IH]; intros done l; simpl.
  - now rewrite app_nil_r.
  - rewrite step_body_skips by exact Hne.
    rewrite IH, <- app_assoc. reflexivity.
Qed.

Lemma step_loop_skips_all fuel (todo : list (string * Engine)) :
  Forall (fun ne => _training ne.2 = Ok false) todo ->
  forall done (l : Locals'),
    step_loop cfg feeder gather_scalar world_size all_reduce fuel done todo l
    = Some (done ++ todo, l, Ok tt).
Proof.
  intros H done l. rewrite <- (app_nil_r todo) at 1.
  rewrite step_loop_skips_prefix by exact H. reflexivity.
Qed.

(** What [gather_attribute] collects has the keys of what the modules
    hold. *)
Lemma gather_attribute_keys (P : string -> Prop) (l : list (string * Engine)) :
  Forall (fun ne => Forall (fun kv => P kv.1) (gather_scalar (module ne.2))) l ->
  Forall (fun kv => P kv.1) (gather_attribute gather_scalar l).
Proof.
  unfold gather_attribute. intros Hl.
  assert (H : forall acc : dict scalar,
            Forall (fun kv => P kv.1) acc ->
            Forall (fun kv => P kv.1)
              (foldl (fun ret ne => dict_update ret (gather_scalar (module ne.2))) acc l)).
  { induction Hl as [|ne l Hne _ IH]; intros acc Hacc; simpl; [exact Hacc|].
    apply IH. apply dict_update_keys; assumption. }
  apply H. constructor.
Qed.

(** Statistics that stay clear of the keywords give no clash. *)
Lemma no_keyword_clash (st : dict scalar) (l : list (string * Engine)) :
  free_of_keywords st ->
  Forall (fun ne => free_of_keywords (gather_scalar (module ne.2))) l ->
  keyword_clash entry_keywords (dict_update st (gather_attribute gather_scalar l)) = None.
Proof.
  intros Hst Hl. apply keyword_clash_none.
  apply (dict_update_keys (fun k => k ∉ entry_keywords)); [|exact Hst].
  apply (gather_attribute_keys (fun k => k ∉ entry_keywords)). exact Hl.
Qed.

Section OneOom.
Variables (name : string) (e : Engine) (o : Optimizer).
Variables (lr : scalar) (lrs : list scalar).
Variables (b : gmap string (list Sample)) (f0 f1 f2 : FeederState).
Variables (msg : string) (res : option (scalar * list (string * scalar))).
Variables (others_before others_after : list (string * Engine)).

Hypothesis Hcheck : check_for_oom cfg = true.
Hypothesis Hfirst : feeder f0 e b = (f1, Raise (RuntimeError msg)).
Hypothesis Hmsg : contains "out of memory" msg = true.
Hypothesis Hsecond : feeder f1 e (shrink b) = (f2, Ok res).
Hypothesis Hpeers : world_size <= 1 \/ all_reduce 0 = 0.


Hypothesis Htraining : _training e = Ok true.
Hypothesis Hparams : module e <> ∅.
Hypothesis Hopt : optimizer e = Some o.
Hypothesis Hlr : omap id (param_groups o) = lr :: lrs.
Hypothesis Hbackward :
  forall loss st, res = Some (loss, st) ->
    is_ok (autograd_backward loss (gradient_accumulation_steps cfg) (module e)) = true.
Hypothesis Hclash :
  forall loss st, res = Some (loss, st) ->
    keyword_clash entry_keywords
      (dict_update st
         (gather_attribute gather_scalar (others_before ++ (name, e) :: others_after)))
    = None.


Hypothesis Hothers :
  Forall (fun ne => _training ne.2 = Ok false) (others_before ++ others_after).


End OneOom.


End RetryFacts.

(** C10, on a collection of one engine and a checkpoint whose
    [micro_step] is 3. *)
Lemma restart_keeps_micro_steps_witness :
  let cfg := Demo.config 3 4 in
  let es := Coordinator.new_engines [("ar"%string, Demo.loader)] in
  let es' := (Coordinator.load_checkpoint cfg Demo.disk (Some "3"%string) es).1 in
  Forall2 (fun ne ne' =>
             ne'.1 = ne.1 /\
             exists e1,
               Coordinator.engine_load cfg Demo.disk (Some "3"%string) ne.1 ne.2
               = (e1, Ok tt) /\
               EngineM.global_steps ne'.2 = 0 /\
               EngineM.global_samples ne'.2 = 0 /\
               EngineM.tokens_processed ne'.2 = 0 /\
               EngineM.mocro_step ne'.2 = Some 0 /\
               EngineM.micro_steps ne'.2 = EngineM.micro_steps e1)
          (Coordinator.items es) (Coordinator.items es').
Proof.
  intros cfg es es'.
  apply (restart_keeps_micro_steps (BE := Demo.backend) cfg Demo.disk
           (Some "3"%string) es es').
  - reflexivity.
  - vm_compute. reflexivity.
Defined.

(** There the counter that survives is the checkpoint's 3. *)
Example restart_example :
  let es' := (Coordinator.load_checkpoint (Demo.config 3 4) Demo.disk
                (Some "3"%string)
                (Coordinator.new_engines [("ar"%string, Demo.loader)])).1 in
  (fun ne => (EngineM.global_steps ne.2, EngineM.micro_steps ne.2,
              EngineM.global_samples ne.2, EngineM.mocro_step ne.2))
    <$> Coordinator.items es'
  = [(0, 3, 0, Some 0)].
Proof. vm_compute. reflexivity. Qed.

(** ** Worked runs of [Engines.step] *)

Lemma oom_feeder_always_oom : Coordinator.always_oom Demo.oom_feeder.
Proof. intros f e b. eexists _, _. split; reflexivity. Qed.

(** C3. With out-of-memory checking on and a feeder that runs out of
    memory on every call, the retry loop of the forward pass is still
    running after any number of iterations, with one feeder call per
    iteration and [n_ooms] still 0; so [Engines.step] neither returns nor
    raises, however many iterations it is granted. *)
Theorem step_retries_without_bound (fuel : nat) (ws : Z) (all_reduce : Z -> Z) :
  let l0 := {| Coordinator.l_batch := Demo.batch; Coordinator.l_res := None;
               Coordinator.l_stats := []; Coordinator.l_feeder := 0%nat;
               Coordinator.l_trace := [] |} in
  (exists l',
     Coordinator.forward_loop Demo.oom_feeder fuel "ar" Demo.fresh 4 0 l0
     = (l', 0, Coordinator.StillRunning) /\
     length (Coordinator.feeder_calls l') = fuel) /\
  Coordinator.step (Demo.config 1 4) Demo.oom_feeder Demo.no_scalars ws all_reduce
    fuel Demo.batch 0%nat (Coordinator.new_engines [("ar"%string, Demo.fresh)])
  = None.
Proof.
  intros l0.
  destruct (forward_loop_oom_forever Demo.oom_feeder oom_feeder_always_oom
              fuel "ar"%string Demo.fresh 4 0 l0 ltac:(lia))
    as (l' & Hl' & Hcalls & _).
  split.
  - exists l'. split; [exact Hl'|]. rewrite Hcalls. reflexivity.
  - unfold Coordinator.step.
    change (bool_decide (EngineM.gc_mode (Demo.config 1 4) = "step"%string))
      with false. cbv iota.
    cbn [Coordinator.items Coordinator.new_engines Coordinator.step_loop].
    unfold Coordinator.step_body.
    change (EngineM._training Demo.fresh) with (@Ok bool true). cbv iota.
    replace (EngineM.device Demo.fresh) with (@Ok unit tt) by (vm_compute; reflexivity).
    change (bool_decide (EngineM.gc_mode (Demo.config 1 4) = "substep"%string))
      with false. cbv iota.
    unfold Coordinator.forward_pass.
    change (EngineM.check_for_oom (Demo.config 1 4)) with true. cbn [negb].
    fold l0. rewrite Hl'. reflexivity.
Qed.


(** The batch of the example, before and after the retry. *)
Example shrink_example :
  Coordinator.shrink Demo.batch
  = <["text"%string := [1]]> (<["resps"%string := [3]]> ∅).
Proof. vm_compute. reflexivity. Qed.

(** * Further properties of the engine *)

Section FreezeRoundTrip.
Context `{BE : Backend}.
Import EngineM.

Lemma param_eta (p : Param tensor) : mkParam (p_data p) (requires_grad p) = p.
Proof. destruct p; reflexivity. Qed.

Lemma engine_with_same_fields (e : Engine) (m : gmap string (Param tensor))
    (f : gset string) :
  m = module e -> f = _frozen_params e ->
  set_frozen_params f (set_module m e) = e.
Proof. intros -> ->. destruct e; reflexivity. Qed.

(** What a successful [freeze] leaves behind. *)
Lemma freeze_result (freeze_all : bool) (e e1 : Engine) :
  freeze freeze_all e = (e1, Ok tt) ->
  exists c names,
    _cfg e = CfgBound c /\ frozen_params c = Some names /\
    e1 = set_frozen_params
           (_frozen_params e ∪
            dom (filter (fun kv => freeze_selects freeze_all names kv.1 kv.2 = true)
                   (module e)))
           (set_module
              (map_imap (fun name p =>
                 Some (if freeze_selects freeze_all names name p
                       then mkParam (p_data p) false else p)) (module e)) e).
Proof.
  unfold freeze. destruct (_cfg e) as [| |c] eqn:Hc; try discriminate.
  destruct (frozen_params c) as [names|] eqn:Hn; try discriminate.
  intros [= <-]. eauto.
Qed.

Lemma freeze_selects_again (freeze_all : bool) (names : list string)
    (name : string) (p : Param tensor) :
  let p' := if freeze_selects freeze_all names name p
            then mkParam (p_data p) false else p in
  (if freeze_selects freeze_all names name p' then mkParam (p_data p') false else p')
  = p' /\
  (freeze_selects freeze_all names name p' = true ->
   freeze_selects freeze_all names name p = true).
Proof.
  unfold freeze_selects.
  destruct freeze_all, (requires_grad p) eqn:Hr, (bool_decide (name ∈ names));
    simpl; rewrite ?Hr; simpl; auto.
Qed.

(** Calling [freeze] again with the same argument changes nothing: the
    module and the tracked set are already what the call would make
    them. *)
Theorem freeze_idempotent (freeze_all : bool) (e e1 : Engine) :
  freeze freeze_all e = (e1, Ok tt) ->
  freeze freeze_all e1 = (e1, Ok tt).
Proof.
  intros H. destruct (freeze_result _ _ _ H) as (c & names & Hc & Hn & ->).
  unfold freeze. cbn [_cfg set_frozen_params set_module]. rewrite Hc, Hn.
  f_equal. cbn [module _frozen_params set_frozen_params set_module].
  set (sel := freeze_selects freeze_all names).
  set (m1 := map_imap _ (module e)).
  assert (Hm1 : forall name, m1 !! name
            = (fun p => if sel name p then mkParam (p_data p) false else p)
              <$> (module e !! name)).
  { intros name. subst m1. rewrite map_lookup_imap.
    destruct (module e !! name); reflexivity. }
  match goal with |- set_frozen_params ?f (set_module ?m ?x) = _ =>
    replace m with m1; [replace f with (_frozen_params e ∪
      dom (filter (fun kv => sel kv.1 kv.2 = true) (module e)))|] end.
  - reflexivity.
  - apply set_eq. intros name. rewrite !elem_of_union, !elem_of_dom.
    split; [tauto|]. intros [[Hin | Hin] | [p' Hin]]; auto.
    apply map_lookup_filter_Some in Hin as [Hl Hs]. simpl in Hs.
    rewrite Hm1 in Hl. destruct (module e !! name) as [p|] eqn:Hp; [|discriminate].
    injection Hl as <-.
    apply (proj2 (freeze_selects_again freeze_all names name p)) in Hs.
    right. exists p. apply map_lookup_filter_Some. auto.
  - apply map_eq. intros name. rewrite map_lookup_imap, Hm1.
    destruct (module e !! name) as [p|]; simpl; [|reflexivity].
    f_equal. symmetry. apply (proj1 (freeze_selects_again freeze_all names name p)).
Qed.

(** [freeze(freeze_all=True)] followed by [unfreeze()] gives back the
    engine as it was, when nothing was tracked as frozen before: the
    parameters that were trainable are trainable again, the others were
    never touched, and the tracked set is empty again. *)
Theorem freeze_all_then_unfreeze (e e1 : Engine) :
  _frozen_params e = ∅ ->
  freeze true e = (e1, Ok tt) ->
  unfreeze e1 = (e, Ok tt).
Proof.
  intros Hf H. destruct (freeze_result _ _ _ H) as (c & names & Hc & Hn & ->).
  unfold unfreeze. f_equal.
  cbn [module _frozen_params set_frozen_params set_module].
  match goal with |- set_frozen_params _ (set_module ?m ?x) = _ =>
    assert (Hm : m = module e) end.
  { apply map_eq. intros name. rewrite !map_lookup_imap.
    destruct (module e !! name) as [p|] eqn:Hp; simpl; [|reflexivity].
    unfold freeze_selects. simpl. rewrite orb_false_r.
    destruct (requires_grad p) eqn:Hr.
    - rewrite bool_decide_eq_true_2.
      + simpl. rewrite <- Hr. now rewrite param_eta.
      + apply elem_of_union_r, elem_of_dom. exists p.
        apply map_lookup_filter_Some. split; [exact Hp|].
        simpl. unfold freeze_selects. now rewrite Hr.
    - rewrite bool_decide_eq_false_2; [reflexivity|].
      rewrite Hf. intros [Hin | Hin]%elem_of_union; [set_solver|].
      apply elem_of_dom in Hin as [q Hq].
      apply map_lookup_filter_Some in Hq as [Hq Hs]. simpl in Hs.
      rewrite Hp in Hq. injection Hq as <-.
      unfold freeze_selects in Hs. rewrite Hr in Hs. discriminate. }
  rewrite Hm. destruct e; simpl in *. now subst.
Qed.

(** [freeze(freeze_all=False)] followed by [unfreeze()] does not give the
    flags back: every parameter named in the configuration ends up
    trainable, whatever it was before, with its data unchanged. *)
Theorem freeze_listed_then_unfreeze (e e1 e2 : Engine) (c : ModelCfg)
    (names : list string) (name : string) (p : Param tensor) :
  _cfg e = CfgBound c -> frozen_params c = Some names ->
  freeze false e = (e1, Ok tt) ->
  unfreeze e1 = (e2, Ok tt) ->
  module e !! name = Some p -> name ∈ names ->
  module e1 !! name = Some (mkParam (p_data p) false) /\
  module e2 !! name = Some (mkParam (p_data p) true) /\
  _frozen_params e2 = ∅.
Proof.
  intros Hc Hn H1 H2 Hp Hin.
  destruct (freeze_result _ _ _ H1) as (c' & names' & Hc' & Hn' & ->).
  rewrite Hc in Hc'. injection Hc' as <-. rewrite Hn in Hn'. injection Hn' as <-.
  unfold unfreeze in H2. injection H2 as <-.
  cbn [module _frozen_params set_frozen_params set_module].
  assert (Hsel : freeze_selects false names name p = true).
  { unfold freeze_selects. simpl. now apply bool_decide_eq_true_2. }
  split; [|split; [|reflexivity]].
  - rewrite map_lookup_imap, Hp. simpl. now rewrite Hsel.
  - rewrite !map_lookup_imap, Hp. simpl. rewrite Hsel. simpl.
    rewrite bool_decide_eq_true_2; [reflexivity|].
    apply elem_of_union_r, elem_of_dom. exists p.
    apply map_lookup_filter_Some. auto.
Qed.

End FreezeRoundTrip.

Section LearningRate.
Context `{BE : Backend}.
Import EngineM.

Lemma omap_id_set_all (lr : scalar) (groups : list (option scalar)) :
  omap id ((fun g => match g with Some _ => Some lr | None => None end) <$> groups)
  = replicate (length (omap id groups)) lr.
Proof.
  induction groups as [|[x|] groups IH]; simpl; [reflexivity| |exact IH].
  f_equal. exact IH.
Qed.

(** [set_lr(lr)] followed by [get_lr()]: as many rates as before, all
    equal to [lr]; parameter groups without an ['lr'] entry stay without
    one; counters and weights are not touched. *)
Theorem get_lr_after_set_lr (lr : scalar) (e : Engine) (lrs : list scalar) :
  get_lr e = Ok lrs ->
  exists e',
    set_lr lr e = (e', Ok tt) /\
    get_lr e' = Ok (replicate (length lrs) lr) /\
    module e' = module e /\ same_counters e e'.
Proof.
  unfold get_lr, set_lr. destruct (optimizer e) as [o|]; [|discriminate].
  intros [= <-]. eexists. split; [reflexivity|].
  cbn [optimizer set_optimizer param_groups]. rewrite omap_id_set_all.
  repeat split.
Qed.

End LearningRate.

Section StepEdge.
Context `{BE : Backend}.
Import EngineM.
Variable cfg : Config.

(** On an engine without optimizer, [step()] still counts the micro-step
    and the samples; on an accumulation boundary it also raises
    [global_steps] and only then fails on the missing optimizer, so that
    the counter is ahead of the updates actually made. *)
Theorem step_without_optimizer_counts (e : Engine) :
  optimizer e = None ->
  exists e',
    step cfg e
    = (e', if at_boundary cfg (micro_steps e)
           then Raise (AttributeError "'NoneType' object has no attribute 'step'")
           else Ok tt) /\
    micro_steps e' = micro_steps e + 1 /\
    global_samples e' = global_samples e + batch_size cfg /\
    global_steps e' = global_steps e
                      + (if at_boundary cfg (micro_steps e) then 1 else 0) /\
    module e' = module e.
Proof.
  intros Ho. unfold step, at_boundary, bind, modify, get, ret, raise; simpl.
  destruct (_ =? 0); simpl.
  - rewrite Ho. eexists. split; [reflexivity|]. simpl. repeat split; lia.
  - eexists. split; [reflexivity|]. simpl. repeat split; lia.
Qed.

End StepEdge.

(** The engine the trainer builds for a model that is not trained has no
    optimizer; with a factor of 2 its first [step()] fails. *)
Lemma step_without_optimizer_counts_witness :
  exists e',
    EngineM.step (Demo.config 2 4) Demo.frozen
    = (e', if EngineM.at_boundary (Demo.config 2 4) (EngineM.micro_steps Demo.frozen)
           then Raise (AttributeError "'NoneType' object has no attribute 'step'")
           else Ok tt) /\
    EngineM.micro_steps e' = EngineM.micro_steps Demo.frozen + 1 /\
    EngineM.global_samples e' = EngineM.global_samples Demo.frozen + 4 /\
    EngineM.global_steps e' = EngineM.global_steps Demo.frozen
      + (if EngineM.at_boundary (Demo.config 2 4) (EngineM.micro_steps Demo.frozen)
         then 1 else 0) /\
    EngineM.module e' = EngineM.module Demo.frozen.
Proof.
  apply (step_without_optimizer_counts (BE := Demo.backend) (Demo.config 2 4) Demo.frozen).
  reflexivity.
Defined.

Lemma get_lr_after_set_lr_witness :
  exists e',
    EngineM.set_lr (BE := Demo.backend) 9 Demo.fresh = (e', Ok tt) /\
    EngineM.get_lr e' = Ok (replicate (length [3]) 9) /\
    EngineM.module e' = EngineM.module Demo.fresh /\
    EngineM.same_counters Demo.fresh e'.
Proof.
  apply (get_lr_after_set_lr (BE := Demo.backend) 9 Demo.fresh [3]).
  reflexivity.
Defined.

Lemma update_positions_witness :
  exists e1 o1 e2 o2,
    EngineM.steps (Demo.config 3 4) 4 Demo.fresh = (e1, Ok tt) /\
    EngineM.optimizer e1 = Some o1 /\
    EngineM.step (Demo.config 3 4) e1 = (e2, Ok tt) /\
    EngineM.optimizer e2 = Some o2 /\
    EngineM.global_steps e2 - EngineM.global_steps e1
    = (if (Z.of_nat 5 + 1) mod 3 =? 0 then 1 else 0) /\
    EngineM.opt_calls o2
    = (if (Z.of_nat 5 + 1) mod 3 =? 0
       then [EngineM.CallZeroGrad; EngineM.CallStep] else [])
      ++ EngineM.opt_calls o1.
Proof.
  apply (update_positions (BE := Demo.backend) (Demo.config 3 4) 4 Demo.fresh Demo.adam).
  - simpl. lia.
  - reflexivity.
  - reflexivity.
Defined.

Lemma freeze_idempotent_witness :
  let e := EngineM.new_engine (BE := Demo.backend)
             (EngineM.CfgBound {| EngineM.training := true;
                                  EngineM.frozen_params := Some ["b"%string] |})
             Demo.weights (Some Demo.adam) None in
  EngineM.freeze true (EngineM.freeze true e).1 = ((EngineM.freeze true e).1, Ok tt).
Proof.
  intros e. apply (freeze_idempotent (BE := Demo.backend) true e).
  vm_compute. reflexivity.
Defined.

Lemma freeze_all_then_unfreeze_witness :
  let e := EngineM.new_engine (BE := Demo.backend)
             (EngineM.CfgBound {| EngineM.training := true;
                                  EngineM.frozen_params := Some ["b"%string] |})
             Demo.weights (Some Demo.adam) None in
  EngineM.unfreeze (EngineM.freeze true e).1 = (e, Ok tt).
Proof.
  intros e. apply (freeze_all_then_unfreeze (BE := Demo.backend) e).
  - reflexivity.
  - vm_compute. reflexivity.
Defined.

(** In [Demo.weights] the parameter ["b"] is not trainable; after
    [freeze(freeze_all=False)] and [unfreeze()] it is. *)
Lemma freeze_listed_then_unfreeze_witness :
  let e := EngineM.new_engine (BE := Demo.backend)
             (EngineM.CfgBound {| EngineM.training := true;
                                  EngineM.frozen_params := Some ["b"%string] |})
             Demo.weights (Some Demo.adam) None in
  let e1 := (EngineM.freeze false e).1 in
  let e2 := (EngineM.unfreeze e1).1 in
  EngineM.module e1 !! "b"%string = Some (mkParam (-2) false) /\
  EngineM.module e2 !! "b"%string = Some (mkParam (-2) true) /\
  EngineM._frozen_params e2 = ∅.
Proof.
  intros e e1 e2.
  apply (freeze_listed_then_unfreeze (BE := Demo.backend) e e1 e2
           {| EngineM.training := true; EngineM.frozen_params := Some ["b"%string] |}
           ["b"%string] "b"%string (mkParam (-2) false)).
  - reflexivity.
  - reflexivity.
  - vm_compute. reflexivity.
  - vm_compute. reflexivity.
  - vm_compute. reflexivity.
  - apply list_elem_of_here.
Defined.

(** * Further properties of checkpoints *)

Section CheckpointEdges.
Context `{BE : Backend}.
Import EngineM.

(** A checkpoint in the older layout, with the counters at top level and
    no ['stats'] block, and without ['optimizer'] and ['lr_scheduler']
    entries, loads under any flags: the counters come from the top
    level, the weights from ['module'], and optimizer and scheduler are
    left alone. *)
Theorem load_legacy_checkpoint (fs : gmap (list string) file)
    (dir : list string) (t : string) (strict lo ls mo : bool) (e : Engine)
    (st : Checkpoint) (g m s tp : Z) (sd : gmap string tensor) :
  fs !! (dir ++ [t; "state.pth"%string]) = Some (StateFile st) ->
  ck_stats st = None ->
  ck_toplevel st !! "global_step"%string = Some g ->
  ck_toplevel st !! "micro_step"%string = Some m ->
  ck_toplevel st !! "global_samples"%string = Some s ->
  ck_toplevel st !! "tokens_processed"%string = Some tp ->
  ck_module st = Some sd ->
  dom sd = dom (module e) ->
  ck_optimizer st = None ->
  ck_lr_scheduler st = None ->
  exists e',
    load_checkpoint fs dir (Some t) strict lo ls mo e = (e', Ok tt) /\
    global_steps e' = g /\ micro_steps e' = m /\
    global_samples e' = s /\ tokens_processed e' = tp /\
    state_dict (module e') = sd /\
    optimizer e' = optimizer e /\ lr_scheduler e' = lr_scheduler e.
Proof.
  intros Hfs Hst Hg Hm Hs Htp Hmod Hd Hopt Hsch.
  destruct (state_dict_load_state_dict sd (module e) Hd) as (m' & Hm' & Hsd & _).
  unfold load_checkpoint. rewrite Hfs.
  unfold restore_from, bind, lift, modify, get, ret, read_counter.
  rewrite Hst, Hg, Hm, Hs, Htp, Hmod.
  cbn [module set_module set_global_steps set_micro_steps set_global_samples
       set_tokens_processed].
  rewrite Hm', Hopt, Hsch.
  cbn [optimizer lr_scheduler set_module set_global_steps set_micro_steps
       set_global_samples set_tokens_processed].
  rewrite (bool_decide_eq_false_2 (is_Some None)) by (intros [? ?]; discriminate).
  rewrite !andb_false_r.
  eexists. split; [reflexivity|]. simpl. auto 10.
Qed.

(** Loading is not atomic.  When the stored weights do not have the
    module's parameter names, the call raises, but only after the four
    counters have been overwritten and every parameter that the
    checkpoint does have has taken the stored contents.  The parameters
    the checkpoint lacks keep theirs, no parameter is added, and the
    gradient flags, the optimizer and the scheduler are as before. *)
Theorem load_mismatched_weights (fs : gmap (list string) file)
    (dir : list string) (t : string) (strict lo ls mo : bool) (e : Engine)
    (st : Checkpoint) (g m s tp : Z) (sd : gmap string tensor) :
  fs !! (dir ++ [t; "state.pth"%string]) = Some (StateFile st) ->
  read_counter st "global_step" = Ok g ->
  read_counter st "micro_step" = Ok m ->
  read_counter st "global_samples" = Ok s ->
  read_counter st "tokens_processed" = Ok tp ->
  ck_module st = Some sd ->
  dom sd <> dom (module e) ->
  exists e',
    load_checkpoint fs dir (Some t) strict lo ls mo e
    = (e', Raise (RuntimeError "Error(s) in loading state_dict")) /\
    global_steps e' = g /\ micro_steps e' = m /\
    global_samples e' = s /\ tokens_processed e' = tp /\
    (forall name p w, module e !! name = Some p -> sd !! name = Some w ->
       module e' !! name = Some (mkParam w (requires_grad p))) /\
    (forall name p, module e !! name = Some p -> sd !! name = None ->
       module e' !! name = Some p) /\
    (forall name, module e !! name = None -> module e' !! name = None) /\
    optimizer e' = optimizer e /\ lr_scheduler e' = lr_scheduler e.
Proof.
  intros Hfs Hg Hm Hs Htp Hmod Hd.
  unfold load_checkpoint. rewrite Hfs.
  unfold restore_from, bind, lift, modify, get, ret. cbv beta.
  rewrite Hg, Hm, Hs, Htp, Hmod.
  cbn [module set_module set_global_steps set_micro_steps set_global_samples
       set_tokens_processed].
  unfold load_state_dict. rewrite bool_decide_eq_false_2 by exact Hd.
  eexists. split; [reflexivity|]. cbn [module set_module global_steps micro_steps
    global_samples tokens_processed optimizer lr_scheduler set_global_steps
    set_micro_steps set_global_samples set_tokens_processed].
  repeat split.
  - intros name p w Hp Hw. rewrite map_lookup_imap, Hp. simpl. now rewrite Hw.
  - intros name p Hp Hw. rewrite map_lookup_imap, Hp. simpl. rewrite Hw. simpl.
    now destruct p.
  - intros name Hp. rewrite map_lookup_imap, Hp. reflexivity.
Qed.

(** A checkpoint whose ['stats'] block lacks a counter: the counters read
    before it are already assigned when [KeyError] is raised. *)
Theorem load_missing_counter (fs : gmap (list string) file)
    (dir : list string) (t : string) (strict lo ls mo : bool) (e : Engine)
    (st : Checkpoint) (g : Z) :
  fs !! (dir ++ [t; "state.pth"%string]) = Some (StateFile st) ->
  read_counter st "global_step" = Ok g ->
  read_counter st "micro_step" = Raise (KeyError "micro_step") ->
  load_checkpoint fs dir (Some t) strict lo ls mo e
  = (set_global_steps g e, Raise (KeyError "micro_step")).
Proof.
  intros Hfs Hg Hm. unfold load_checkpoint. rewrite Hfs.
  unfold restore_from, bind, lift, modify, get, ret. cbv beta.
  rewrite Hg, Hm. reflexivity.
Qed.

(** With both flags off nothing reaches the optimizer or the scheduler,
    whatever the file holds and however the call ends. *)
Lemma restore_from_flags_off (st : Checkpoint) (e e' : Engine) (r : result unit) :
  restore_from st false false e = (e', r) ->
  optimizer e' = optimizer e /\ lr_scheduler e' = lr_scheduler e /\
  _frozen_params e' = _frozen_params e /\ _cfg e' = _cfg e.
Proof.
  unfold restore_from, bind, lift, modify, get, ret. cbv beta.
  destruct (read_counter st "global_step"); [|intros [= <- _]; auto].
  destruct (read_counter st "micro_step"); [|intros [= <- _]; auto].
  destruct (read_counter st "global_samples"); [|intros [= <- _]; auto].
  destruct (read_counter st "tokens_processed"); [|intros [= <- _]; auto].
  destruct (ck_module st); [|intros [= <- _]; auto].
  cbn [module set_module set_global_steps set_micro_steps set_global_samples
       set_tokens_processed].
  destruct (load_state_dict _ _) as [m' [[]|err]]; [|intros [= <- _]; auto].
  cbn [andb]. intros [= <- _]. auto.
Qed.


End CheckpointEdges.

Section ModuleOnly.
Context `{BE : Backend}.
Import EngineM Coordinator.
Variable cfg : Config.

(** With [cfg.trainer.load_module_only] the coordinator's load never
    changes an engine's optimizer or scheduler, whatever is on disk and
    whether or not the load succeeds. *)
Theorem load_module_only_keeps_optimizer (fs : gmap (list string) file)
    (tag : option string) (name : string) (e e' : Engine) (r : result unit) :
  load_module_only cfg = true ->
  engine_load cfg fs tag name e = (e', r) ->
  optimizer e' = optimizer e /\ lr_scheduler e' = lr_scheduler e.
Proof.
  intros Hmo. unfold engine_load. rewrite Hmo.
  unfold EngineM.load_checkpoint, ret, raise.
  assert (Hk : forall t : string,
    match fs !! ((ckpt_dir cfg ++ [name]) ++ [t; "state.pth"%string]) with
    | Some (TextFile _) => fun s : Engine => (s, @Raise unit (Exception "invalid load key"))
    | Some (StateFile state) => restore_from state false false
    | Some Directory =>
        fun s : Engine =>
          (s, @Raise unit (IsADirectoryError
                             ((ckpt_dir cfg ++ [name]) ++ [t; "state.pth"%string])))
    | None => fun s : Engine => (s, Ok tt)
    end e = (e', r) ->
    optimizer e' = optimizer e /\ lr_scheduler e' = lr_scheduler e).
  { intros t. destruct (fs !! _) as [[txt|st|]|].
    - intros [= <- _]. auto.
    - intros H. apply restore_from_flags_off in H. tauto.
    - intros [= <- _]. auto.
    - intros [= <- _]. auto. }
  destruct (effective_tag cfg tag) as [t|].
  - apply Hk.
  - destruct (fs !! _) as [[t|st|]|].
    + apply Hk.
    + intros [= <- _]. auto.
    + intros [= <- _]. auto.
    + intros [= <- _]. auto.
Qed.

End ModuleOnly.

(** * Further properties of the coordinator *)

Section Aggregates.
Context `{BE : Backend}.
Import EngineM Coordinator.
Variable cfg : Config.

Lemma foldl_max_spec {A : Type} (f : A -> Z) (l : list A) : forall z0 : Z,
  let r := foldl (fun acc x => Z.max acc (f x)) z0 l in
  z0 <= r /\ Forall (fun x => f x <= r) l /\
  (r = z0 \/ exists x, x ∈ l /\ r = f x).
Proof.
  induction l as [|a l IH]; intros z0; simpl.
  - split; [lia|]. split; [constructor|]. now left.
  - destruct (IH (Z.max z0 (f a))) as (Hle & Hall & Hat).
    split; [lia|]. split; [constructor; [lia|exact Hall]|].
    destruct Hat as [-> | (x & Hx & ->)].
    + destruct (Z.max_spec z0 (f a)) as [[_ ->] | [_ ->]].
      * right. exists a. split; [apply list_elem_of_here|reflexivity].
      * now left.
    + right. exists x. split; [now apply list_elem_of_further|reflexivity].
Qed.

Lemma update_fold (l : list (string * Engine)) : forall acc : Engines,
  let acc' :=
    foldl (fun acc ne =>
             {| items := items acc;
                _global_step := Z.max (_global_step acc) (global_step ne.2);
                _micro_step := Z.max (_micro_step acc) (micro_step ne.2);
                _batch_size := Z.max (_batch_size acc) (batch_size cfg);
                _global_samples := Z.max (_global_samples acc) (global_samples ne.2) |})
          acc l in
  _global_step acc'
  = foldl (fun z ne => Z.max z (global_steps ne.2)) (_global_step acc) l /\
  _micro_step acc'
  = foldl (fun z ne => Z.max z (micro_steps ne.2)) (_micro_step acc) l /\
  _global_samples acc'
  = foldl (fun z ne => Z.max z (global_samples ne.2)) (_global_samples acc) l.
Proof.
  induction l as [|ne l IH]; intros acc; simpl; [auto|].
  apply IH.
Qed.

(** [_update] never lowers an aggregate counter: each one becomes the
    largest of its old value and the engines' values.  In particular it
    stays where it was when every engine has since been reset. *)
Theorem update_takes_maximum (es : Engines) :
  let es' := (_update cfg es).1 in
  items es' = items es /\
  (_global_step es <= _global_step es' /\
   Forall (fun ne => global_steps ne.2 <= _global_step es') (items es) /\
   (_global_step es' = _global_step es \/
    exists ne, ne ∈ items es /\ _global_step es' = global_steps ne.2)) /\
  (_micro_step es <= _micro_step es' /\
   Forall (fun ne => micro_steps ne.2 <= _micro_step es') (items es) /\
   (_micro_step es' = _micro_step es \/
    exists ne, ne ∈ items es /\ _micro_step es' = micro_steps ne.2)) /\
  (_global_samples es <= _global_samples es' /\
   Forall (fun ne => global_samples ne.2 <= _global_samples es') (items es) /\
   (_global_samples es' = _global_samples es \/
    exists ne, ne ∈ items es /\ _global_samples es' = global_samples ne.2)).
Proof.
  intros es'. split; [apply update_items|].
  subst es'. unfold _update. cbn [fst].
  destruct (update_fold (items es) es) as (-> & -> & ->).
  repeat split;
    first [ apply (foldl_max_spec (fun ne : string * Engine => global_steps ne.2))
          | apply (foldl_max_spec (fun ne : string * Engine => micro_steps ne.2))
          | apply (foldl_max_spec (fun ne : string * Engine => global_samples ne.2)) ].
Qed.

End Aggregates.

Section Shrinking.
Import Coordinator.
Context {Sample : Type}.

Lemma drop_last_take (v : list Sample) (n : nat) :
  drop_last (take n v) = take (Nat.min n (length v) - 1) v.
Proof.
  unfold drop_last. rewrite length_take, take_take. f_equal. lia.
Qed.

(** After [n] rounds of shrinking, every field of the batch holds its
    first [len - n] elements, and none once [n] reaches its length: the
    keys stay, and an empty field stays empty without an error. *)
Theorem shrink_iterated (n : nat) (b : gmap string (list Sample)) (k : string) :
  Nat.iter n shrink b !! k = (fun v => take (length v - n) v) <$> (b !! k).
Proof.
  induction n as [|n IH]; simpl.
  - destruct (b !! k) as [v|]; simpl; [|reflexivity].
    now rewrite Nat.sub_0_r, firstn_all.
  - unfold shrink at 1. rewrite lookup_fmap, IH.
    destruct (b !! k) as [v|]; simpl; [|reflexivity].
    f_equal. rewrite drop_last_take. f_equal. lia.
Qed.

End Shrinking.

Section StepRuns.
Context `{BE : Backend}.
Import EngineM Coordinator.
Variable cfg : Config.
Context {Sample FeederState : Type}.
Variable feeder :
  FeederState -> Engine -> gmap string (list Sample) ->
  FeederState * result (option (scalar * list (string * scalar))).
Variable gather_scalar : gmap string (Param tensor) -> list (string * scalar).
Variable world_size : Z.
Variable all_reduce : Z -> Z.

Abbreviation Locals'' := (@Locals BE Sample FeederState).

Lemma feeder_calls_after_call (name : string) (f : FeederState) (l : Locals'') :
  feeder_calls (with_feeder f (log (EvFeeder name (l_batch l)) l))
  = feeder_calls l ++ [(name, l_batch l)].
Proof. reflexivity. Qed.

Lemma feeder_calls_log_other (ev : event) (l : Locals'') :
  (forall n b, ev <> EvFeeder n b) ->
  feeder_calls (log ev l) = feeder_calls l.
Proof.
  intros Hev. destruct ev; try reflexivity. exfalso. eapply Hev. reflexivity.
Qed.

(** The locals with which [step] enters its loop. *)
Lemma step_unfold (fuel : nat) (batch : gmap string (list Sample))
    (f0 : FeederState) (es : Engines) :
  exists l0 : Locals'',
    l_feeder l0 = f0 /\ l_batch l0 = batch /\ l_res l0 = None /\
    l_stats l0 = [] /\ feeder_calls l0 = [] /\
    ~ In EvEmergencySave (l_trace l0) /\
    step cfg feeder gather_scalar world_size all_reduce fuel batch f0 es
    = match step_loop cfg feeder gather_scalar world_size all_reduce fuel []
              (items es) l0 with
      | None => None
      | Some (its, l, Raise err) => Some (with_items its es, l, Raise err)
      | Some (its, l, Ok _) =>
          let es' := (_update cfg (with_items its es)).1 in
          Some (es', l,
                Ok {| per_engine := l_stats l;
                      has_total_elapsed_time := bool_decide (1 < length its)%nat;
                      it := _global_step es' |})
      end.
Proof.
  unfold step. set (l0 := if bool_decide _ then log EvGC _ else _).
  exists l0. subst l0.
  destruct (bool_decide _); repeat split; simpl; intuition discriminate.
Qed.

(** The loop over a collection in which one engine is trained: the
    outcome is that of its loop body. *)
Lemma step_loop_one_trained (fuel : nat) (before after : list (string * Engine))
    (name : string) (e e' : Engine) (l l' : Locals'') (r : result unit) :
  Forall (fun ne => _training ne.2 = Ok false) (before ++ after) ->
  step_body cfg feeder gather_scalar world_size all_reduce fuel before after name e l
  = Some (e', l', r) ->
  step_loop cfg feeder gather_scalar world_size all_reduce fuel []
    (before ++ (name, e) :: after) l
  = Some (before ++ (name, e') :: after, l', r).
Proof.
  intros [Hb Ha]%Forall_app Hbody.
  rewrite step_loop_skips_prefix by exact Hb. cbn [step_loop app].
  rewrite Hbody. destruct r as [[]|err]; [|reflexivity].
  rewrite step_loop_skips_all by exact Ha.
  now rewrite <- app_assoc.
Qed.

(** A collection in which no engine is trained: [step] returns at once
    with no per-engine statistics; the feeder is not called and no engine
    changes. *)
Theorem step_without_trained_engines (fuel : nat)
    (batch : gmap string (list Sample)) (f0 : FeederState) (es : Engines) :
  Forall (fun ne => _training ne.2 = Ok false) (items es) ->
  exists (l : Locals'') stats,
    step cfg feeder gather_scalar world_size all_reduce fuel batch f0 es
    = Some ((_update cfg es).1, l, Ok stats) /\
    per_engine stats = [] /\
    feeder_calls l = [] /\ l_feeder l = f0 /\ l_batch l = batch /\
    items (_update cfg es).1 = items es.
Proof.
  intros Hall.
  destruct (step_unfold fuel batch f0 es) as (l0 & Hf & Hb & _ & Hs & Hc & _ & ->).
  rewrite step_loop_skips_all by exact Hall. cbn [app].
  assert (Hes : with_items (items es) es = es) by (destruct es; reflexivity).
  rewrite Hes. eexists l0, _. split; [reflexivity|].
  cbn [per_engine]. rewrite update_items. auto 10.
Qed.

Section OneTrained.
Variables (name : string) (e : Engine).
Variables (before after : list (string * Engine)).
Variables (batch : gmap string (list Sample)) (f0 f1 : FeederState).

Hypothesis Hothers :
  Forall (fun ne => _training ne.2 = Ok false) (before ++ after).
Hypothesis Htraining : _training e = Ok true.
Hypothesis Hparams : module e <> ∅.

(** The locals with which the body of the trained engine does its
    forward pass. *)
Lemma step_body_unfold (fuel : nat) (l : Locals'') :
  exists l1 : Locals'',
    l_feeder l1 = l_feeder l /\ l_batch l1 = l_batch l /\ l_res l1 = l_res l /\
    l_stats l1 = l_stats l /\ feeder_calls l1 = feeder_calls l /\
    (In EvEmergencySave (l_trace l1) -> In EvEmergencySave (l_trace l)) /\
    step_body cfg feeder gather_scalar world_size all_reduce fuel before after name e l
    = match forward_pass cfg feeder world_size all_reduce fuel name e l1 with
      | None => None
      | Some (l, Raise err) => Some (e, l, Raise err)
      | Some (l, Ok _) =>
          match l_res l with
          | None => Some (e, l, Raise (UnboundLocalError "res"))
          | Some None => Some (e, l, Ok tt)
          | Some (Some (loss, engine_stats)) =>
              let engine_stats :=
                dict_update engine_stats
                  (gather_attribute gather_scalar (before ++ (name, e) :: after)) in
              match backward_pass cfg world_size all_reduce loss e l with
              | (e, l, Raise err) => Some (e, l, Raise err)
              | (e, l, Ok _) =>
                  match EngineM.step cfg e with
                  | (e, Raise err) => Some (e, l, Raise err)
                  | (e, Ok _) =>
                      match get_lr e with
                      | Raise err => Some (e, l, Raise err)
                      | Ok [] => Some (e, l, Raise IndexError)
                      | Ok (lr :: _) =>
                          match keyword_clash entry_keywords engine_stats with
                          | Some k =>
                              Some (e, l,
                                    Raise (TypeError
                                      ("dict() got multiple values for keyword argument '"
                                       +:+ k +:+ "'")))
                          | None =>
                              Some (e,
                                    push_stats
                                      {| st_prefix := split_head (Ascii.ascii_of_nat 45) name;
                                         st_loss := loss;
                                         st_lr := lr;
                                         st_engine_step := global_step e;
                                         st_samples_processed := global_samples e;
                                         st_tokens_processed := tokens_processed e;
                                         st_extra := engine_stats |} l,
                                    Ok tt)
                          end
                      end
                  end
              end
          end
      end.
Proof.
  unfold step_body. rewrite Htraining. unfold device.
  rewrite bool_decide_eq_false_2 by exact Hparams.
  set (l1 := if bool_decide _ then log EvGC l else l).
  exists l1. subst l1.
  destruct (bool_decide _); repeat split; simpl; intuition discriminate.
Qed.

Abbreviation quiet_peers := (Coordinator.quiet_peers cfg world_size all_reduce).

Lemma forward_pass_first_try (fuel : nat) (l : Locals'')
    (res : option (scalar * list (string * scalar))) :
  feeder (l_feeder l) e (l_batch l) = (f1, Ok res) ->
  quiet_peers ->
  exists l',
    forward_pass cfg feeder world_size all_reduce (S fuel) name e l
    = Some (l', Ok tt) /\
    l_feeder l' = f1 /\ l_batch l' = l_batch l /\ l_res l' = Some res /\
    l_stats l' = l_stats l /\
    feeder_calls l' = feeder_calls l ++ [(name, l_batch l)].
Proof.
  intros Hf Hq. unfold forward_pass.
  destruct (check_for_oom cfg) eqn:Hc; cbn [negb].
  - cbn [forward_loop]. change (negb (4 >=? 0)) with false. cbv iota.
    rewrite (call_feeder_spec feeder name e l f1 (Ok res) Hf).
    set (l2 := with_res res _).
    assert (Hq' : world_size <= 1 \/ all_reduce 0 = 0)
      by (destruct Hq as [Hq|Hq]; [congruence|exact Hq]).
    destruct (sync_ooms_zero world_size all_reduce
                "Out of memory during forward pass!" l2 Hq')
      as (l' & Hs & Hb' & Hr' & Hst' & Hf' & Hc').
    exists l'. rewrite Hs. split; [reflexivity|].
    rewrite Hc', Hb', Hr', Hst', Hf'. subst l2. repeat split.
  - rewrite (call_feeder_spec feeder name e l f1 (Ok res) Hf).
    eexists. split; [reflexivity|]. repeat split.
Qed.

Lemma backward_pass_ok (loss : scalar) (m' : gmap string (Param tensor))
    (l : Locals'') :
  autograd_backward loss (gradient_accumulation_steps cfg) (module e) = Ok m' ->
  quiet_peers ->
  exists l',
    backward_pass cfg world_size all_reduce loss e l = (set_module m' e, l', Ok tt) /\
    same_data l l'.
Proof.
  intros Hb Hq. unfold backward_pass, EngineM.backward. rewrite Hb.
  destruct (check_for_oom cfg) eqn:Hc; cbn [negb].
  - assert (Hq' : world_size <= 1 \/ all_reduce 0 = 0)
      by (destruct Hq as [Hq|Hq]; [congruence|exact Hq]).
    destruct (sync_ooms_zero world_size all_reduce
                "Out of memory during backwards pass!" l Hq') as (l' & Hs & Hd).
    rewrite Hs. eauto.
  - exists l. split; [reflexivity|]. repeat split.
Qed.

Abbreviation collection := (new_engines (before ++ (name, e) :: after)).

(** The feeder returns [None] for the trained engine: the engine is
    skipped.  No backward pass, no [step()], no statistics entry; the
    collection is as it was. *)
Theorem step_feeder_returns_none (fuel : nat) :
  feeder f0 e batch = (f1, Ok None) ->
  quiet_peers ->
  (1 <= fuel)%nat ->
  exists es' (l : Locals'') stats,
    step cfg feeder gather_scalar world_size all_reduce fuel batch f0 collection
    = Some (es', l, Ok stats) /\
    items es' = before ++ (name, e) :: after /\
    per_engine stats = [] /\
    feeder_calls l = [(name, batch)].
Proof.
  intros Hf Hq Hfuel. destruct fuel as [|fuel]; [lia|].
  destruct (step_unfold (S fuel) batch f0 collection)
    as (l0 & Hf0 & Hb0 & _ & Hs0 & Hc0 & _ & ->).
  destruct (step_body_unfold (S fuel) l0)
    as (l1 & Hf1 & Hb1 & _ & Hs1 & Hc1 & _ & Hbody).
  destruct (forward_pass_first_try fuel l1 None) as (l2 & Hfw & _ & _ & Hr2 & Hs2 & Hc2);
    [rewrite Hf1, Hb1, Hf0, Hb0; exact Hf | exact Hq|].
  rewrite Hfw, Hr2 in Hbody.
  cbn [items new_engines].
  rewrite (step_loop_one_trained _ _ _ _ _ _ _ _ _ Hothers Hbody).
  eexists _, l2, _. split; [reflexivity|].
  rewrite update_items. cbn [items with_items per_engine].
  rewrite Hs2, Hs1, Hs0, Hc2, Hc1, Hc0, Hb1, Hb0. auto.
Qed.

(** With out-of-memory checking on, a feeder error other than memory
    exhaustion ends the step on the first attempt: the same error is
    raised, the batch is not shrunk, the engines are untouched.  The
    emergency checkpoint is taken for a [RuntimeError] and for no other
    exception class. *)
Theorem step_fatal_feeder_error (fuel : nat) (err : exn) :
  check_for_oom cfg = true ->
  feeder f0 e batch = (f1, Raise err) ->
  (forall msg, err = RuntimeError msg -> contains "out of memory" msg = false) ->
  (1 <= fuel)%nat ->
  exists l : Locals'',
    step cfg feeder gather_scalar world_size all_reduce fuel batch f0 collection
    = Some (collection, l, Raise err) /\
    feeder_calls l = [(name, batch)] /\
    l_batch l = batch /\
    (In EvEmergencySave (l_trace l) <-> exists msg, err = RuntimeError msg).
Proof.
  intros Hcheck Hf Hmsg Hfuel. destruct fuel as [|fuel]; [lia|].
  destruct (step_unfold (S fuel) batch f0 collection)
    as (l0 & Hf0 & Hb0 & _ & _ & Hc0 & Hn0 & ->).
  destruct (step_body_unfold (S fuel) l0)
    as (l1 & Hf1 & Hb1 & _ & _ & Hc1 & Hn1 & Hbody).
  assert (Hfeed : feeder (l_feeder l1) e (l_batch l1) = (f1, Raise err))
    by (rewrite Hf1, Hb1, Hf0, Hb0; exact Hf).
  unfold forward_pass in Hbody. rewrite Hcheck in Hbody.
  cbn [negb forward_loop] in Hbody.
  change (negb (4 >=? 0)) with false in Hbody. cbv iota in Hbody.
  rewrite (call_feeder_spec feeder name e l1 f1 (Raise err) Hfeed) in Hbody.
  cbn [items new_engines].
  assert (Hcalls' : feeder_calls (with_feeder f1 (log (EvFeeder name (l_batch l1)) l1))
                    = [(name, batch)]).
  { rewrite feeder_calls_after_call, Hc1, Hc0, Hb1, Hb0. reflexivity. }
  destruct err as [msg| | | | | | | | | | | |];
    try (rewrite (step_loop_one_trained _ _ _ _ _ _ _ _ _ Hothers Hbody);
         eexists; split; [reflexivity|]; split; [exact Hcalls'|];
         split; [simpl; congruence|];
         split; [simpl; intros [H|H]; [discriminate|exfalso; auto]
                |intros [? ?]; discriminate]).
  rewrite (Hmsg msg eq_refl) in Hbody. cbn [negb] in Hbody.
  rewrite (step_loop_one_trained _ _ _ _ _ _ _ _ _ Hothers Hbody).
  eexists. split; [reflexivity|].
  split; [rewrite feeder_calls_log_other by discriminate; exact Hcalls'|].
  split; [simpl; congruence|]. split; [intros _; eauto | intros _; simpl; auto].
Qed.

(** With out-of-memory checking off there is no retry and no emergency
    checkpoint: whatever the feeder raises, memory exhaustion included,
    is raised by [step] after that one call. *)
Theorem step_unchecked_feeder_error (fuel : nat) (err : exn) :
  check_for_oom cfg = false ->
  feeder f0 e batch = (f1, Raise err) ->
  exists l : Locals'',
    step cfg feeder gather_scalar world_size all_reduce fuel batch f0 collection
    = Some (collection, l, Raise err) /\
    feeder_calls l = [(name, batch)] /\
    l_batch l = batch /\
    ~ In EvEmergencySave (l_trace l).
Proof.
  intros Hcheck Hf.
  destruct (step_unfold fuel batch f0 collection)
    as (l0 & Hf0 & Hb0 & _ & _ & Hc0 & Hn0 & ->).
  destruct (step_body_unfold fuel l0)
    as (l1 & Hf1 & Hb1 & _ & _ & Hc1 & Hn1 & Hbody).
  assert (Hfeed : feeder (l_feeder l1) e (l_batch l1) = (f1, Raise err))
    by (rewrite Hf1, Hb1, Hf0, Hb0; exact Hf).
  unfold forward_pass in Hbody. rewrite Hcheck in Hbody. cbn [negb] in Hbody.
  rewrite (call_feeder_spec feeder name e l1 f1 (Raise err) Hfeed) in Hbody.
  cbn [items new_engines].
  rewrite (step_loop_one_trained _ _ _ _ _ _ _ _ _ Hothers Hbody).
  eexists. split; [reflexivity|]. split; [|split].
  - rewrite feeder_calls_after_call, Hc1, Hc0, Hb1, Hb0. reflexivity.
  - simpl. congruence.
  - simpl. intros [H|H]; [discriminate|auto].
Qed.

(** Memory exhaustion in the backward pass is not retried: one feeder
    call, one backward call, the emergency checkpoint, and
    [RuntimeError("Out of memory during backwards pass!")].  The engine
    has not stepped. *)
Theorem step_backward_oom (fuel : nat) (loss : scalar)
    (st : list (string * scalar)) (msg : string) :
  check_for_oom cfg = true ->
  feeder f0 e batch = (f1, Ok (Some (loss, st))) ->
  world_size <= 1 \/ (all_reduce 0 = 0 /\ all_reduce 1 > 0) ->
  autograd_backward loss (gradient_accumulation_steps cfg) (module e)
  = Raise (RuntimeError msg) ->
  contains "out of memory" msg = true ->
  (1 <= fuel)%nat ->
  exists l : Locals'',
    step cfg feeder gather_scalar world_size all_reduce fuel batch f0 collection
    = Some (collection, l, Raise (RuntimeError "Out of memory during backwards pass!")) /\
    feeder_calls l = [(name, batch)] /\
    In EvEmergencySave (l_trace l).
Proof.
  intros Hcheck Hf Hpeers Hbw Hmsg Hfuel. destruct fuel as [|fuel]; [lia|].
  destruct (step_unfold (S fuel) batch f0 collection)
    as (l0 & Hf0 & Hb0 & _ & _ & Hc0 & _ & ->).
  destruct (step_body_unfold (S fuel) l0)
    as (l1 & Hf1 & Hb1 & _ & _ & Hc1 & _ & Hbody).
  assert (Hq : quiet_peers) by (right; tauto).
  destruct (forward_pass_first_try fuel l1 (Some (loss, st)))
    as (l2 & Hfw & _ & _ & Hr2 & _ & Hc2);
    [rewrite Hf1, Hb1, Hf0, Hb0; exact Hf | exact Hq|].
  rewrite Hfw, Hr2 in Hbody. cbv zeta in Hbody.
  unfold backward_pass, EngineM.backward in Hbody.
  rewrite Hcheck, Hbw, Hmsg in Hbody. cbn [negb] in Hbody.
  unfold sync_ooms in Hbody.
  assert (Hraise :
    (let '(n, l1) := if world_size >? 1
                     then (all_reduce (0 + 1), log (EvAllReduce (0 + 1)) l2)
                     else (0 + 1, l2) in
     if n >? 0
     then (log EvEmergencySave l1,
           @Raise unit (RuntimeError "Out of memory during backwards pass!"))
     else (l1, Ok tt))
    = (log EvEmergencySave
         (if world_size >? 1 then log (EvAllReduce (0 + 1)) l2 else l2),
       Raise (RuntimeError "Out of memory during backwards pass!"))).
  { destruct (world_size >? 1) eqn:Hw.
    - destruct Hpeers as [Hle | [_ Hgt]]; [apply Z.gtb_lt in Hw; lia|].
      change (0 + 1) with 1. replace (all_reduce 1 >? 0) with true; [reflexivity|].
      symmetry. apply Z.gtb_lt. lia.
    - reflexivity. }
  rewrite Hraise in Hbody.
  cbn [items new_engines].
  rewrite (step_loop_one_trained _ _ _ _ _ _ _ _ _ Hothers Hbody).
  eexists. split; [reflexivity|]. split.
  - rewrite feeder_calls_log_other by discriminate.
    destruct (world_size >? 1);
      rewrite ?feeder_calls_log_other by discriminate;
      rewrite Hc2, Hc1, Hc0, Hb1, Hb0; reflexivity.
  - simpl. auto.
Qed.

(** A step without failure: one feeder call, one backward pass, one
    [Engine.step()].  The feeder's statistics and the scalars gathered
    from the modules use none of the keywords of the statistics entry.
    The entry of the engine then shows the counters after that step, the
    loss the feeder returned, the first learning rate, and the feeder's
    statistics updated with the gathered scalars; untrained engines have
    no entry. *)
Theorem step_trains_one_engine (fuel : nat) (loss lr : scalar)
    (st : list (string * scalar)) (lrs : list scalar)
    (m' : gmap string (Param tensor)) (o : Optimizer) :
  feeder f0 e batch = (f1, Ok (Some (loss, st))) ->
  quiet_peers ->
  autograd_backward loss (gradient_accumulation_steps cfg) (module e) = Ok m' ->
  optimizer e = Some o ->
  omap id (param_groups o) = lr :: lrs ->
  free_of_keywords st ->
  Forall (fun ne => free_of_keywords (gather_scalar (module ne.2)))
    (before ++ (name, e) :: after) ->
  (1 <= fuel)%nat ->
  exists es' (l : Locals'') stats e',
    step cfg feeder gather_scalar world_size all_reduce fuel batch f0 collection
    = Some (es', l, Ok stats) /\
    items es' = before ++ (name, e') :: after /\
    EngineM.step cfg (set_module m' e) = (e', Ok tt) /\
    micro_steps e' = micro_steps e + 1 /\
    global_samples e' = global_samples e + batch_size cfg /\
    per_engine stats
    = [ {| st_prefix := split_head (Ascii.ascii_of_nat 45) name;
           st_loss := loss;
           st_lr := lr;
           st_engine_step := global_steps e';
           st_samples_processed := global_samples e';
           st_tokens_processed := tokens_processed e';
           st_extra :=
             dict_update st
               (gather_attribute gather_scalar (before ++ (name, e) :: after)) |} ] /\
    it stats = _global_step es' /\
    feeder_calls l = [(name, batch)].
Proof.
  intros Hf Hq Hbw Ho Hlr Hst Hgathered Hfuel. destruct fuel as [|fuel]; [lia|].
  destruct (step_unfold (S fuel) batch f0 collection)
    as (l0 & Hf0 & Hb0 & _ & Hs0 & Hc0 & _ & ->).
  destruct (step_body_unfold (S fuel) l0)
    as (l1 & Hf1 & Hb1 & _ & Hs1 & Hc1 & _ & Hbody).
  destruct (forward_pass_first_try fuel l1 (Some (loss, st)))
    as (l2 & Hfw & _ & _ & Hr2 & Hs2 & Hc2);
    [rewrite Hf1, Hb1, Hf0, Hb0; exact Hf | exact Hq|].
  rewrite Hfw, Hr2 in Hbody. cbv zeta in Hbody.
  destruct (backward_pass_ok loss m' l2 Hbw Hq)
    as (l3 & Hback & _ & _ & Hs3 & _ & Hc3).
  rewrite Hback in Hbody.
  destruct (step_with_optimizer cfg (set_module m' e) o Ho)
    as (e' & o' & Hstep & Ho' & Hmi & Hsa & _ & _ & _ & Hpg & _).
  rewrite Hstep in Hbody. unfold get_lr in Hbody.
  rewrite Ho', Hpg, Hlr in Hbody.
  rewrite (no_keyword_clash gather_scalar st _ Hst Hgathered) in Hbody.
  cbn [items new_engines].
  rewrite (step_loop_one_trained _ _ _ _ _ _ _ _ _ Hothers Hbody).
  eexists _, _, _, e'. split; [reflexivity|].
  rewrite update_items. cbn [items with_items per_engine it l_stats push_stats].
  rewrite Hs3, Hs2, Hs1, Hs0. unfold global_step.
  repeat split; try assumption.
  change (feeder_calls (push_stats ?s l3)) with (feeder_calls l3).
  rewrite Hc3, Hc2, Hc1, Hc0, Hb1, Hb0. reflexivity.
Qed.

(** When the feeder's statistics use one of the keywords, the entry
    cannot be built: [step] raises [TypeError], and it does so after the
    backward pass and [Engine.step()], so the engine has stepped. *)
Lemma step_statistics_keyword_clash (fuel : nat) (loss lr v : scalar)
    (k : string) (st : list (string * scalar)) (lrs : list scalar)
    (m' : gmap string (Param tensor)) (o : Optimizer) :
  feeder f0 e batch = (f1, Ok (Some (loss, st))) ->
  quiet_peers ->
  autograd_backward loss (gradient_accumulation_steps cfg) (module e) = Ok m' ->
  optimizer e = Some o ->
  omap id (param_groups o) = lr :: lrs ->
  (k, v) ∈ st -> k ∈ entry_keywords ->
  (1 <= fuel)%nat ->
  exists es' (l : Locals'') e' k',
    step cfg feeder gather_scalar world_size all_reduce fuel batch f0 collection
    = Some (es', l,
            Raise (TypeError ("dict() got multiple values for keyword argument '"
                              +:+ k' +:+ "'"))) /\
    k' ∈ entry_keywords /\
    items es' = before ++ (name, e') :: after /\
    EngineM.step cfg (set_module m' e) = (e', Ok tt) /\
    l_stats l = [].
Proof.
  intros Hf Hq Hbw Ho Hlr Hin Hk Hfuel. destruct fuel as [|fuel]; [lia|].
  destruct (step_unfold (S fuel) batch f0 collection)
    as (l0 & Hf0 & Hb0 & _ & Hs0 & Hc0 & _ & ->).
  destruct (step_body_unfold (S fuel) l0)
    as (l1 & Hf1 & Hb1 & _ & Hs1 & Hc1 & _ & Hbody).
  destruct (forward_pass_first_try fuel l1 (Some (loss, st)))
    as (l2 & Hfw & _ & _ & Hr2 & Hs2 & Hc2);
    [rewrite Hf1, Hb1, Hf0, Hb0; exact Hf | exact Hq|].
  rewrite Hfw, Hr2 in Hbody. cbv zeta in Hbody.
  destruct (backward_pass_ok loss m' l2 Hbw Hq)
    as (l3 & Hback & _ & _ & Hs3 & _ & Hc3).
  rewrite Hback in Hbody.
  destruct (step_with_optimizer cfg (set_module m' e) o Ho)
    as (e' & o' & Hstep & Ho' & Hmi & Hsa & _ & _ & _ & Hpg & _).
  rewrite Hstep in Hbody. unfold get_lr in Hbody.
  rewrite Ho', Hpg, Hlr in Hbody.
  destruct (dict_update_has_key k
              (gather_attribute gather_scalar (before ++ (name, e) :: after)) st v Hin)
    as [v' Hin'].
  destruct (keyword_clash_some entry_keywords _ k v' Hin' Hk) as (k' & Hclash & Hk').
  rewrite Hclash in Hbody.
  cbn [items new_engines].
  rewrite (step_loop_one_trained _ _ _ _ _ _ _ _ _ Hothers Hbody).
  eexists _, _, e', k'. split; [reflexivity|].
  cbn [items with_items]. rewrite Hs3, Hs2, Hs1, Hs0. auto.
Qed.

End OneTrained.

End StepRuns.

(** * Padding, masks and merging in [models/base.py] *)

Section TensorFacts.
Import Tensors.

Lemma ltb_seq_below (stop n : nat) : forall a : nat,
  (a + n <= stop)%nat ->
  (fun i => (i <? stop)%nat) <$> seq a n = replicate n true.
Proof.
  induction n as [|n IH]; intros a Ha; simpl; [reflexivity|].
  rewrite IH by lia. f_equal. apply Nat.ltb_lt. lia.
Qed.

Lemma ltb_seq_above (stop n : nat) : forall a : nat,
  (stop <= a)%nat ->
  (fun i => (i <? stop)%nat) <$> seq a n = replicate n false.
Proof.
  induction n as [|n IH]; intros a Ha; simpl; [reflexivity|].
  rewrite IH by lia. f_equal. apply Nat.ltb_ge. lia.
Qed.

Lemma mask_row (stop t : nat) :
  (stop <= t)%nat ->
  (fun i => (i <? stop)%nat) <$> seq 0 t
  = replicate stop true ++ replicate (t - stop) false.
Proof.
  intros Hle. replace t with (stop + (t - stop))%nat at 1 by lia.
  rewrite seq_app, fmap_app.
  rewrite ltb_seq_below by lia. rewrite ltb_seq_above by lia. reflexivity.
Qed.

Lemma le_foldr_max (l : list nat) : Forall (fun n => (n <= foldr Nat.max 0 l)%nat) l.
Proof.
  induction l as [|a l IH]; simpl; constructor; [lia|].
  eapply Forall_impl; [|exact IH]. simpl. intros; lia.
Qed.

Lemma create_mask_rows_aux (n : nat) (l : list nat) :
  _create_mask (n :: l)
  = Ok ((fun stop => replicate stop true
                     ++ replicate (foldr Nat.max 0%nat (n :: l) - stop) false)
        <$> (n :: l)).
Proof.
  unfold _create_mask. f_equal.
  apply Forall_fmap_ext_1. eapply Forall_impl; [|apply le_foldr_max].
  intros stop Hle. apply mask_row. exact Hle.
Qed.

(** The mask of a non-empty list of lengths: one row per length, every
    row as long as the largest length, with ones on exactly the first
    [stop] positions. *)
Theorem create_mask_rows (n : nat) (l : list nat) :
  let t := foldr Nat.max 0%nat (n :: l) in
  _create_mask (n :: l)
  = Ok ((fun stop => replicate stop true ++ replicate (t - stop) false) <$> (n :: l)).
Proof.
  intros t. apply create_mask_rows_aux.
Qed.

(** Padding a non-empty batch and cutting every sequence back to its
    length gives the batch back; every padded sequence has the longest
    length, and the mask marks exactly the rows that are not padding. *)
Theorem pad_then_remove_padding {Row : Type} (zero : Row) (x0 : list Row)
    (rest : list (list Row)) :
  let x_list := x0 :: rest in
  let t := foldr Nat.max 0%nat (length <$> x_list) in
  exists x m,
    list_to_tensor zero x_list = Ok (x, m) /\
    remove_padding x x_list = x_list /\
    Forall (fun xp => length xp = t) x /\
    m = (fun xi => replicate (length xi) true ++ replicate (t - length xi) false)
        <$> x_list.
Proof.
  intros x_list t. unfold list_to_tensor.
  change (pad_sequence zero x_list)
    with (Ok ((fun x => x ++ replicate (t - length x) zero) <$> x_list)).
  change (length <$> x_list) with (length x0 :: (length <$> rest)).
  rewrite create_mask_rows_aux. eexists _, _. split; [reflexivity|].
  assert (Hle : Forall (fun x : list Row => (length x <= t)%nat) x_list).
  { pose proof (le_foldr_max (length <$> x_list)) as H.
    apply Forall_fmap in H. exact H. }
  split; [|split].
  - unfold remove_padding. clearbody t. clear -Hle.
    induction Hle as [|x l Hx _ IH]; [reflexivity|].
    cbn [fmap list_fmap zip zip_with]. cbn [fmap list_fmap zip zip_with] in IH.
    rewrite IH. simpl. f_equal.
    now rewrite take_app_length.
  - apply Forall_fmap. eapply Forall_impl; [|exact Hle].
    intros x Hx. simpl in *. rewrite length_app, length_replicate. lia.
  - change (length x0 :: (length <$> rest)) with (length <$> x_list).
    now rewrite <- list_fmap_compose.
Qed.

End TensorFacts.

Section MergeFacts.
Import Tensors.
Context {Row : Type}.

Lemma foldl_join (sep : Row) (rest : list (list Row)) : forall acc : list Row,
  foldl (fun ret xi => ret ++ [sep] ++ xi) acc rest
  = acc ++ concat ((fun xi => sep :: xi) <$> rest).
Proof.
  induction rest as [|x rest IH]; intros acc; simpl.
  - now rewrite app_nil_r.
  - rewrite IH. simpl. now rewrite <- app_assoc.
Qed.

(** [_join] of a non-empty tuple: the pieces in order with one separator
    row between neighbours, so the length is the total length plus the
    number of pieces minus one. *)
Theorem join_separates (sep : Row) (x0 : list Row) (rest : list (list Row)) :
  exists joined,
    _join (x0 :: rest) sep = Ok joined /\
    joined = x0 ++ concat ((fun xi => sep :: xi) <$> rest) /\
    length joined
    = (length x0 + sum_list (length <$> rest) + length rest)%nat.
Proof.
  eexists. split; [reflexivity|]. rewrite foldl_join. split; [reflexivity|].
  rewrite length_app. induction rest as [|x rest IH]; [simpl; lia|].
  rewrite !fmap_cons. cbn [concat app length sum_list_with].
  rewrite length_app. unfold id in *. lia.
Qed.

(** The input sequence of [Base.forward]: with no language list, sample
    [i] is its text, a separator, its prompt, a separator and its
    response.  The batch is as long as the shortest of the three lists,
    and no call of [_join] fails. *)
Theorem merge_text_prompt_response (sep : Row)
    (text proms resps : list (list Row)) :
  _samplewise_merge_tensors [Some text; None; Some proms; Some resps] (Some sep)
  = Ok (zip_with (fun t pr => t ++ sep :: pr.1 ++ sep :: pr.2) text (zip proms resps)).
Proof.
  unfold _samplewise_merge_tensors. cbn [omap list_omap id].
  change (omap id [Some text; None; Some proms; Some resps])
    with [text; proms; resps].
  cbn [py_zip_star].
  revert proms resps. induction text as [|t text IH]; intros proms resps.
  - reflexivity.
  - destruct proms as [|p proms]; [reflexivity|].
    destruct resps as [|r resps]; [reflexivity|].
    specialize (IH proms resps).
    cbn [fmap list_fmap zip_with zip collect _join foldl app] in *.
    rewrite IH. cbn [fst snd]. do 2 f_equal.
    now rewrite <- app_assoc.
Qed.

(** Without a separator the pieces are simply concatenated. *)
Lemma merge_without_separator (a b : list (list Row)) :
  _samplewise_merge_tensors [Some a; Some b] None = Ok (zip_with app a b).
Proof.
  unfold _samplewise_merge_tensors.
  change (omap id [Some a; Some b]) with [a; b]. cbn [py_zip_star].
  revert b. induction a as [|x a IH]; intros b; [reflexivity|].
  destruct b as [|y b]; [reflexivity|]. specialize (IH b).
  cbn [fmap list_fmap zip_with collect concat app] in *.
  rewrite IH. simpl. now rewrite app_nil_r.
Qed.

End MergeFacts.

Section EmbeddingFacts.
Import Tensors.
Context {V : Type}.

Lemma collect_app {A : Type} (xs ys : list (result A)) (l1 l2 : list A) :
  collect xs = Ok l1 -> collect ys = Ok l2 -> collect (xs ++ ys) = Ok (l1 ++ l2).
Proof.
  revert l1. induction xs as [|[a|e] xs IH]; intros l1 H1 H2; simpl in *.
  - injection H1 as <-. exact H2.
  - destruct (collect xs) as [l|e]; [|discriminate]. injection H1 as <-.
    now rewrite (IH l eq_refl H2).
  - discriminate.
Qed.

Lemma collect_rows (weight : list V) (x : list Z) (y : list V) :
  Forall2 (fun t v => embedding_row weight t = Ok v) x y ->
  collect (embedding_row weight <$> x) = Ok y.
Proof.
  induction 1 as [|t v x y Ht _ IH]; [reflexivity|].
  rewrite fmap_cons. cbn [collect]. now rewrite Ht, IH.
Qed.

Lemma split_sizes_concat {A : Type} (ys : list (list A)) :
  split_sizes (length <$> ys) (concat ys) = Ok ys.
Proof.
  induction ys as [|y ys IH]; [reflexivity|].
  rewrite fmap_cons. cbn [concat split_sizes]. rewrite length_app.
  replace (length y + length (concat ys) <? length y)%nat with false
    by (symmetry; apply Nat.ltb_ge; lia).
  rewrite drop_app_length, IH, take_app_length. reflexivity.
Qed.

(** [Embedding.forward] keeps the batch structure: when every token is
    inside the table, sequence [i] of the result holds the rows of the
    tokens of sequence [i], although the lookup runs on the concatenation
    of all sequences. *)
Theorem embedding_forward_per_sequence (weight : list V)
    (x_list : list (list Z)) (y_list : list (list V)) :
  Forall2 (Forall2 (fun t v => embedding_row weight t = Ok v)) x_list y_list ->
  embedding_forward weight x_list = Ok y_list.
Proof.
  intros H. unfold embedding_forward.
  assert (Hrows : collect (embedding_row weight <$> concat x_list) = Ok (concat y_list)).
  { induction H as [|x y xs ys Hxy _ IH]; [reflexivity|].
    cbn [concat]. rewrite fmap_app.
    apply collect_app; [now apply collect_rows|exact IH]. }
  assert (Hlen : length <$> x_list = length <$> y_list).
  { clear Hrows. induction H as [|x y xs ys Hxy _ IH]; [reflexivity|].
    rewrite !fmap_cons. f_equal; [eapply Forall2_length; exact Hxy|exact IH]. }
  destruct x_list as [|x xs].
  - inversion H. reflexivity.
  - rewrite Hrows, Hlen. apply split_sizes_concat.
Qed.

(** One token outside the table, in any sequence, fails the whole
    batch. *)
Theorem embedding_forward_out_of_range (weight : list V)
    (x_list : list (list Z)) (x : list Z) (t : Z) :
  x ∈ x_list -> t ∈ x ->
  t < 0 \/ Z.of_nat (length weight) <= t ->
  embedding_forward weight x_list = Raise IndexError.
Proof.
  intros Hx Ht Hrange. unfold embedding_forward.
  assert (Hin : t ∈ concat x_list).
  { apply list_elem_of_In, in_concat. exists x.
    split; apply list_elem_of_In; assumption. }
  assert (Hrow : embedding_row weight t = Raise IndexError).
  { unfold embedding_row.
    destruct (0 <=? t) eqn:H0, (t <? Z.of_nat (length weight)) eqn:H1; simpl;
      try reflexivity.
    apply Z.leb_le in H0. apply Z.ltb_lt in H1. lia. }
  assert (Hall : forall e v, embedding_row weight v = Raise e -> e = IndexError).
  { intros e v. unfold embedding_row.
    destruct (_ && _); [destruct (weight !! _)|]; congruence. }
  assert (Hcol : forall l : list Z, t ∈ l ->
            collect (embedding_row weight <$> l) = Raise IndexError).
  { induction l as [|a l IH]; intros Hl; [inversion Hl|].
    rewrite fmap_cons. cbn [collect].
    destruct (embedding_row weight a) as [v|e] eqn:Ha.
    - apply elem_of_cons in Hl as [-> | Hl]; [congruence|].
      now rewrite IH.
    - now rewrite (Hall e a Ha). }
  destruct x_list as [|x' xs]; [inversion Hx|].
  now rewrite Hcol.
Qed.

End EmbeddingFacts.

(** * The other branches of the time slice in [sample] *)

Section SliceFacts.
Import Sampling.

Lemma slice_from_last {A : Type} (n : nat) (v : list A) :
  slice_from (- Z.of_nat n) v
  = match n with O => v | S _ => drop (length v - n) v end.
Proof.
  unfold slice_from. destruct n as [|n].
  - change (- Z.of_nat 0 <? 0) with false. cbv iota.
    rewrite Z.min_l by lia. reflexivity.
  - replace (- Z.of_nat (S n) <? 0) with true by (symmetry; apply Z.ltb_lt; lia).
    f_equal. lia.
Qed.

Lemma drop_to_last_row {A : Type} (v : list A) :
  drop (length v - 1) v
  = match list.last v with Some row => [row] | None => [] end.
Proof.
  induction v as [|a v IH]; [reflexivity|].
  destruct v as [|b v]; [reflexivity|].
  rewrite last_cons_cons, <- IH. cbn [length].
  replace (S (S (length v)) - 1)%nat with (S (S (length v) - 1)) by lia.
  reflexivity.
Qed.

(** The non-autoregressive branch pairs logits with responses, as many
    as the shorter list has, and keeps of each logits tensor its last
    [len(resp)] rows, or all of them when it has fewer.  For an empty
    response the slice [logit[-0:]] is the whole tensor, not an empty
    one. *)
Theorem time_slice_nar {Row Code QL : Type} (m : Model)
    (logits : list (list Row)) (resps_list : list (list Code)) (ql : QL) :
  time_slice m logits resps_list (Some ql)
  = Ok (zip_with (fun logit resp =>
                    match resp with
                    | [] => logit
                    | _ :: _ => drop (length logit - length resp) logit
                    end) logits resps_list).
Proof.
  unfold time_slice, py_zip, py_iter, lengths. f_equal.
  revert resps_list. induction logits as [|logit logits IH]; intros resps_list.
  - reflexivity.
  - destruct resps_list as [|resp resps_list]; [reflexivity|].
    rewrite fmap_cons. cbn [zip zip_with fmap list_fmap].
    cbn [zip zip_with fmap list_fmap] in IH. rewrite IH.
    f_equal. cbn [fst snd]. rewrite slice_from_last.
    destruct resp; reflexivity.
Qed.

(** The plain autoregressive branch (not causal, or no chunk size)
    keeps of every logits tensor its last row only, and nothing of an
    empty one; the responses are not looked at. *)
Theorem time_slice_last_row {Row Code : Type} (m : Model)
    (logits : list (list Row)) (resps_list : list (list Code)) :
  causal m && (recurrent_chunk_size m >? 0) = false ->
  time_slice (QL := unit) m logits resps_list None
  = Ok ((fun logit => match list.last logit with
                      | Some row => [row]
                      | None => []
                      end) <$> logits).
Proof.
  intros H. unfold time_slice. rewrite H. f_equal.
  apply list_fmap_ext. intros _ logit _.
  change (-1) with (- Z.of_nat 1). rewrite slice_from_last.
  apply drop_to_last_row.
Qed.

End SliceFacts.

Lemma time_slice_last_row_witness :
  Sampling.time_slice (QL := unit) (Code := Z)
    {| Sampling.causal := true; Sampling.recurrent_chunk_size := 0;
       Sampling.n_tokens := 1024 |}
    [[10; 11; 12]; []] [[1; 2; 3]; [4]] None
  = Ok ((fun logit => match list.last logit with
                      | Some row => [row]
                      | None => []
                      end) <$> [[10; 11; 12]; []]).
Proof.
  apply (time_slice_last_row (Row := Z) (Code := Z)). reflexivity.
Defined.

(** * Default environment of the distributed context *)

Section EnvFacts.
Import Distributed.

Lemma existsb_set (env : gmap string string) (port : string) :
  existsb (fun kv : string * string => bool_decide (is_Some (env !! kv.1)))
    (default_envs port) = false ->
  forall k, k ∈ Distributed.rendezvous_variables -> env !! k = None.
Proof.
  unfold default_envs, rendezvous_variables. cbn [existsb fst].
  rewrite !orb_false_iff. intros (H1 & H2 & H3 & H4 & H5 & _) k Hk.
  apply bool_decide_eq_false_1 in H1, H2, H3, H4, H5.
  assert (Hn : forall x, ~ is_Some (env !! x) -> env !! x = None).
  { intros x Hx. destruct (env !! x); [exfalso; eauto|reflexivity]. }
  repeat (apply elem_of_cons in Hk as [-> | Hk]; [auto|]).
  inversion Hk.
Qed.

(** The first call of [fix_unset_envs] is all or nothing.  If one of the
    five variables is set, the environment is left as it is, with the
    other four still missing if they were; if none is set, all five get
    their defaults and no other variable changes.  Every later call does
    nothing, whatever the environment has become. *)
Theorem fix_unset_envs_all_or_nothing (port : string) (s : ModState) :
  fix_unset_envs_cached s = false ->
  let s' := fix_unset_envs port s in
  ((exists k, k ∈ Distributed.rendezvous_variables /\ is_Some (environ s !! k)) ->
   environ s' = environ s) /\
  ((forall k, k ∈ Distributed.rendezvous_variables -> environ s !! k = None) ->
   environ s' !! "RANK"%string = Some "0"%string /\
   environ s' !! "WORLD_SIZE"%string = Some "1"%string /\
   environ s' !! "MASTER_ADDR"%string = Some "localhost"%string /\
   environ s' !! "MASTER_PORT"%string = Some port /\
   environ s' !! "LOCAL_RANK"%string = Some "0"%string /\
   forall k, k ∉ Distributed.rendezvous_variables -> environ s' !! k = environ s !! k) /\
  (forall port' env',
     fix_unset_envs port' (with_environ env' s') = with_environ env' s').
Proof.
  intros Hc s'. subst s'. unfold fix_unset_envs. rewrite Hc.
  split; [|split].
  - intros (k & Hk & Hset). cbn [environ].
    destruct (existsb _ _) eqn:E; [reflexivity|].
    rewrite (existsb_set _ _ E k Hk) in Hset. destruct Hset; discriminate.
  - intros Hnone. cbn [environ].
    replace (existsb _ _) with false.
    2: { symmetry. unfold default_envs. cbn [existsb fst].
         rewrite !Hnone by (unfold rendezvous_variables; set_solver).
         reflexivity. }
    unfold default_envs. cbn [foldl fst snd].
    repeat split.
    + rewrite !lookup_insert_ne by discriminate. apply lookup_insert_eq.
    + rewrite !lookup_insert_ne by discriminate. apply lookup_insert_eq.
    + rewrite !lookup_insert_ne by discriminate. apply lookup_insert_eq.
    + rewrite !lookup_insert_ne by discriminate. apply lookup_insert_eq.
    + apply lookup_insert_eq.
    + intros k Hk. unfold rendezvous_variables in Hk.
      rewrite !lookup_insert_ne; [reflexivity|..]; intros <-; apply Hk; set_solver.
  - intros port' env'. reflexivity.
Qed.

End EnvFacts.

Lemma fix_unset_envs_all_or_nothing_witness :
  let s := Distributed.module_init (<["MASTER_PORT"%string := "29500"%string]> ∅) in
  let s' := Distributed.fix_unset_envs "40000" s in
  ((exists k, k ∈ Distributed.rendezvous_variables /\ is_Some (Distributed.environ s !! k)) ->
   Distributed.environ s' = Distributed.environ s) /\
  ((forall k, k ∈ Distributed.rendezvous_variables -> Distributed.environ s !! k = None) ->
   Distributed.environ s' !! "RANK"%string = Some "0"%string /\
   Distributed.environ s' !! "WORLD_SIZE"%string = Some "1"%string /\
   Distributed.environ s' !! "MASTER_ADDR"%string = Some "localhost"%string /\
   Distributed.environ s' !! "MASTER_PORT"%string = Some "40000"%string /\
   Distributed.environ s' !! "LOCAL_RANK"%string = Some "0"%string /\
   forall k, k ∉ Distributed.rendezvous_variables ->
             Distributed.environ s' !! k = Distributed.environ s !! k) /\
  (forall port' env',
     Distributed.fix_unset_envs port' (Distributed.with_environ env' s')
     = Distributed.with_environ env' s').
Proof.
  intros s s'.
  apply (fix_unset_envs_all_or_nothing "40000" s). reflexivity.
Defined.

(** * Scheduled commands of the training loop *)

Section EventFacts.
Import Trainer.
Variable py_int : string -> option Z.

Lemma split_char_nonempty (sep : Ascii.ascii) (s : string) :
  exists piece pieces, split_char sep s = piece :: pieces.
Proof.
  induction s as [|c s (p & ps & IH)]; simpl; [eauto|].
  destruct (Ascii.eqb c sep); [eauto|]. rewrite IH. eauto.
Qed.

Lemma split_char_length (sep : Ascii.ascii) (s : string) :
  length (split_char sep s) = S (count_char sep s).
Proof.
  induction s as [|c s IH]; simpl; [reflexivity|].
  destruct (Ascii.eqb c sep); simpl; [now rewrite IH|].
  destruct (split_char_nonempty sep s) as (p & ps & Hs).
  rewrite Hs in *. simpl in *. exact IH.
Qed.

Lemma join_split_char (sep : Ascii.ascii) (s : string) :
  join_char sep (split_char sep s) = s.
Proof.
  induction s as [|c s IH]; [reflexivity|].
  cbn [split_char].
  destruct (split_char_nonempty sep s) as (p & ps & Hs). rewrite Hs in *.
  destruct (Ascii.eqb c sep) eqn:E.
  - apply Ascii.eqb_eq in E. subst c.
    change (join_char sep (EmptyString :: p :: ps))
      with (String sep (join_char sep (p :: ps))).
    now rewrite IH.
  - destruct ps as [|q ps].
    + change (join_char sep [String c p]) with (String c (join_char sep [p])).
      now rewrite IH.
    + change (join_char sep (String c p :: q :: ps))
        with (String c (join_char sep (p :: q :: ps))).
      now rewrite IH.
Qed.

Lemma contains_char (sep : Ascii.ascii) (s : string) :
  contains (String sep EmptyString) s = negb (Nat.eqb (count_char sep s) 0).
Proof.
  induction s as [|c s IH]; [reflexivity|].
  cbn [contains String.prefix count_char]. rewrite IH.
  destruct (Ascii.ascii_dec sep c) as [<-|Hne].
  - rewrite Ascii.eqb_refl. destruct s; reflexivity.
  - replace (Ascii.eqb c sep) with false
      by (symmetry; apply Ascii.eqb_neq; congruence).
    reflexivity.
Qed.

(** What a typed command does to the schedule depends on how many ["@"]
    it holds.  None: the command is passed on.  One: the command is
    consumed and the event is added, or silently not added when the part
    after the sign is not an integer.  Two or more: [ValueError] from the
    unpacking, which no handler catches. *)
Theorem register_event_by_count (command : string) (events : list (string * Z)) :
  match count_char at_sign command with
  | O => register_event py_int command events = Ok (command, events)
  | S O =>
      exists what when,
        command = String.append what (String at_sign when) /\
        register_event py_int command events
        = Ok (EmptyString,
              match py_int when with
              | Some n => events ++ [(what, n)]
              | None => events
              end)
  | S (S _) =>
      register_event py_int command events
      = Raise (ValueError "too many values to unpack (expected 2)")
  end.
Proof.
  unfold register_event. rewrite contains_char.
  pose proof (split_char_length at_sign command) as Hlen.
  pose proof (join_split_char at_sign command) as Hjoin.
  destruct (count_char at_sign command) as [|[|n]]; cbn [Nat.eqb negb].
  - reflexivity.
  - destruct (split_char at_sign command) as [|what [|when [|x l]]];
      try discriminate.
    exists what, when. split; [symmetry; exact Hjoin|reflexivity].
  - destruct (split_char at_sign command) as [|a [|b [|c l]]];
      try discriminate. reflexivity.
Qed.



End EventFacts.

(** * Which checkpoint directories are removed *)

From stdpp Require sorting.

Section RetentionFacts.
Import Retention.

Lemma insert_by_mtime_perm (x : entry) (l : list entry) :
  insert_by_mtime x l ≡ₚ x :: l.
Proof.
  induction l as [|y l IH]; simpl; [reflexivity|].
  destruct (e_mtime x <=? e_mtime y); [reflexivity|].
  rewrite IH. apply Permutation_swap.
Qed.

Lemma sort_by_mtime_perm (l : list entry) : sort_by_mtime l ≡ₚ l.
Proof.
  induction l as [|x l IH]; simpl; [reflexivity|].
  unfold sort_by_mtime in *. simpl. rewrite insert_by_mtime_perm. now rewrite IH.
Qed.

Lemma insert_by_mtime_sorted (x : entry) (l : list entry) :
  Stdlib.Sorting.Sorted.StronglySorted older_or_same l ->
  Stdlib.Sorting.Sorted.StronglySorted older_or_same (insert_by_mtime x l).
Proof.
  induction 1 as [|y l Hs IH Hy]; simpl.
  - repeat constructor.
  - destruct (e_mtime x <=? e_mtime y) eqn:E.
    + apply Z.leb_le in E. constructor; [constructor; assumption|].
      constructor; [exact E|].
      eapply Forall_impl; [|exact Hy]. unfold older_or_same. intros; lia.
    + apply Z.leb_gt in E. constructor; [exact IH|].
      rewrite insert_by_mtime_perm. constructor; [unfold older_or_same; lia|exact Hy].
Qed.

Lemma sort_by_mtime_sorted (l : list entry) :
  Stdlib.Sorting.Sorted.StronglySorted older_or_same (sort_by_mtime l).
Proof.
  induction l as [|x l IH]; [constructor|].
  apply insert_by_mtime_sorted. exact IH.
Qed.

(** Retention on the leader with a positive limit [k]: the directories
    are split into those removed and those kept; [k] stay, or all of them
    when there are fewer; nothing removed is newer than anything kept;
    and plain files, such as the [latest] pointer, are never removed. *)
Theorem retention_keeps_newest (keep : Z) (listing : list entry) :
  0 < keep ->
  let dirs := filter (fun d => e_is_dir d = true) listing in
  let removed := to_remove keep true listing in
  let stay := kept keep true listing in
  removed ++ stay ≡ₚ dirs /\
  length stay = Nat.min (Z.to_nat keep) (length dirs) /\
  (forall r k, r ∈ removed -> k ∈ stay -> e_mtime r <= e_mtime k) /\
  Forall (fun d => e_is_dir d = true) removed.
Proof.
  intros Hk dirs removed stay. subst removed stay.
  unfold to_remove, kept, all_but_last. fold dirs.
  replace (keep >? 0) with true by (symmetry; apply Z.gtb_lt; lia). cbn [andb].
  assert (Hlen : length (sort_by_mtime dirs) = length dirs)
    by (apply Permutation_length, sort_by_mtime_perm).
  rewrite Hlen.
  set (n := (length dirs - Z.to_nat keep)%nat).
  split; [|split; [|split]].
  - rewrite take_drop. apply sort_by_mtime_perm.
  - rewrite length_drop, Hlen. subst n. lia.
  - intros r k Hr Hk'.
    apply (stdpp.sorting.StronglySorted_app_1_elem_of older_or_same
             (take n (sort_by_mtime dirs)) (drop n (sort_by_mtime dirs)));
      [rewrite take_drop; apply sort_by_mtime_sorted | exact Hr | exact Hk'].
  - apply list.Forall_forall. intros d Hd.
    assert (Hin : d ∈ dirs).
    { rewrite <- (sort_by_mtime_perm dirs), <- (take_drop n (sort_by_mtime dirs)).
      apply elem_of_app. left. exact Hd. }
    subst dirs. apply list_elem_of_filter in Hin. tauto.
Qed.

(** Without a positive limit, or away from the leader, nothing is
    removed. *)
Lemma retention_off (keep : Z) (leader : bool) (listing : list entry) :
  keep <= 0 \/ leader = false ->
  to_remove keep leader listing = [].
Proof.
  intros [Hk | ->]; unfold to_remove.
  - replace (keep >? 0) with false; [reflexivity|].
    symmetry. rewrite Z.gtb_ltb. apply Z.ltb_ge. lia.
  - now rewrite andb_false_r.
Qed.

End RetentionFacts.

(** * Worked instances *)

Lemma load_legacy_checkpoint_witness :
  exists e',
    EngineM.load_checkpoint (BE := Demo.backend) Demo.old_disk ["ckpt"; "ar"]%string
      (Some "old"%string) true true true false Demo.fresh = (e', Ok tt) /\
    EngineM.global_steps e' = 5 /\ EngineM.micro_steps e' = 10 /\
    EngineM.global_samples e' = 40 /\ EngineM.tokens_processed e' = 0 /\
    EngineM.state_dict (EngineM.module e')
    = <["w"%string := 1]> (<["b"%string := 2]> ∅) /\
    EngineM.optimizer e' = EngineM.optimizer Demo.fresh /\
    EngineM.lr_scheduler e' = EngineM.lr_scheduler Demo.fresh.
Proof.
  apply (load_legacy_checkpoint (BE := Demo.backend) Demo.old_disk
           ["ckpt"; "ar"]%string "old" true true true false Demo.fresh
           Demo.legacy_checkpoint).
  all: vm_compute; reflexivity.
Defined.

(** The module has [w] and [b]; the checkpoint has [w] and
    [embedding]. *)
Lemma load_mismatched_weights_witness :
  let sd : gmap string Z := <["w"%string := 1]> (<["embedding"%string := 1]> ∅) in
  exists e',
    EngineM.load_checkpoint (BE := Demo.backend) Demo.old_disk ["ckpt"; "ar"]%string
      (Some "partial"%string) true true true false Demo.loader
    = (e', Raise (RuntimeError "Error(s) in loading state_dict")) /\
    EngineM.global_steps e' = 5 /\ EngineM.micro_steps e' = 10 /\
    EngineM.global_samples e' = 40 /\ EngineM.tokens_processed e' = 0 /\
    (forall name p w, EngineM.module Demo.loader !! name = Some p ->
       sd !! name = Some w ->
       EngineM.module e' !! name = Some (mkParam w (requires_grad p))) /\
    (forall name p, EngineM.module Demo.loader !! name = Some p ->
       sd !! name = None ->
       EngineM.module e' !! name = Some p) /\
    (forall name, EngineM.module Demo.loader !! name = None ->
       EngineM.module e' !! name = None) /\
    EngineM.optimizer e' = EngineM.optimizer Demo.loader /\
    EngineM.lr_scheduler e' = EngineM.lr_scheduler Demo.loader.
Proof.
  intros sd.
  apply (load_mismatched_weights (BE := Demo.backend) Demo.old_disk
           ["ckpt"; "ar"]%string "partial" true true true false Demo.loader
           Demo.partial_checkpoint 5 10 40 0 sd).
  1-6: vm_compute; reflexivity.
  intros H. apply (f_equal (fun d : gset string => bool_decide ("b"%string ∈ d))) in H.
  vm_compute in H. discriminate.
Defined.

(** There the weight [w] has been overwritten and [b] has not. *)
Example load_mismatched_weights_example :
  let r := EngineM.load_checkpoint (BE := Demo.backend) Demo.old_disk
             ["ckpt"; "ar"]%string (Some "partial"%string) true true true false
             Demo.loader in
  p_data <$> EngineM.module r.1 !! "w"%string = Some 1 /\
  p_data <$> EngineM.module r.1 !! "b"%string = Some 0 /\
  r.2 = Raise (RuntimeError "Error(s) in loading state_dict").
Proof. vm_compute. repeat split. Qed.


(** A second save under the tag [latest] fails on the pointer file that
    the first save wrote, and a first one on the directory it has just
    made. *)
Example save_tag_latest_example :
  snd <$> EngineM.save_checkpoint ["ckpt"; "ar"]%string "latest" Demo.saved Demo.disk
  = Some (Raise (FileExistsError ["ckpt"; "ar"; "latest"]%string)) /\
  snd <$> EngineM.save_checkpoint ["ckpt"; "ar"]%string "latest" Demo.saved ∅
  = Some (Raise (IsADirectoryError ["ckpt"; "ar"; "latest"]%string)).
Proof. vm_compute. split; reflexivity. Qed.

Lemma load_module_only_keeps_optimizer_witness :
  let r := Coordinator.engine_load Demo.config_module_only Demo.disk
             (Some "3"%string) "ar" Demo.loader in
  EngineM.optimizer r.1 = EngineM.optimizer Demo.loader /\
  EngineM.lr_scheduler r.1 = EngineM.lr_scheduler Demo.loader.
Proof.
  intros r.
  apply (load_module_only_keeps_optimizer (BE := Demo.backend) Demo.config_module_only
           Demo.disk (Some "3"%string) "ar" Demo.loader r.1 r.2).
  - reflexivity.
  - apply surjective_pairing.
Defined.

Lemma step_without_trained_engines_witness :
  exists l stats,
    Coordinator.step (Demo.config 2 4) Demo.good_feeder Demo.no_scalars 1 (fun n => n)
      3 Demo.batch 0%nat (Coordinator.new_engines [("nar"%string, Demo.frozen)])
    = Some ((Coordinator._update (Demo.config 2 4)
               (Coordinator.new_engines [("nar"%string, Demo.frozen)])).1,
            l, Ok stats) /\
    Coordinator.per_engine stats = [] /\
    Coordinator.feeder_calls l = [] /\ Coordinator.l_feeder l = 0%nat /\
    Coordinator.l_batch l = Demo.batch /\
    Coordinator.items
      (Coordinator._update (Demo.config 2 4)
         (Coordinator.new_engines [("nar"%string, Demo.frozen)])).1
    = Coordinator.items (Coordinator.new_engines [("nar"%string, Demo.frozen)]).
Proof.
  apply (step_without_trained_engines (BE := Demo.backend) (Demo.config 2 4)
           Demo.good_feeder Demo.no_scalars 1 (fun n => n) 3 Demo.batch 0%nat).
  repeat constructor.
Defined.

Lemma demo_weights_nonempty : EngineM.module Demo.fresh <> ∅.
Proof.
  intros H. apply (f_equal (fun m => m !! "w"%string)) in H.
  vm_compute in H. discriminate.
Defined.

Lemma step_feeder_returns_none_witness :
  exists es' l stats,
    Coordinator.step (Demo.config 2 4) Demo.skipping_feeder Demo.no_scalars 1
      (fun n => n) 1 Demo.batch 0%nat
      (Coordinator.new_engines ([] ++ ("ar"%string, Demo.fresh)
                                :: [("nar"%string, Demo.frozen)]))
    = Some (es', l, Ok stats) /\
    Coordinator.items es'
    = [] ++ ("ar"%string, Demo.fresh) :: [("nar"%string, Demo.frozen)] /\
    Coordinator.per_engine stats = [] /\
    Coordinator.feeder_calls l = [("ar"%string, Demo.batch)].
Proof.
  apply (step_feeder_returns_none (BE := Demo.backend) (Demo.config 2 4)
           Demo.skipping_feeder Demo.no_scalars 1 (fun n => n)
           "ar"%string Demo.fresh [] [("nar"%string, Demo.frozen)]
           Demo.batch 0%nat 1%nat).
  - repeat constructor.
  - reflexivity.
  - exact demo_weights_nonempty.
  - reflexivity.
  - right. left. lia.
  - lia.
Defined.

Lemma step_fatal_feeder_error_witness :
  exists l,
    Coordinator.step (Demo.config 2 4) Demo.broken_feeder Demo.no_scalars 1
      (fun n => n) 1 Demo.batch 0%nat
      (Coordinator.new_engines ([] ++ ("ar"%string, Demo.fresh)
                                :: [("nar"%string, Demo.frozen)]))
    = Some (Coordinator.new_engines ([] ++ ("ar"%string, Demo.fresh)
                                     :: [("nar"%string, Demo.frozen)]),
            l, Raise (RuntimeError "size mismatch for tensor a and tensor b")) /\
    Coordinator.feeder_calls l = [("ar"%string, Demo.batch)] /\
    Coordinator.l_batch l = Demo.batch /\
    (In Coordinator.EvEmergencySave (Coordinator.l_trace l) <->
     exists msg, RuntimeError "size mismatch for tensor a and tensor b"
                 = RuntimeError msg).
Proof.
  apply (step_fatal_feeder_error (BE := Demo.backend) (Demo.config 2 4)
           Demo.broken_feeder Demo.no_scalars 1 (fun n => n)
           "ar"%string Demo.fresh [] [("nar"%string, Demo.frozen)]
           Demo.batch 0%nat 1%nat).
  - repeat constructor.
  - reflexivity.
  - exact demo_weights_nonempty.
  - reflexivity.
  - reflexivity.
  - intros msg [= <-]. reflexivity.
  - lia.
Defined.

Lemma step_unchecked_feeder_error_witness :
  exists l,
    Coordinator.step (Demo.config_unchecked 2 4) Demo.oom_feeder Demo.no_scalars 1
      (fun n => n) 0 Demo.batch 0%nat
      (Coordinator.new_engines ([] ++ ("ar"%string, Demo.fresh)
                                :: [("nar"%string, Demo.frozen)]))
    = Some (Coordinator.new_engines ([] ++ ("ar"%string, Demo.fresh)
                                     :: [("nar"%string, Demo.frozen)]),
            l, Raise (RuntimeError "CUDA out of memory. Tried to allocate 2.00 GiB")) /\
    Coordinator.feeder_calls l = [("ar"%string, Demo.batch)] /\
    Coordinator.l_batch l = Demo.batch /\
    ~ In Coordinator.EvEmergencySave (Coordinator.l_trace l).
Proof.
  apply (step_unchecked_feeder_error (BE := Demo.backend) (Demo.config_unchecked 2 4)
           Demo.oom_feeder Demo.no_scalars 1 (fun n => n)
           "ar"%string Demo.fresh [] [("nar"%string, Demo.frozen)]
           Demo.batch 0%nat 1%nat).
  - repeat constructor.
  - reflexivity.
  - exact demo_weights_nonempty.
  - reflexivity.
  - reflexivity.
Defined.

Lemma demo_oom_weights_nonempty : EngineM.module DemoOom.fresh <> ∅.
Proof.
  intros H. apply (f_equal (fun m => m !! "w"%string)) in H.
  vm_compute in H. discriminate.
Defined.

Lemma step_backward_oom_witness :
  exists l,
    Coordinator.step DemoOom.config DemoOom.good_feeder
      (fun _ : gmap string (Param Z) => []) 1 (fun n => n) 1 Demo.batch 0%nat
      (Coordinator.new_engines ([] ++ ("ar"%string, DemoOom.fresh) :: []))
    = Some (Coordinator.new_engines ([] ++ ("ar"%string, DemoOom.fresh) :: []),
            l, Raise (RuntimeError "Out of memory during backwards pass!")) /\
    Coordinator.feeder_calls l = [("ar"%string, Demo.batch)] /\
    In Coordinator.EvEmergencySave (Coordinator.l_trace l).
Proof.
  eapply (step_backward_oom (BE := DemoOom.backend) DemoOom.config
            DemoOom.good_feeder (fun _ : gmap string (Param Z) => []) 1 (fun n => n)
            "ar"%string DemoOom.fresh [] [] Demo.batch 0%nat 1%nat).
  - constructor.
  - reflexivity.
  - exact demo_oom_weights_nonempty.
  - reflexivity.
  - reflexivity.
  - left. lia.
  - reflexivity.
  - reflexivity.
  - lia.
Defined.

Lemma step_trains_one_engine_witness :
  exists es' l stats e',
    Coordinator.step (Demo.config 2 4) Demo.good_feeder Demo.no_scalars 1
      (fun n => n) 1 Demo.batch 0%nat
      (Coordinator.new_engines ([] ++ ("ar-large"%string, Demo.fresh)
                                :: [("nar"%string, Demo.frozen)]))
    = Some (es', l, Ok stats) /\
    Coordinator.items es'
    = [] ++ ("ar-large"%string, e') :: [("nar"%string, Demo.frozen)] /\
    EngineM.step (Demo.config 2 4)
      (EngineM.set_module (BE := Demo.backend) Demo.weights Demo.fresh)
    = (e', Ok tt) /\
    EngineM.micro_steps e' = EngineM.micro_steps Demo.fresh + 1 /\
    EngineM.global_samples e' = EngineM.global_samples Demo.fresh + 4 /\
    Coordinator.per_engine stats
    = [ Coordinator.Build_EngineStats (BE := Demo.backend)
          (split_head (Ascii.ascii_of_nat 45) "ar-large") 5 3
          (EngineM.global_steps e') (EngineM.global_samples e')
          (EngineM.tokens_processed e')
          (dict_update [("loss.nll"%string, 5)]
             (Coordinator.gather_attribute (BE := Demo.backend) Demo.no_scalars
                ([] ++ ("ar-large"%string, Demo.fresh)
                 :: [("nar"%string, Demo.frozen)]))) ] /\
    Coordinator.it stats = Coordinator._global_step es' /\
    Coordinator.feeder_calls l = [("ar-large"%string, Demo.batch)].
Proof.
  eapply (step_trains_one_engine (BE := Demo.backend) (Demo.config 2 4)
            Demo.good_feeder Demo.no_scalars 1 (fun n => n)
            "ar-large"%string Demo.fresh [] [("nar"%string, Demo.frozen)]
            Demo.batch 0%nat 1%nat).
  - repeat constructor.
  - reflexivity.
  - exact demo_weights_nonempty.
  - reflexivity.
  - right. left. lia.
  - reflexivity.
  - reflexivity.
  - reflexivity.
  - repeat constructor. vm_compute. intros H.
    repeat (apply elem_of_cons in H as [H|H]; [discriminate|]). inversion H.
  - repeat constructor.
  - lia.
Defined.

(** There the entry carries the feeder's one statistic. *)
Example step_trains_one_engine_example :
  match Coordinator.step (Demo.config 2 4) Demo.good_feeder Demo.no_scalars 1
          (fun n => n) 1 Demo.batch 0%nat
          (Coordinator.new_engines [("ar-large"%string, Demo.fresh);
                                    ("nar"%string, Demo.frozen)]) with
  | Some (_, _, Ok stats) =>
      (fun s : @Coordinator.EngineStats Demo.backend =>
         (Coordinator.st_prefix s, Coordinator.st_loss s, Coordinator.st_extra s))
        <$> Coordinator.per_engine stats
      = [("ar"%string, 5, [("loss.nll"%string, 5)])]
  | _ => False
  end.
Proof. vm_compute. reflexivity. Qed.

(** A feeder whose statistics use the name ["loss"]: the step raises
    after the engine has stepped. *)
Example step_statistics_keyword_clash_example :
  match Coordinator.step (Demo.config 2 4) Demo.clashing_feeder Demo.no_scalars 1
          (fun n => n) 1 Demo.batch 0%nat
          (Coordinator.new_engines [("ar"%string, Demo.fresh)]) with
  | Some (es', _, r) =>
      r = Raise (TypeError "dict() got multiple values for keyword argument 'loss'") /\
      (fun ne : string * @EngineM.Engine Demo.backend => EngineM.micro_steps ne.2)
        <$> Coordinator.items es' = [1]
  | None => False
  end.
Proof. vm_compute. split; reflexivity. Qed.

Lemma embedding_forward_per_sequence_witness :
  Tensors.embedding_forward [100; 101; 102] [[0; 2]; []; [1]]
  = Ok [[100; 102]; []; [101]].
Proof.
  apply (embedding_forward_per_sequence [100; 101; 102]).
  repeat constructor.
Defined.

Lemma embedding_forward_out_of_range_witness :
  Tensors.embedding_forward [100; 101; 102] [[0; 2]; [3]] = Raise IndexError.
Proof.
  apply (embedding_forward_out_of_range [100; 101; 102] [[0; 2]; [3]] [3] 3).
  - apply list_elem_of_further, list_elem_of_here.
  - apply list_elem_of_here.
  - right. simpl. lia.
Defined.

Lemma retention_keeps_newest_witness :
  let listing :=
    [ {| Retention.e_name := "300"; Retention.e_is_dir := true; Retention.e_mtime := 30 |};
      {| Retention.e_name := "latest"; Retention.e_is_dir := false; Retention.e_mtime := 31 |};
      {| Retention.e_name := "100"; Retention.e_is_dir := true; Retention.e_mtime := 10 |};
      {| Retention.e_name := "200"; Retention.e_is_dir := true; Retention.e_mtime := 20 |} ] in
  let dirs := filter (fun d => Retention.e_is_dir d = true) listing in
  let removed := Retention.to_remove 2 true listing in
  let stay := Retention.kept 2 true listing in
  removed ++ stay ≡ₚ dirs /\
  length stay = Nat.min (Z.to_nat 2) (length dirs) /\
  (forall r k, r ∈ removed -> k ∈ stay -> Retention.e_mtime r <= Retention.e_mtime k) /\
  Forall (fun d => Retention.e_is_dir d = true) removed.
Proof.
  intros listing. apply (retention_keeps_newest 2 listing). lia.
Defined.

(** There the directory written first is the one removed. *)
Example retention_example :
  Retention.e_name <$> Retention.to_remove 2 true
    [ {| Retention.e_name := "300"; Retention.e_is_dir := true; Retention.e_mtime := 30 |};
      {| Retention.e_name := "latest"; Retention.e_is_dir := false; Retention.e_mtime := 31 |};
      {| Retention.e_name := "100"; Retention.e_is_dir := true; Retention.e_mtime := 10 |};
      {| Retention.e_name := "200"; Retention.e_is_dir := true; Retention.e_mtime := 20 |} ]
  = ["100"%string].
Proof. vm_compute. reflexivity. Qed.
